(* ===== verification/_CoqProject ===== *)
-Q . S2P
Prelude.v
PyBuiltins.v
Orm.v
Models.v
Paginator.v
Urls.v
Forms.v
Views.v
Site.v
Project.v
Client.v
Handlers.v
Tests.v
FollowGraph.v
Concurrency.v
