(* ===== verification/Prelude.v ===== *)
(** * Yatube: a verification development of the [posts] application

    Yatube is a Django blog (src/yatube).  Its own logic is the [posts]
    application: the models of [posts/models.py] (groups, posts,
    comments, follow rows), the request handlers of [posts/views.py] and
    the pagination helper of [posts/utils.py].  Everything else is the
    framework: routing, authentication, forms, the ORM, the paginator,
    templates.  This development is a shallow embedding of the
    application and of the framework behaviour it relies on, with the
    theorems that say what the site does.

    ** How the parts interact, and where each is modelled

    A request is resolved by the URL configuration to a view; the views
    behind [@login_required] get the authenticated user or send the
    visitor to the login page; a view reads and writes the database
    through the ORM, validates a form, paginates a queryset, and answers
    with a rendered template, a redirect or a 404.

    - [Prelude.v] (this file): the state-and-exception monad [exc_state]
      in which views are written, its postcondition [exc_post] (a
      property of every value a computation returns) and the tactic
      [exc_post_solve] that proves one bind at a time, the [bdecide]
      and [exc_simpl] tactics,
      the hint databases [yatube] and [yatube_rw], and generic lemmas.
    - [PyBuiltins.v]: Python's [int(str)] ([py_int]), [str] of an int
      (stdpp's [pretty]) and their round trip, [QueryDict.get]
      ([querydict_get]), slices.
    - [Orm.v]: a [table] is a [gmap] from primary keys to rows with the
      next key of the AutoField sequence; [objects_create], [objects_get],
      [instance_save], [objects_filter], [objects_exists],
      [objects_count], [objects_delete], [objects_update],
      [objects_get_by] (Found / DoesNotExist / MultipleObjectsReturned);
      [queryset] is a filter ordered by the model's [Meta.ordering],
      given by the [MetaOrdering] class.  Lemmas: lookups after each
      operation, [table_wf] (every key below the next key) preserved,
      uniqueness of a column ([unique_by]), the queryset's order is
      canonical ([order_by_unique]) and a row created with the newest
      date comes first ([queryset_create]).  Tables with the same rows
      are equivalent ([≡], a stdpp [Equiv]); every query is [Proper]
      for it, and so are the views that only read ([Views.v]), which is
      how follow-then-unfollow is shown invisible.
    - [Models.v]: one Module per model ([Group], [Post], [Comment],
      [Follow], and the [User] of [django.contrib.auth] reduced to its
      username), the database [db], the [on_delete] rules as
      [delete_post], [delete_group] (SET_NULL) and [delete_user]
      (CASCADE), referential integrity [db_wf], and the fields'
      [verbose_name] and [help_text] ([get_field]).
    - [Paginator.v]: Django's [Paginator] ([num_pages],
      [validate_number], [page_rows], [get_page]) and
      [show_post_count_in_page] of [posts/utils.py] with
      [POST_COUNT = 10].
    - [Urls.v]: the routes of [posts/urls.py] (not in the sources; taken
      from the specification's HTTP table), [reverse] with
      percent-quoting, [resolve] with Django's slug/str/int converters,
      the login URL with [next], [qs_unquote], the unquoting
      [QueryDict] applies to a query value ([unquote_plus]), and the
      pages of the [users] and [about] applications ([app_page],
      [app_resolve], their templates), whose URL files are not in the
      sources either.
    - [Forms.v]: [PostForm] and [CommentForm] ([posts/forms.py] is not
      in the sources; modelled from the specification with the cleaning
      rules of Django's fields), and [CreationForm] of [users]
      ([creation_form_clean]: a valid, free username and two equal
      passwords).
    - [Views.v]: requests, responses and template contexts, and one
      definition per view of [posts/views.py]: [index], [group_posts],
      [profile], [post_detail], [post_create], [create_page_with_form],
      [post_edit], [add_comment], [follow_index], [profile_follow],
      [profile_unfollow], each with all its branches and early returns;
      [template_of] pairs each template context with the template that
      reads it.
    - [Site.v]: [login_required], [dispatch] (the URL configuration
      applied to a request), [handle] (a request run on a database), the
      operations outside the application (sign-up, groups created in the
      admin site, deletions), the step relation [step] and the
      reachable databases [reachable] with their invariant [site_inv];
      the fixtures of the tests; every redirect goes to a final target
      ([handle_final]).
    - [Project.v]: the project's URL configuration [project_handle]:
      the [users] views ([signup_view], a [CreateView] with
      [CreationForm], and the pages of Django's authentication views),
      the [about] pages, then [handle], whose unmatched paths get the
      404 page; a request the model leaves out is [None].
    - [Client.v]: Django's test client: [client_request] (address
      split at ["?"], path unquoted, query parsed with [parse_qsl]) and
      [client_follow], which runs [handle_redirects], the loop of
      [_handle_redirects] with its [RedirectCycleError] checks.
    - [Handlers.v]: theorems about single requests run through [handle].
    - [Tests.v]: every test class of the repository ([posts/tests/],
      [users/tests/], [about/tests.py], [core/tests.py]) as executable
      checks: their tables of addresses, codes, templates and redirects
      and their request sequences, run through [project_handle] with
      the test client of [Client.v] on the fixtures of their
      [setUpClass] or [setUp].
    - [FollowGraph.v]: the specification's follow graph, a set of edges
      with [follow_spec] and [unfollow_spec], the abstraction [edges] of
      the follow table, and the refinement theorem for [profile_follow]
      and [profile_unfollow].
    - [Concurrency.v]: requests served on workers of their own, each
      database statement committed on its own (there is no transaction
      around a view).  A pool of threads, each a request not started
      ([Pending]), a follow request between its [SELECT]s and its
      [INSERT] ([FollowChecked]) or an edit between its reads and its
      [form.save()] ([EditChecked]); [cstep] runs a [step] of the site
      in one go or one half of [profile_follow] ([follow_read]: the
      author by username and the [exists()] test; [follow_write]: the
      [INSERT]) or of [post_edit] ([edit_read]: the post, the author
      test and the form; [edit_write]: Django's [save()], an [UPDATE]
      that becomes an [INSERT] under the same key when the row is
      gone).  The store's foreign keys refuse a write whose rows have
      been deleted in between.  The other views run in one go.

    ** The theorems

    - Invariants of every reachable database, by induction on
      [reachable] ([Site.v]): referential integrity; a follow table
      without duplicate or self-follow rows; the feed of [follow_index]
      is the queryset of the followed authors' posts, each once;
      usernames and group slugs stay unique and every username passes
      the username validator, so no request gets a server error; no step changes the date or author of an existing
      post or an existing comment.
    - The handlers ([Handlers.v]), each on every branch it has: a valid
      new post is saved once, with the user as author, first in the
      list, and redirects to the profile; an invalid one re-renders the
      form with errors and writes nothing; every [@login_required] view
      redirects an anonymous visitor to the login page with [next] and
      writes nothing; a missing group, account or post gives 404; a
      non-author's edit writes nothing, the author's updates the post in
      place; a valid comment appears first on the post's page, an
      invalid one writes nothing; follow then unfollow restores the
      follow table and leaves every read-only page as it was; a new
      post of a followed author heads the feed; the post page lists
      exactly its comments, newest first; the
      profile page shows the author's posts and the right following
      flag; the main page shows the ten newest posts; a [GET] writes
      only through [profile_follow] and [profile_unfollow], and
      [profile_follow] does write on [GET].
    - Concurrency ([Concurrency.v]): [follow_read] then [follow_write]
      is [profile_follow] ([profile_follow_split]); referential
      integrity, unique usernames and unique slugs hold under every
      interleaving ([interleaving_accounts_inv], which for the
      interleaved writes rests on the database's foreign-key
      constraints, written into [follow_write] and [edit_write]); two
      follow
      requests whose [SELECT]s both run before either [INSERT] leave
      two identical follow rows, a database no serial run reaches, and
      the feed then lists the author's posts twice ([follow_race]),
      where the serial run leaves one row and a feed without
      duplicates; [edit_read] then [edit_write] is [post_edit]
      ([post_edit_split]), and a post deleted between an edit's reads
      and its save comes back, [INSERT]ed again by Django's [save()]
      with the edited text and the time of the edit as its
      [auto_now_add] date, and without its comments, where either
      serial order leaves it deleted ([edit_delete_race]).
    - Pagination ([Paginator.v]): [show_post_count_in_page] never
      raises, its pages partition the list in order, and a page number
      below 1 gives the last page.
    - Models ([Models.v]): what CASCADE and SET_NULL remove and keep on
      deleting an account, a post or a group; [Post.__str__] is a prefix
      of fifteen code points.
    - Refinement ([FollowGraph.v]): the follow views implement the
      follow graph of the specification.
    - Round trips: [py_int (pretty z) = Some z] ([PyBuiltins.v]),
      [resolve (route_path r) = Some r] and
      [qs_unquote (quote "/" s) = s] ([Urls.v]), so the [next] of the
      login redirect reads back as the requested path ([Handlers.v]).
    - Typing ([Handlers.v]): every response [handle] returns pairs its
      context with the template [template_of] names for it; the
      templates are not in the sources, so [template_of] is read off
      the views themselves and this is a consistency check of the
      model, proved per view with [exc_post].
    - Liveness ([Handlers.v]): from every reachable database, any
      account can come to follow any other in one step.
    - Sign-up ([Project.v]): a valid [CreationForm] creates exactly one
      account by a [signup] step and redirects to the main page; an
      invalid one writes nothing and re-renders with errors.
    - Termination ([Client.v]): [follow=True] on a reachable database
      ends after at most one redirect with a page that is not a
      redirect and without [RedirectCycleError].
    - The tests ([Tests.v]): every assertion of every test class holds
      on the model (form-field classes and one erroring line apart),
      by evaluation on the tests' fixtures, which checks the model
      against the repository's tests;
      [test_index_cache] holds of every database (it never calls
      [delete()]), while the check it means to make fails, as [index]
      has no page cache.

    ** Modelling choices

    - Integers are [nat] (primary keys, dates as a clock value, counts)
      and [Z] for the parsed page number, which may be negative.  Dates
      are the value of the clock at the request ([req_now]); the
      ordering theorems assume the clock does not go back.
    - Rows with equal ordering fields are in an order the database
      leaves unspecified; the model breaks the tie by descending primary
      key.  The theorems that let a new post or comment have the date of
      an older one and still come first ([handle_post_create_valid],
      [handle_add_comment_valid], [handle_feed_new_post]) rest on this
      choice in that case; with strictly later dates they do not.
    - A request is a [GET] or a [POST]: the views test
      [request.method == 'POST'] and read [request.POST] and
      [request.FILES], which are empty for any other method, so every
      other method behaves as [GET].
    - [int()] is modelled for ASCII whitespace and digits only.
    - Image decoding is an abstract flag of an upload; storage renaming
      of clashing file names is not modelled.
    - Every definition is structurally recursive (lists and strings)
      or a [merge_sort] of stdpp, except the redirect loop of the test
      client, [handle_redirects], which takes fuel.  Its fuel is 21:
      the loop stops by itself once the chain holds more than twenty
      URLs, and [handle_redirects_enough] shows that more fuel than
      that changes nothing; [client_follow_terminates] shows that on
      this site one iteration is all it makes.  The views have no loop
      other than over finite querysets and no recursion: each is a
      total Rocq function.
    - The username validator counts every non-ASCII byte as a word
      character; Django's [\w] accepts letters and digits of any
      script, which agrees on every username of the tests.

    ** Not modelled

    Template rendering (a response records the template name and its
    context), static files, the page cache (never configured in the
    sources), what the authentication views do on [POST] (logging in,
    changing or resetting a password: sessions, password hashes and
    e-mail belong to the framework; the user of a request is given, as
    the specification treats identity as an injected capability), the
    password-reset link with its token, a [POST] to a page that only
    answers [GET] (405), password validators and e-mail syntax in
    [CreationForm], the admin site beyond group creation, database
    errors other than the foreign-key refusal of a stale follow
    [INSERT], the interleaving of statements inside the views other
    than [profile_follow] and [post_edit] ([add_comment] and
    [post_create] create a row naming a post or a group they read,
    which the foreign keys refuse when it is deleted in between;
    [profile_unfollow]'s delete removes the rows that match when it
    runs), and the classes of form fields that
    [test_post_create_page_show_correct_context] and
    [test_signup_view_show_correct_context] inspect. *)

From stdpp Require Import base gmap sets list strings sorting.

Declare Scope yatube_scope.
Delimit Scope yatube_scope with yt.


Create HintDb yatube.
Create Rewrite HintDb yatube_rw.

(** ** A state monad with exceptions

    Django views thread the database through ORM calls and may leave
    early by raising (e.g. [get_object_or_404] raises [Http404]).  We
    model such code in [exc_state S E], the functions from a state to the
    final state and either the raised exception ([inl]) or the value
    ([inr]).  stdpp's [MRet]/[MBind] instances give the [x ← m; k]
    notation. *)
Definition exc_state (S E A : Type) : Type := S → S * (E + A).

#[export] Instance exc_state_ret {S E} : MRet (exc_state S E) :=
  λ A a s, (s, inr a).
#[export] Instance exc_state_bind {S E} : MBind (exc_state S E) :=
  λ A B f m s,
    match m s with
    | (s', inl e) => (s', inl e)
    | (s', inr a) => f a s'
    end.

Definition raise {S E A} (e : E) : exc_state S E A := λ s, (s, inl e).
Definition get_state {S E} : exc_state S E S := λ s, (s, inr s).
Definition put_state {S E} (s' : S) : exc_state S E () := λ _, (s', inr ()).
Definition modify_state {S E} (f : S → S) : exc_state S E () := λ s, (f s, inr ()).

Section monad_laws.
Context {S E : Type}.

Lemma exc_state_bind_ret_l {A B} (a : A) (f : A → exc_state S E B) s :
  (mret a ≫= f) s = f a s.
Proof. done. Qed.

Lemma exc_state_bind_ret_r {A} (m : exc_state S E A) s :
  (m ≫= mret) s = m s.
Proof. cbv. by destruct (m s) as [? [|]]. Qed.

Lemma exc_state_bind_assoc {A B C} (m : exc_state S E A)
    (f : A → exc_state S E B) (g : B → exc_state S E C) s :
  ((m ≫= f) ≫= g) s = (m ≫= (λ a, f a ≫= g)) s.
Proof. cbv. by destruct (m s) as [? [|]]. Qed.

Lemma exc_state_bind_raise {A B} (e : E) (f : A → exc_state S E B) s :
  (raise e ≫= f) s = (s, inl e).
Proof. done. Qed.
End monad_laws.

#[export] Hint Rewrite @exc_state_bind_ret_l @exc_state_bind_raise : yatube_rw.

(** ** Postconditions of values

    [exc_post Q m]: whatever the state, a value [m] returns (rather than
    raises) satisfies [Q].  A computation built with [≫=] has the
    postcondition when every continuation has it, whatever the first part
    does: this is how a property of every response a view can return is
    proved one view at a time. *)
Definition exc_post {S E A} (Q : A → Prop) (m : exc_state S E A) : Prop :=
  ∀ s, match (m s).2 with inr a => Q a | inl _ => True end.

Section exc_post.
Context {S E : Type}.

Lemma exc_post_ret {A} (Q : A → Prop) (a : A) : Q a → exc_post (S:=S) (E:=E) Q (mret a).
Proof. intros HQ s. exact HQ. Qed.

Lemma exc_post_bind {A B} (Q : B → Prop) (m : exc_state S E A) (k : A → exc_state S E B) :
  (∀ a, exc_post Q (k a)) → exc_post Q (m ≫= k).
Proof. intros Hk s. cbv [mbind exc_state_bind]. destruct (m s) as [s' [e|a]]; [done|apply Hk]. Qed.

Lemma exc_post_raise {A} (Q : A → Prop) (e : E) : exc_post (S:=S) Q (raise (A:=A) e).
Proof. intros s. exact I. Qed.

Lemma exc_post_weaken {A} (Q Q' : A → Prop) (m : exc_state S E A) :
  exc_post Q m → (∀ a, Q a → Q' a) → exc_post Q' m.
Proof. unfold exc_post. intros HQ HQ' s. specialize (HQ s). destruct (m s) as [? [|a]]; simpl in *; auto. Qed.
End exc_post.

(** Prove [exc_post Q v] by following the binds and branches of [v],
    leaving [Q] of each returned value to [solve_ret]. *)
Ltac exc_post_solve solve_ret :=
  repeat first
    [ apply exc_post_bind; intros ?
    | apply exc_post_raise
    | apply exc_post_ret; solve_ret
    | case_match ].

(** ** Tactics *)

(** Turn the boolean tests of the code ([bool_decide], [||], [&&]) in the
    hypotheses into the propositions they decide. *)
Ltac bdecide :=
  repeat match goal with
  | H : (_ || _)%bool = false |- _ => apply orb_false_iff in H as [? ?]
  | H : (_ && _)%bool = true |- _ => apply andb_true_iff in H as [? ?]
  | H : bool_decide _ = false |- _ => apply bool_decide_eq_false in H
  | H : bool_decide _ = true |- _ => apply bool_decide_eq_true in H
  end.

(** ** Strings as lists of bytes *)

Lemma list_ascii_of_string_app (s1 s2 : string) :
  String.list_ascii_of_string (s1 +:+ s2) =
    String.list_ascii_of_string s1 ++ String.list_ascii_of_string s2.
Proof. induction s1 as [|c s1 IH]; simpl; [done|]. by rewrite IH. Qed.

#[export] Hint Rewrite list_ascii_of_string_app : yatube_rw.

(** Unfold the monad operations so that [simpl] runs the computation. *)
Ltac exc_simpl :=
  unfold mbind, mret, exc_state_bind, exc_state_ret, raise, get_state, put_state, modify_state;
  simpl.

(** ** Lists *)

(** A join that repeats each row zero times or once is a filter. *)
Lemma mjoin_replicate_filter {A} (b : A → bool) (l : list A) :
  mjoin ((λ x, replicate (if b x then 1 else 0) x) <$> l) = filter (λ x, b x = true) l.
Proof.
  induction l as [|x l IH]; [done|]. rewrite fmap_cons, filter_cons. simpl.
  destruct (b x); simpl; by rewrite IH.
Qed.

(** In a strongly sorted list, every element of a prefix is related to
    every element after it. *)
Lemma StronglySorted_app_rel {A} (R : relation A) l1 l2 x y :
  StronglySorted R (l1 ++ l2) → x ∈ l1 → y ∈ l2 → R x y.
Proof.
  induction l1 as [|z l1 IH]; simpl; intros Hs Hx Hy; [by apply not_elem_of_nil in Hx|].
  inversion Hs as [|? ? Hs' Hall]; subst.
  apply elem_of_cons in Hx as [->|Hx]; [|by apply IH].
  rewrite Forall_forall in Hall. apply Hall. apply elem_of_app. by right.
Qed.

Lemma StronglySorted_app_l {A} (R : relation A) l1 l2 :
  StronglySorted R (l1 ++ l2) → StronglySorted R l1.
Proof.
  induction l1 as [|z l1 IH]; simpl; intros Hs; [constructor|].
  inversion Hs as [|? ? Hs' Hall]; subst. constructor; [by apply IH|].
  rewrite Forall_forall in Hall |- *. intros x Hx. apply Hall. apply elem_of_app. by left.
Qed.

(** Two different elements make a list of length at least two. *)
Lemma length_two_elems {A} (l : list A) x y : x ≠ y → x ∈ l → y ∈ l → 2 ≤ length l.
Proof.
  intros Hne Hx Hy. apply list_elem_of_split in Hx as (l1 & l2 & ->).
  apply elem_of_app in Hy as [Hy|[->|Hy]%elem_of_cons]; [|done|];
    destruct l1, l2; simpl in *; rewrite ?length_app; simpl;
    try (by apply not_elem_of_nil in Hy); lia.
Qed.

(** A join that repeats some element twice has duplicates. *)
Lemma mjoin_replicate_not_NoDup {A} (f : A → nat) l x :
  x ∈ l → 2 ≤ f x → ¬ NoDup (mjoin ((λ y, replicate (f y) y) <$> l)).
Proof.
  intros Hx Hf Hnd. apply list_elem_of_split in Hx as (l1 & l2 & ->).
  rewrite fmap_app, fmap_cons, join_app in Hnd. simpl in Hnd.
  apply NoDup_app in Hnd as (_ & _ & Hnd). apply NoDup_app in Hnd as (Hnd & _ & _).
  destruct (f x) as [|[|n]]; [lia|lia|]. simpl in Hnd.
  apply NoDup_cons in Hnd as [Hn _]. apply Hn. left.
Qed.

(** A join that repeats no element of a list without duplicates has none. *)
Lemma mjoin_replicate_NoDup {A} (f : A → nat) l :
  NoDup l → (∀ y, y ∈ l → f y ≤ 1) → NoDup (mjoin ((λ y, replicate (f y) y) <$> l)).
Proof.
  induction 1 as [|x l Hx Hl IH]; intros Hf; [constructor|]. simpl. apply NoDup_app. split_and!.
  - assert (f x ≤ 1) as Hle by (apply Hf; left). destruct (f x) as [|[|]]; [constructor|by apply NoDup_singleton|lia].
  - intros y (-> & _)%elem_of_replicate (z & Hyz & Hz)%list_elem_of_join.
    apply list_elem_of_fmap in Hz as (w & -> & Hw). apply elem_of_replicate in Hyz as [-> _]. done.
  - apply IH. intros y Hy. apply Hf. by right.
Qed.
