(* ===== verification/PyBuiltins.v ===== *)
(** * PyBuiltins: the Python and Django primitives the views rely on

    - [py_int]: the built-in [int(str)] in base 10, as the paginator
      applies it to the [page] query parameter and Django's [<int:...>]
      URL converter to path segments: surrounding whitespace, an optional
      sign, decimal digits with single underscores between them.  Only
      ASCII whitespace and ASCII digits are modelled.
    - [str] of an integer is stdpp's [pretty], which prints exactly as
      Python does (["-"] sign, no leading zeros); [py_int_pretty] is the
      round trip.
    - [querydict_get]: [QueryDict.get(key)], the last value of the key.
    - [py_slice]: [seq[lo:hi]] for [0 <= lo]. *)

From stdpp Require Import base list strings pretty numbers.
From Stdlib Require Import Ascii ZArith.
From S2P Require Import Prelude.

Local Open Scope Z_scope.

(** ** [int(s)] *)

(** Whitespace as Python's [int] skips it (ASCII part). *)
Definition py_isspace (c : ascii) : bool :=
  let n := nat_of_ascii c in
  ((9 <=? n)%nat && (n <=? 13)%nat) || ((28 <=? n)%nat && (n <=? 32)%nat).

Fixpoint lstrip (l : list ascii) : list ascii :=
  match l with
  | c :: l' => if py_isspace c then lstrip l' else l
  | [] => []
  end.

Definition py_strip (l : list ascii) : list ascii := reverse (lstrip (reverse (lstrip l))).

Definition digit_value (c : ascii) : option Z :=
  let n := nat_of_ascii c in
  if (48 <=? n)%nat && (n <=? 57)%nat then Some (Z.of_nat (n - 48)) else None.

(** Digits with single underscores between them, accumulated from the left. *)
Fixpoint digits_acc (acc : Z) (l : list ascii) : option Z :=
  match l with
  | [] => Some acc
  | c :: l' =>
      if Ascii.eqb c "_" then
        match l' with
        | c' :: l'' => d ← digit_value c'; digits_acc (10 * acc + d) l''
        | [] => None
        end
      else d ← digit_value c; digits_acc (10 * acc + d) l'
  end.

Definition parse_digits (l : list ascii) : option Z :=
  match l with
  | [] => None
  | c :: _ => if Ascii.eqb c "_" then None else digits_acc 0 l
  end.

Definition parse_signed (l : list ascii) : option Z :=
  match l with
  | c :: l' =>
      if Ascii.eqb c "-" then Z.opp <$> parse_digits l'
      else if Ascii.eqb c "+" then parse_digits l'
      else parse_digits l
  | [] => None
  end.

(** [int(s)]: [None] is the [ValueError]. *)
Definition py_int (s : string) : option Z := parse_signed (py_strip (String.list_ascii_of_string s)).

(** ** [QueryDict.get(key)] and slicing *)

(** A query dictionary: the decoded [key=value] pairs in order. *)
Definition querydict := list (string * string).

(** [QueryDict.get(key)]: the last value given for [key], [None] if absent. *)
Definition querydict_get (k : string) (q : querydict) : option string :=
  foldl (λ acc kv, if bool_decide (kv.1 = k) then Some kv.2 else acc) None q.

(** [seq[lo:hi]] for [0 <= lo]: Python clamps both bounds to the length. *)
Definition py_slice {A} (lo hi : nat) (l : list A) : list A := take (hi - lo) (drop lo l).

(** ** [str] slicing by code points

    A Python [str] is a sequence of code points; the model's strings are
    their UTF-8 bytes.  A byte [10xxxxxx] continues a code point, any
    other byte starts one. *)
Definition is_continuation (c : ascii) : bool :=
  (128 <=? nat_of_ascii c)%nat && (nat_of_ascii c <? 192)%nat.

(** [len(s)]: the number of code points. *)
Fixpoint code_points (s : string) : nat :=
  match s with
  | EmptyString => O
  | String c s' => ((if is_continuation c then 0 else 1) + code_points s')%nat
  end.

(** [s[:n]]: the first [n] code points, with all their bytes. *)
Fixpoint py_str_prefix (n : nat) (s : string) : string :=
  match s with
  | EmptyString => EmptyString
  | String c s' =>
      if is_continuation c then String c (py_str_prefix n s')
      else match n with
           | O => EmptyString
           | S n' => String c (py_str_prefix n' s')
           end
  end.

(** ** [int(str(z)) == z] *)

(** The decimal digits [str] prints for a positive [x]. *)
Definition decimal (x : N) : list ascii := String.list_ascii_of_string (pretty_N_go x "").

Lemma digit_value_pretty_char (x : N) :
  (x < 10)%N → digit_value (pretty_N_char x) = Some (Z.of_N x).
Proof.
  intros Hx. assert (x = 0 ∨ x = 1 ∨ x = 2 ∨ x = 3 ∨ x = 4 ∨ x = 5 ∨ x = 6 ∨ x = 7 ∨ x = 8 ∨ x = 9)%N
    as Hcases by lia.
  repeat destruct Hcases as [->|Hcases]; [done..|by subst].
Qed.

Lemma digits_acc_cons_digit acc c l d :
  digit_value c = Some d → digits_acc acc (c :: l) = digits_acc (10 * acc + d) l.
Proof.
  intros Hd. simpl. destruct (Ascii.eqb_spec c "_") as [->|_]; [done|]. by rewrite Hd.
Qed.

Lemma pretty_N_go_app (x : N) (s : string) :
  String.list_ascii_of_string (pretty_N_go x s) = decimal x ++ String.list_ascii_of_string s.
Proof.
  revert s. induction (N.lt_wf_0 x) as [x _ IH]; intros s. unfold decimal.
  destruct (decide (x = 0)%N) as [->|Hx]; [done|].
  rewrite !(pretty_N_go_step x) by lia.
  rewrite !IH by (apply N.div_lt; lia). simpl. by rewrite <-app_assoc.
Qed.

Lemma decimal_step (x : N) :
  (0 < x)%N → decimal x = decimal (x `div` 10) ++ [pretty_N_char (x `mod` 10)].
Proof. intros Hx. unfold decimal at 1. by rewrite pretty_N_go_step, pretty_N_go_app. Qed.

Lemma decimal_digits (x : N) : Forall (λ c, is_Some (digit_value c)) (decimal x).
Proof.
  induction (N.lt_wf_0 x) as [x _ IH].
  destruct (decide (x = 0)%N) as [->|Hx]; [by constructor|].
  rewrite decimal_step by lia. apply Forall_app. split; [apply IH, N.div_lt; lia|].
  constructor; [|done]. rewrite digit_value_pretty_char; [done|]. apply N.mod_lt. lia.
Qed.

(** Reading the digits of [x] adds [x] to the accumulated value. *)
Lemma digits_acc_decimal (x : N) (l : list ascii) :
  digits_acc 0 (decimal x ++ l) = digits_acc (Z.of_N x) l.
Proof.
  revert l. induction (N.lt_wf_0 x) as [x _ IH]; intros l.
  destruct (decide (x = 0)%N) as [->|Hx]; [done|].
  rewrite decimal_step, <-app_assoc by lia. rewrite IH by (apply N.div_lt; lia).
  cbn [app]. rewrite digits_acc_cons_digit with (d := Z.of_N (x `mod` 10)).
  - f_equal. rewrite N2Z.inj_div, N2Z.inj_mod. pose proof (Z.div_mod (Z.of_N x) 10). lia.
  - apply digit_value_pretty_char, N.mod_lt. lia.
Qed.

(** A digit is neither whitespace, a sign nor an underscore. *)
Lemma digit_not_special c d :
  digit_value c = Some d →
  py_isspace c = false ∧ Ascii.eqb c "_" = false ∧ Ascii.eqb c "-" = false ∧
  Ascii.eqb c "+" = false.
Proof.
  unfold digit_value, py_isspace. intros Hd.
  destruct (_ && _)%bool eqn:E; [|done]. apply andb_true_iff in E as [E1 E2].
  apply Nat.leb_le in E1, E2.
  repeat split; [| apply Ascii.eqb_neq; intros ->; vm_compute in E1, E2; lia..].
  apply orb_false_iff; split; apply andb_false_iff; [right|right]; apply Nat.leb_gt; lia.
Qed.

Lemma lstrip_digits l : Forall (λ c, is_Some (digit_value c)) l → lstrip l = l.
Proof.
  destruct l as [|c l']; [done|]. intros Hl. inversion Hl as [|? ? [d Hd] _]; subst.
  simpl. by rewrite (proj1 (digit_not_special c d Hd)).
Qed.

(** A string of digits is left unchanged by [strip]. *)
Lemma py_strip_digits l : Forall (λ c, is_Some (digit_value c)) l → py_strip l = l.
Proof.
  intros Hl. unfold py_strip. rewrite (lstrip_digits l) by done.
  rewrite lstrip_digits; [apply reverse_involutive|by apply Forall_reverse].
Qed.

Lemma decimal_nonempty (x : N) : (0 < x)%N → ∃ c l, decimal x = c :: l.
Proof.
  intros Hx. rewrite decimal_step by done.
  destruct (decimal (x `div` 10)); simpl; eauto.
Qed.

Lemma py_strip_nonspace c l c' :
  py_isspace c = false → py_isspace c' = false → py_strip (c :: l ++ [c']) = c :: l ++ [c'].
Proof.
  intros Hc Hc'. unfold py_strip.
  assert (∀ a m, py_isspace a = false → lstrip (a :: m) = a :: m) as Hl
    by (intros a m Ha; simpl; by rewrite Ha).
  rewrite Hl, app_comm_cons, reverse_snoc, Hl by done.
  by rewrite <-reverse_snoc, reverse_involutive.
Qed.

Lemma parse_digits_decimal (x : N) : (0 < x)%N → parse_digits (decimal x) = Some (Z.of_N x).
Proof.
  intros Hx. pose proof (decimal_digits x) as Hall.
  destruct (decimal_nonempty x Hx) as (c & l & E). rewrite E in Hall |- *.
  inversion Hall as [|? ? [d Hd] _]; subst. cbn [parse_digits].
  rewrite (proj1 (proj2 (digit_not_special c d Hd))), <-E, <-(app_nil_r (decimal x)).
  by rewrite digits_acc_decimal.
Qed.

(** Python's [int(str(z)) == z]: the printer and the parser agree. *)
Theorem py_int_pretty (z : Z) : py_int (pretty z) = Some z.
Proof.
  destruct z as [|p|p]; [done| |].
  - unfold py_int. change (String.list_ascii_of_string (pretty (Z.pos p))) with (decimal (N.pos p)).
    rewrite py_strip_digits by apply decimal_digits.
    destruct (decimal_nonempty (N.pos p)) as (c & l & E); [lia|].
    pose proof (decimal_digits (N.pos p)) as Hall. rewrite E in Hall.
    inversion Hall as [|? ? [d Hd] _]; subst.
    destruct (digit_not_special c d Hd) as (_ & _ & Hm & Hp).
    rewrite E. cbn [parse_signed]. rewrite Hm, Hp, <-E. by rewrite parse_digits_decimal by lia.
  - unfold py_int. change (String.list_ascii_of_string (pretty (Z.neg p)))
      with ("-"%char :: decimal (N.pos p)).
    rewrite decimal_step by lia.
    rewrite py_strip_nonspace; [|done|].
    + rewrite <-decimal_step by lia. cbn [parse_signed].
      by rewrite parse_digits_decimal by lia.
    + eapply digit_not_special, digit_value_pretty_char, N.mod_lt. lia.
Qed.

(** ** Slices of strings *)

Lemma py_str_prefix_app n s : ∃ rest, s = py_str_prefix n s +:+ rest.
Proof.
  revert n. induction s as [|c s IH]; intros n; [by exists EmptyString|]. simpl.
  destruct (is_continuation c); [destruct (IH n) as [rest Hr]; exists rest;
    transitivity (String c (py_str_prefix n s +:+ rest)); [by rewrite <-Hr|reflexivity]|].
  destruct n as [|n]; [by exists (String c s)|].
  destruct (IH n) as [rest Hr]. exists rest.
  transitivity (String c (py_str_prefix n s +:+ rest)); [by rewrite <-Hr|reflexivity].
Qed.

Lemma code_points_py_str_prefix n s : code_points (py_str_prefix n s) = Nat.min n (code_points s).
Proof.
  revert n. induction s as [|c s IH]; intros n; [simpl; lia|].
  cbn [py_str_prefix code_points]. destruct (is_continuation c) eqn:E.
  - cbn [code_points]. rewrite E, IH. lia.
  - destruct n as [|n]; cbn [code_points]; [lia|]. rewrite E, IH. lia.
Qed.

Lemma py_str_prefix_short n s : (code_points s ≤ n)%nat → py_str_prefix n s = s.
Proof.
  revert n. induction s as [|c s IH]; intros n Hn; [done|]. simpl in *.
  destruct (is_continuation c); [by rewrite IH|].
  destruct n as [|n]; [lia|]. rewrite IH by lia. done.
Qed.
