(* ===== verification/Orm.v ===== *)
(** * Orm: database tables and ordered querysets

    The part of Django's ORM that [posts/models.py] and [posts/views.py]
    use: a table of rows indexed by an auto-incremented primary key
    ([Model.objects.create], [instance.save()]), filters
    ([objects.filter(...)], [.exists()], [.count()], [.delete()]) and the
    default ordering declared by [class Meta: ordering = ("-field",)].

    A queryset with a descending ordering is the filtered rows sorted by
    the ordering field, newest first.  The database leaves the order of
    rows with equal field values unspecified; the model breaks such ties
    by descending primary key, which is the insertion order. *)

From stdpp Require Import base gmap sets list strings sorting.
From S2P Require Import Prelude.

(** ** Tables *)

Record table (V : Type) := Table { rows : gmap nat V; next_pk : nat }.
Arguments Table {V} _ _.
Arguments rows {V} _.
Arguments next_pk {V} _.

(** An empty table: AutoField keys start at 1. *)
Definition table_empty {V} : table V := Table ∅ 1.

(** [Model.objects.create(...)] / [instance.save()] of a new instance:
    INSERT with the next value of the key sequence. *)
Definition objects_create {V} (v : V) (t : table V) : nat * table V :=
  (next_pk t, Table (<[next_pk t := v]> (rows t)) (S (next_pk t))).

(** [Model.objects.get(pk=k)] without the exception: [None] is DoesNotExist. *)
Definition objects_get {V} (k : nat) (t : table V) : option V := rows t !! k.

(** [instance.save()] of an instance whose row is stored: the [UPDATE]
    of its row. *)
Definition instance_save {V} (k : nat) (v : V) (t : table V) : table V :=
  Table (<[k := v]> (rows t)) (next_pk t).

(** [Model._save_table] for an instance with a primary key: the [UPDATE]
    of its row when a row has the key; otherwise an [INSERT] under the
    key of the instance as the fields' [pre_save(add=True)] leave it
    ([on_insert]). *)
Definition save_instance {V} (on_insert : V → V) (k : nat) (v : V) (t : table V) : table V :=
  match rows t !! k with
  | Some _ => instance_save k v t
  | None => instance_save k (on_insert v) t
  end.

(** [Model.objects.filter(P)], unordered: the rows satisfying [P]. *)
Definition objects_filter {V} (P : nat → V → bool) (t : table V) : list (nat * V) :=
  filter (λ kv, P kv.1 kv.2 = true) (map_to_list (rows t)).

(** [.exists()] and [.count()] of a filter. *)
Definition objects_exists {V} (P : nat → V → bool) (t : table V) : bool :=
  match objects_filter P t with [] => false | _ => true end.

Definition objects_count {V} (P : nat → V → bool) (t : table V) : nat :=
  length (objects_filter P t).

(** [Model.objects.filter(P).delete()]. *)
Definition objects_delete {V} (P : nat → V → bool) (t : table V) : table V :=
  Table (filter (λ kv : nat * V, P kv.1 kv.2 ≠ true) (rows t)) (next_pk t).

(** [queryset.update(...)] as done by [on_delete=SET_NULL]: map [f] over
    the rows satisfying [P]. *)
Definition objects_update {V} (P : nat → V → bool) (f : V → V) (t : table V) : table V :=
  Table (map_imap (λ k v, Some (if P k v then f v else v)) (rows t)) (next_pk t).

(** Every key is a value the sequence has already produced. *)
Definition table_wf {V} (t : table V) : Prop :=
  0 < next_pk t ∧ ∀ k, k ∈ dom (rows t) → 0 < k < next_pk t.

(** ** Default ordering: [Meta.ordering = ("-field",)]

    The interface a model offers to the ORM: the value of its ordering
    field.  Querysets of a model list rows newest first. *)
Class MetaOrdering (V : Type) := meta_ordering : V → nat.

(** [row_before x y]: [x] is listed no later than [y], comparing
    [(field, pk)] in descending lexicographic order. *)
Definition row_before {V} `{MetaOrdering V} (x y : nat * V) : Prop :=
  meta_ordering y.2 < meta_ordering x.2 ∨
  (meta_ordering y.2 = meta_ordering x.2 ∧ y.1 ≤ x.1).

#[export] Instance row_before_dec {V} `{MetaOrdering V} : RelDecision (@row_before V _).
Proof. intros x y. unfold row_before. apply _. Defined.

(** A queryset: the filtered rows in the model's default order. *)
Definition order_by {V} `{MetaOrdering V} (l : list (nat * V)) : list (nat * V) :=
  merge_sort row_before l.

Definition queryset {V} `{MetaOrdering V} (P : nat → V → bool) (t : table V) : list (nat * V) :=
  order_by (objects_filter P t).

(** ** [Model.objects.get(...)] and its two exceptions *)

Inductive get_result (V : Type) :=
  | Found (k : nat) (v : V)
  | DoesNotExist
  | MultipleObjectsReturned.
Arguments Found {V} _ _.
Arguments DoesNotExist {V}.
Arguments MultipleObjectsReturned {V}.

Definition objects_get_by {V} (P : nat → V → bool) (t : table V) : get_result V :=
  match objects_filter P t with
  | [] => DoesNotExist
  | [(k, v)] => Found k v
  | _ => MultipleObjectsReturned
  end.

(** No two rows share the value of [key] ([unique=True]). *)
Definition unique_by {V K} (key : V → K) (t : table V) : Prop :=
  ∀ k1 v1 k2 v2, rows t !! k1 = Some v1 → rows t !! k2 = Some v2 → key v1 = key v2 → k1 = k2.

(** Two tables are equivalent when they hold the same rows; the key
    sequence, which no query reads, may differ. *)
#[export] Instance table_equiv {V} : Equiv (table V) := λ t1 t2, rows t1 = rows t2.

(** ** Lemmas on tables *)

Section table_lemmas.
Context {V : Type}.
Implicit Types (t : table V) (v : V) (P : nat → V → bool).

Lemma objects_create_pk v t : (objects_create v t).1 = next_pk t.
Proof. done. Qed.

Lemma objects_create_lookup v t k :
  rows (objects_create v t).2 !! k =
    if decide (k = next_pk t) then Some v else rows t !! k.
Proof.
  simpl. case_decide; subst; [by rewrite lookup_insert_eq|].
  by rewrite lookup_insert_ne.
Qed.

Lemma table_wf_empty : table_wf (@table_empty V).
Proof. split; [simpl; lia|]. intros k Hk. unfold table_empty in Hk; simpl in Hk. set_solver. Qed.

(** The next key is fresh in a well-formed table. *)
Lemma table_wf_fresh t : table_wf t → rows t !! next_pk t = None.
Proof.
  intros [_ Hwf]. apply not_elem_of_dom. intros Hin. apply Hwf in Hin. lia.
Qed.

Lemma table_wf_create v t : table_wf t → table_wf (objects_create v t).2.
Proof.
  intros [Hpos Hwf]. split; [simpl; lia|]. intros k. simpl.
  rewrite dom_insert_L, elem_of_union, elem_of_singleton.
  intros [->|Hk]; [|apply Hwf in Hk]; lia.
Qed.

(** The keys of a well-formed table lie below the next key. *)
Lemma table_wf_key t k : table_wf t → is_Some (rows t !! k) → 0 < k < next_pk t.
Proof. intros [_ Hwf] Hk. apply Hwf, elem_of_dom, Hk. Qed.

(** [save()] under a key the sequence has handed out, whether its row is
    still there (an [UPDATE]) or not (an [INSERT] under that key). *)
Lemma table_wf_save_key k v t :
  0 < k < next_pk t → table_wf t → table_wf (instance_save k v t).
Proof.
  intros Hk [Hpos Hwf]. split; [done|]. intros k'. simpl.
  rewrite dom_insert_L, elem_of_union, elem_of_singleton.
  intros [->|Hk']; [done|by apply Hwf].
Qed.

Lemma table_wf_save k v t :
  is_Some (rows t !! k) → table_wf t → table_wf (instance_save k v t).
Proof. intros Hk Hwf. by apply table_wf_save_key; [apply table_wf_key|]. Qed.

Lemma table_wf_delete P t : table_wf t → table_wf (objects_delete P t).
Proof.
  intros [Hpos Hwf]. split; [done|]. intros k Hk. apply Hwf. simpl in Hk.
  apply elem_of_dom in Hk as [w Hw]. apply map_lookup_filter_Some in Hw as [Hw _].
  by apply elem_of_dom.
Qed.

Lemma objects_update_lookup P f t k :
  rows (objects_update P f t) !! k =
    (λ v, if P k v then f v else v) <$> rows t !! k.
Proof. simpl. rewrite map_lookup_imap. by destruct (rows t !! k). Qed.

Lemma table_wf_update P f t : table_wf t → table_wf (objects_update P f t).
Proof.
  intros [Hpos Hwf]. split; [done|]. intros k Hk. apply Hwf.
  apply elem_of_dom in Hk as [w Hw]. rewrite objects_update_lookup in Hw. apply fmap_Some in Hw as (u & Hu & _).
  by apply elem_of_dom.
Qed.

Lemma objects_delete_lookup P t k :
  rows (objects_delete P t) !! k =
    match rows t !! k with
    | Some v => if P k v then None else Some v
    | None => None
    end.
Proof.
  simpl. rewrite map_lookup_filter.
  destruct (rows t !! k) as [v|]; simpl; [|done].
  case_guard; destruct (P k v); naive_solver.
Qed.

Lemma objects_delete_Some P t k v :
  rows (objects_delete P t) !! k = Some v ↔ rows t !! k = Some v ∧ P k v = false.
Proof.
  rewrite objects_delete_lookup.
  destruct (rows t !! k) as [w|]; [destruct (P k w) eqn:E|]; intuition congruence.
Qed.

Lemma objects_update_Some P f t k v :
  rows (objects_update P f t) !! k = Some v ↔
    ∃ w, rows t !! k = Some w ∧ v = if P k w then f w else w.
Proof. rewrite objects_update_lookup, fmap_Some. naive_solver. Qed.

Lemma objects_update_is_Some P f t k :
  is_Some (rows (objects_update P f t) !! k) ↔ is_Some (rows t !! k).
Proof. rewrite objects_update_lookup. apply fmap_is_Some. Qed.

(** A row the deletion does not select survives it. *)
Lemma objects_delete_is_Some P t k :
  is_Some (rows t !! k) → (∀ v, rows t !! k = Some v → P k v = false) →
  is_Some (rows (objects_delete P t) !! k).
Proof.
  intros [v Hv] HP. exists v. apply objects_delete_Some. split; [done|]. by apply HP.
Qed.

Lemma elem_of_objects_filter P t k v :
  (k, v) ∈ objects_filter P t ↔ rows t !! k = Some v ∧ P k v = true.
Proof.
  unfold objects_filter. rewrite list_elem_of_filter, elem_of_map_to_list. simpl. tauto.
Qed.

Lemma objects_filter_NoDup P t : NoDup (objects_filter P t).*1.
Proof.
  apply NoDup_fmap_fst.
  - intros k v1 v2 [H1 _]%elem_of_objects_filter [H2 _]%elem_of_objects_filter.
    congruence.
  - apply NoDup_filter, NoDup_map_to_list.
Qed.

Lemma objects_exists_spec P t :
  objects_exists P t = true ↔ ∃ k v, rows t !! k = Some v ∧ P k v = true.
Proof.
  unfold objects_exists. split.
  - destruct (objects_filter P t) as [|[k v] l] eqn:E; [done|]. intros _.
    exists k, v. apply elem_of_objects_filter. rewrite E. left.
  - intros (k & v & Hkv). apply elem_of_objects_filter in Hkv.
    destruct (objects_filter P t); [by apply not_elem_of_nil in Hkv|done].
Qed.

Lemma objects_exists_ext P Q t :
  (∀ k v, P k v = Q k v) → objects_exists P t = objects_exists Q t.
Proof.
  intros HPQ. destruct (objects_exists Q t) eqn:EQ.
  - apply objects_exists_spec. apply objects_exists_spec in EQ as (k & v & ? & ?).
    exists k, v. by rewrite HPQ.
  - apply not_true_iff_false. intros (k & v & ? & ?)%objects_exists_spec.
    apply not_true_iff_false in EQ. apply EQ, objects_exists_spec. exists k, v. by rewrite <-HPQ.
Qed.

(** Creating a row adds one to every count whose filter it satisfies. *)
Lemma objects_count_create P v t :
  table_wf t →
  objects_count P (objects_create v t).2 =
    objects_count P t + (if P (next_pk t) v then 1 else 0).
Proof.
  intros Hwf. unfold objects_count, objects_filter. simpl.
  rewrite (map_to_list_insert _ _ _ (table_wf_fresh t Hwf)).
  rewrite filter_cons. simpl. destruct (P (next_pk t) v); simpl; lia.
Qed.
End table_lemmas.

#[export] Hint Resolve table_wf_empty table_wf_create table_wf_save table_wf_delete
  table_wf_update : yatube.

(** ** The default ordering is a total preorder; querysets are canonical *)

#[export] Instance row_before_total {V} `{MetaOrdering V} : Total (@row_before V _).
Proof. intros [k1 v1] [k2 v2]. unfold row_before; simpl. lia. Qed.

#[export] Instance row_before_trans {V} `{MetaOrdering V} : Transitive (@row_before V _).
Proof. intros [k1 v1] [k2 v2] [k3 v3]. unfold row_before; simpl. lia. Qed.

(** Two keys whose rows are listed before each other are the same key. *)
Lemma row_before_antisym {V} `{MetaOrdering V} (x y : nat * V) :
  row_before x y → row_before y x → x.1 = y.1.
Proof. unfold row_before. lia. Qed.

(** In a list without repeated keys, a key determines its row. *)
Lemma NoDup_fst_inj {A B} (l : list (A * B)) x y :
  NoDup l.*1 → x ∈ l → y ∈ l → x.1 = y.1 → x = y.
Proof.
  induction l as [|z l IH]; intros Hnd Hx Hy Hxy; [by apply not_elem_of_nil in Hx|].
  inversion Hnd as [|? ? Hz Hnd']; subst.
  apply elem_of_cons in Hx as [->|Hx], Hy as [->|Hy]; [done| | |by apply IH].
  - destruct Hz. rewrite Hxy. by apply list_elem_of_fmap_2.
  - destruct Hz. rewrite <-Hxy. by apply list_elem_of_fmap_2.
Qed.

Section ordering.
Context {V : Type} `{MetaOrdering V}.
Implicit Types (l : list (nat * V)).

Lemma order_by_Permutation l : order_by l ≡ₚ l.
Proof. apply merge_sort_Permutation. Qed.

Lemma order_by_StronglySorted l : StronglySorted row_before (order_by l).
Proof. apply StronglySorted_merge_sort; apply _. Qed.

Lemma elem_of_order_by l x : x ∈ order_by l ↔ x ∈ l.
Proof. by rewrite order_by_Permutation. Qed.

(** The order does not depend on the order the rows were read in: any
    sorted arrangement of rows with distinct keys is [order_by]. *)
Lemma order_by_unique l l' :
  NoDup l.*1 → StronglySorted row_before l' → l' ≡ₚ l → l' = order_by l.
Proof.
  intros Hnd Hs Hp. apply StronglySorted_unique_strong with row_before;
    [|done|apply order_by_StronglySorted|by rewrite order_by_Permutation].
  intros x y Hx Hy Hxy Hyx. apply (NoDup_fst_inj l); [done| | |].
  - by rewrite <-Hp.
  - by rewrite <-order_by_Permutation.
  - by apply row_before_antisym.
Qed.

(** A row listed before every row of [l] comes first. *)
Lemma order_by_first l x :
  NoDup l.*1 → x ∈ l → (∀ y, y ∈ l → row_before x y) →
  ∃ l', order_by l = x :: l'.
Proof.
  intros Hnd Hx Hfirst.
  pose proof (order_by_StronglySorted l) as Hs.
  destruct (order_by l) as [|z l'] eqn:E.
  { apply (elem_of_order_by l) in Hx. rewrite E in Hx. by apply not_elem_of_nil in Hx. }
  exists l'. f_equal.
  assert (x ∈ z :: l') as Hx' by (rewrite <-E; by apply elem_of_order_by).
  apply elem_of_cons in Hx' as [->|Hx']; [done|].
  assert (z ∈ l) as Hz by (rewrite <-elem_of_order_by, E; left).
  apply (NoDup_fst_inj l); [done..|].
  apply row_before_antisym; [|by apply Hfirst].
  apply StronglySorted_inv in Hs as [_ Hall]. rewrite Forall_forall in Hall.
  by apply Hall.
Qed.
End ordering.

Section queryset_lemmas.
Context {V : Type} `{MetaOrdering V}.
Implicit Types (t : table V) (P : nat → V → bool).

Lemma elem_of_queryset P t k v :
  (k, v) ∈ queryset P t ↔ rows t !! k = Some v ∧ P k v = true.
Proof. unfold queryset. by rewrite elem_of_order_by, elem_of_objects_filter. Qed.

Lemma queryset_NoDup P t : NoDup (queryset P t).*1.
Proof. unfold queryset. rewrite order_by_Permutation. apply objects_filter_NoDup. Qed.

Lemma queryset_StronglySorted P t : StronglySorted row_before (queryset P t).
Proof. apply order_by_StronglySorted. Qed.

Lemma queryset_length P t : length (queryset P t) = objects_count P t.
Proof. unfold queryset, objects_count. by rewrite order_by_Permutation. Qed.

(** A row of the queryset listed before all the others is its head. *)
Lemma queryset_first P t k v :
  rows t !! k = Some v → P k v = true →
  (∀ k' v', rows t !! k' = Some v' → P k' v' = true → row_before (k, v) (k', v')) →
  ∃ l, queryset P t = (k, v) :: l.
Proof.
  intros Hk HP Hall. apply order_by_first; [apply objects_filter_NoDup| |].
  - by apply elem_of_objects_filter.
  - intros [k' v'] [Hk' HP']%elem_of_objects_filter. by apply Hall.
Qed.
End queryset_lemmas.


Section get_lemmas.
Context {V : Type}.
Implicit Types (t : table V) (P : nat → V → bool).

Lemma objects_get_by_pk t k :
  objects_get_by (λ k' _, bool_decide (k' = k)) t =
    match rows t !! k with Some v => Found k v | None => DoesNotExist end.
Proof.
  unfold objects_get_by.
  destruct (rows t !! k) as [v|] eqn:Hk.
  - assert (objects_filter (λ k' _, bool_decide (k' = k)) t ≡ₚ [(k, v)]) as Hp.
    { apply NoDup_Permutation.
      - apply NoDup_filter, NoDup_map_to_list.
      - apply NoDup_singleton.
      - intros [k' v']. rewrite elem_of_objects_filter, list_elem_of_singleton,
          bool_decide_eq_true.
        split; [intros [? ->]; congruence|intros [= -> ->]; done]. }
    apply Permutation_singleton_r in Hp. by rewrite Hp.
  - destruct (objects_filter _ t) as [|[k' v'] l] eqn:E; [done|].
    assert ((k', v') ∈ objects_filter (λ k' _, bool_decide (k' = k)) t) as Hin
      by (rewrite E; left).
    apply elem_of_objects_filter in Hin as [Hk' ->%bool_decide_eq_true]. congruence.
Qed.

(** When at most one row satisfies [P], [get] finds it or raises
    DoesNotExist, never MultipleObjectsReturned. *)
Lemma objects_get_by_unique P t :
  (∀ k1 v1 k2 v2, rows t !! k1 = Some v1 → P k1 v1 = true →
     rows t !! k2 = Some v2 → P k2 v2 = true → k1 = k2) →
  objects_get_by P t ≠ MultipleObjectsReturned.
Proof.
  intros Huniq. unfold objects_get_by.
  pose proof (objects_filter_NoDup P t) as Hnd.
  destruct (objects_filter P t) as [|[k1 v1] [|[k2 v2] l]] eqn:E; [done|done|].
  assert ((k1, v1) ∈ objects_filter P t) as [H1 P1]%elem_of_objects_filter by (rewrite E; left).
  assert ((k2, v2) ∈ objects_filter P t) as [H2 P2]%elem_of_objects_filter
    by (rewrite E; right; left).
  pose proof (Huniq _ _ _ _ H1 P1 H2 P2) as ->.
  simpl in Hnd. inversion Hnd as [|? ? Hn]; subst. destruct Hn. left.
Qed.

Lemma objects_get_by_Found P t k v :
  objects_get_by P t = Found k v → rows t !! k = Some v ∧ P k v = true.
Proof.
  unfold objects_get_by. intros E.
  destruct (objects_filter P t) as [|[k1 v1] [|]] eqn:E'; inversion E; subst.
  apply elem_of_objects_filter. rewrite E'. left.
Qed.
(** [get(field=value)] on a [unique=True] field finds the row holding
    that value. *)
Lemma objects_get_by_key `{EqDecision K} (key : V → K) t k v :
  unique_by key t → rows t !! k = Some v →
  objects_get_by (λ _ x, bool_decide (key x = key v)) t = Found k v.
Proof.
  intros Hu Hk. set (P := λ (_ : nat) x, bool_decide (key x = key v)).
  assert ((k, v) ∈ objects_filter P t) as Hin
    by (apply elem_of_objects_filter; split; [done|by apply bool_decide_eq_true_2]).
  assert (∀ kv, kv ∈ objects_filter P t → kv = (k, v)) as Hall.
  { intros [k' v'] [Hk' HP%bool_decide_eq_true]%elem_of_objects_filter.
    pose proof (Hu _ _ _ _ Hk' Hk HP) as ->. congruence. }
  pose proof (objects_filter_NoDup P t) as Hnd. unfold objects_get_by.
  destruct (objects_filter P t) as [|kv1 [|kv2 l]]; [by apply not_elem_of_nil in Hin| |].
  - by rewrite (Hall kv1) by left.
  - rewrite (Hall kv1), (Hall kv2) in Hnd by (repeat constructor). apply NoDup_cons in Hnd as [[] _]. left.
Qed.
End get_lemmas.

Section create_lemmas.
Context {V : Type}.
Implicit Types (t : table V) (v : V).

Lemma objects_create_is_Some v t k :
  is_Some (rows t !! k) → is_Some (rows (objects_create v t).2 !! k).
Proof.
  intros Hk. rewrite objects_create_lookup. by case_decide; [eexists|].
Qed.

Lemma objects_create_Some v t k w :
  table_wf t →
  rows (objects_create v t).2 !! k = Some w ↔
    (k = next_pk t ∧ w = v) ∨ (rows t !! k = Some w).
Proof.
  intros Hwf. rewrite objects_create_lookup. pose proof (table_wf_fresh t Hwf).
  case_decide; subst; naive_solver.
Qed.

Lemma instance_save_is_Some k v t k' :
  is_Some (rows t !! k') → is_Some (rows (instance_save k v t) !! k').
Proof.
  intros Hk. simpl. destruct (decide (k = k')) as [->|Hne];
    [rewrite lookup_insert_eq; by eexists|by rewrite lookup_insert_ne].
Qed.

Lemma instance_save_Some k v t k' w :
  rows (instance_save k v t) !! k' = Some w ↔
    (k' = k ∧ w = v) ∨ (k' ≠ k ∧ rows t !! k' = Some w).
Proof.
  simpl. destruct (decide (k = k')) as [->|Hne].
  - rewrite lookup_insert_eq. naive_solver.
  - rewrite lookup_insert_ne by done. naive_solver.
Qed.

(** [save()] of a stored row is its [UPDATE]; of a deleted one, the
    [INSERT] of the instance as [pre_save(add=True)] leaves it. *)
Lemma save_instance_stored f k v t : is_Some (rows t !! k) → save_instance f k v t = instance_save k v t.
Proof. unfold save_instance. by intros [? ->]. Qed.

Lemma save_instance_missing f k v t : rows t !! k = None → save_instance f k v t = instance_save k (f v) t.
Proof. unfold save_instance. by intros ->. Qed.
End create_lemmas.

(** ** Uniqueness of a column *)


Section unique_lemmas.
Context {V K : Type} `{EqDecision K} (key : V → K).

Lemma unique_by_empty : unique_by key (@table_empty V).
Proof. intros k1 v1 k2 v2 H1. unfold table_empty in H1; simpl in H1. by rewrite lookup_empty in H1. Qed.

Lemma unique_by_delete P t : unique_by key t → unique_by key (objects_delete P t).
Proof.
  intros Hu k1 v1 k2 v2 [H1 _]%objects_delete_Some [H2 _]%objects_delete_Some. eauto.
Qed.

(** Creating a row whose key no row has yet keeps the column unique. *)
Lemma unique_by_create v t :
  table_wf t → objects_exists (λ _ w, bool_decide (key w = key v)) t = false →
  unique_by key t → unique_by key (objects_create v t).2.
Proof.
  intros Hwf Hnew Hu k1 v1 k2 v2 Hk1 Hk2 Hkey.
  apply (objects_create_Some v t k1 v1 Hwf) in Hk1 as [[-> ->]|Hk1];
  apply (objects_create_Some v t k2 v2 Hwf) in Hk2 as [[-> ->]|Hk2]; [done| | |eauto];
    exfalso; apply not_true_iff_false in Hnew; apply Hnew, objects_exists_spec;
    [exists k2, v2|exists k1, v1]; rewrite bool_decide_eq_true; auto.
Qed.
End unique_lemmas.

(** ** A new row comes first *)

Section queryset_create.
Context {V : Type} `{MetaOrdering V}.
Implicit Types (t : table V) (P : nat → V → bool).

Lemma objects_filter_create P v t :
  table_wf t →
  objects_filter P (objects_create v t).2 ≡ₚ
    (if P (next_pk t) v then [(next_pk t, v)] else []) ++ objects_filter P t.
Proof.
  intros Hwf. unfold objects_filter. simpl.
  rewrite (map_to_list_insert _ _ _ (table_wf_fresh t Hwf)), filter_cons. simpl.
  by destruct (P (next_pk t) v).
Qed.

(** A row created with an ordering value no smaller than any row's is
    listed first, followed by the rows listed before. *)
Lemma queryset_create P v t :
  table_wf t → P (next_pk t) v = true →
  (∀ k w, rows t !! k = Some w → P k w = true → meta_ordering w ≤ meta_ordering v) →
  queryset P (objects_create v t).2 = (next_pk t, v) :: queryset P t.
Proof.
  intros Hwf HP Hle. symmetry. unfold queryset at 2. apply order_by_unique.
  - apply objects_filter_NoDup.
  - constructor; [apply queryset_StronglySorted|].
    apply Forall_forall. intros [k w] Hkw%elem_of_queryset.
    destruct Hkw as [Hk HPk]. pose proof (Hle k w Hk HPk).
    assert (k < next_pk t).
    { apply (proj2 Hwf). by apply elem_of_dom_2 in Hk. }
    unfold row_before; simpl. lia.
  - rewrite objects_filter_create, HP by done. simpl. unfold queryset.
    by rewrite order_by_Permutation.
Qed.
End queryset_create.

Lemma table_wf_singleton {V} (k : nat) (v : V) : 0 < k → table_wf (Table {[k := v]} (S k)).
Proof.
  intros Hk. split; [simpl; lia|]. intros k' Hk'. simpl in Hk'.
  rewrite dom_singleton_L, elem_of_singleton in Hk'. simpl. lia.
Qed.

(** A row just created satisfies a filter it matches. *)
Lemma objects_exists_create {V} (P : nat → V → bool) v (t : table V) :
  P (next_pk t) v = true → objects_exists P (objects_create v t).2 = true.
Proof.
  intros Hv. apply objects_exists_spec. exists (next_pk t), v.
  split; [simpl; by rewrite lookup_insert_eq|done].
Qed.

(** Deleting by a filter that only the row just created matches gives the
    rows back; the key sequence has moved on. *)
Lemma objects_delete_create {V} (P : nat → V → bool) v (t : table V) :
  table_wf t → P (next_pk t) v = true → objects_exists P t = false →
  objects_delete P (objects_create v t).2 = Table (rows t) (S (next_pk t)).
Proof.
  intros Hwf Hv Hnone. unfold objects_delete. simpl. f_equal.
  rewrite map_filter_insert_False; [|simpl; rewrite Hv; tauto].
  rewrite delete_id; [|by apply table_wf_fresh].
  apply map_filter_id. intros k w Hk Hkw. simpl in Hkw.
  assert (objects_exists P t = true) as Hex by (apply objects_exists_spec; exists k, w;
    split; [done|by destruct (P k w)]).
  congruence.
Qed.

(** A filter that at most one row satisfies counts one row or none. *)
Lemma objects_count_unique {V} (P : nat → V → bool) (t : table V) :
  (∀ k1 v1 k2 v2, rows t !! k1 = Some v1 → P k1 v1 = true →
     rows t !! k2 = Some v2 → P k2 v2 = true → k1 = k2) →
  objects_count P t = if objects_exists P t then 1 else 0.
Proof.
  intros Hu. pose proof (objects_get_by_unique P t Hu) as Hm.
  unfold objects_get_by in Hm. unfold objects_count, objects_exists.
  destruct (objects_filter P t) as [|[k v] [|[]]]; done.
Qed.

(** [Model.objects.count()]: the number of rows. *)
Lemma objects_count_all {V} (t : table V) : objects_count (λ _ _, true) t = size (rows t).
Proof.
  unfold objects_count, objects_filter. rewrite <-length_map_to_list.
  induction (map_to_list (rows t)) as [|kv l IH]; [done|].
  rewrite filter_cons_True by done. simpl. by rewrite IH.
Qed.

(** Saving a row that exists leaves the number of rows unchanged. *)
Lemma objects_count_save {V} k v (t : table V) :
  is_Some (rows t !! k) → objects_count (λ _ _, true) (instance_save k v t) = objects_count (λ _ _, true) t.
Proof. intros Hk. rewrite !objects_count_all. by apply map_size_insert_Some. Qed.

(** [objects.get] of a filter no row satisfies raises DoesNotExist. *)
Lemma objects_get_by_none {V} (P : nat → V → bool) (t : table V) :
  objects_exists P t = false → objects_get_by P t = DoesNotExist.
Proof. unfold objects_exists, objects_get_by. by destruct (objects_filter P t) as [|[] []]. Qed.

(** Two rows satisfying a filter count at least two. *)
Lemma objects_count_two {V} (P : nat → V → bool) (t : table V) k1 v1 k2 v2 :
  k1 ≠ k2 → rows t !! k1 = Some v1 → P k1 v1 = true → rows t !! k2 = Some v2 → P k2 v2 = true →
  2 ≤ objects_count P t.
Proof.
  intros Hne H1 P1 H2 P2. apply (length_two_elems _ (k1, v1) (k2, v2)); [congruence| |];
    by apply elem_of_objects_filter.
Qed.

(** ** Queries only read the rows *)

Section table_equiv_lemmas.
Context {V : Type}.

#[export] Instance table_equiv_equivalence : Equivalence (≡@{table V}).
Proof. split; unfold equiv, table_equiv; [done|by intros ??|by intros ??? -> ->]. Qed.

#[export] Instance objects_filter_proper P : Proper ((≡) ==> (=)) (@objects_filter V P).
Proof. intros t1 t2 Ht. unfold objects_filter. by rewrite Ht. Qed.

#[export] Instance objects_exists_proper P : Proper ((≡) ==> (=)) (@objects_exists V P).
Proof. intros t1 t2 Ht. unfold objects_exists. by rewrite Ht. Qed.

#[export] Instance objects_count_proper P : Proper ((≡) ==> (=)) (@objects_count V P).
Proof. intros t1 t2 Ht. unfold objects_count. by rewrite Ht. Qed.

#[export] Instance objects_get_by_proper P : Proper ((≡) ==> (=)) (@objects_get_by V P).
Proof. intros t1 t2 Ht. unfold objects_get_by. by rewrite Ht. Qed.

#[export] Instance queryset_proper `{MetaOrdering V} P : Proper ((≡) ==> (=)) (@queryset V _ P).
Proof. intros t1 t2 Ht. unfold queryset. by rewrite Ht. Qed.
End table_equiv_lemmas.
