(* ===== verification/Models.v ===== *)
(** * Models: the records of [posts/models.py] and the database

    One Module per Django model ([Group], [Post], [Comment], [Follow]),
    holding its Record with the model's fields and its [__str__]; the
    account model of [django.contrib.auth] reduced to the field the
    views read ([username]).  Foreign keys are primary keys of the
    referenced table, [None] for a NULL column.  The database [db] holds
    one [table] per model.  The [on_delete] rules of the foreign keys are
    the deletion operations [delete_post], [delete_group] and
    [delete_user]; [db_wf] is referential integrity, which they preserve. *)

From stdpp Require Import base gmap sets list strings.
From S2P Require Import Prelude PyBuiltins Orm.

Local Open Scope string_scope.

(** A field's [verbose_name] (by default its name) and [help_text] (by
    default empty), as [Model._meta.get_field(name)] gives them. *)
Record field_meta := FieldMeta { field_name : string; verbose_name : string; help_text : string }.

(** [_meta.get_field(name)]; [None] is [FieldDoesNotExist]. *)
Definition get_field (fields : list field_meta) (name : string) : option field_meta :=
  head (filter (λ f, field_name f = name) fields).

(** The account model of [django.contrib.auth] (read only through
    [username], unique). *)
Module User.
Record t := mk { username : string }.
End User.

Module Group.
Record t := mk { title : string; slug : string; description : string }.

Definition fields : list field_meta :=
  [FieldMeta "title" "Заголовок" ""; FieldMeta "slug" "URL адрес группы" "";
   FieldMeta "description" "Описание" ""].

(** [description = TextField(blank=True, default="Описание по умолчанию")] *)
Definition description_default : string := "Описание по умолчанию".

Definition str (g : t) : string := title g.
End Group.

Module Post.
Record t := mk {
  text : string;
  pub_date : nat;          (** [auto_now_add]: set once, at creation *)
  author : nat;            (** [ForeignKey(User, on_delete=CASCADE)] *)
  group : option nat;      (** [ForeignKey(Group, null=True, on_delete=SET_NULL)] *)
  image : string           (** [ImageField(upload_to='posts/', blank=True)]: "" when empty *)
}.

Definition fields : list field_meta :=
  [FieldMeta "text" "Текст поста" "Введите текст поста"; FieldMeta "pub_date" "Дата публикации" "";
   FieldMeta "author" "Автор" ""; FieldMeta "group" "Группа" "Группа, к которой будет относиться пост";
   FieldMeta "image" "Картинка" ""].

(** [Meta.verbose_name] and [Meta.verbose_name_plural]. *)
Definition meta_verbose_name : string * string := ("Пост", "Посты").

(** [__str__]: [self.text[:15]]. *)
Definition str (p : t) : string := py_str_prefix 15 (text p).

(** The [pre_save(add=True)] of the fields on an [INSERT] at time [now]:
    [pub_date] is [auto_now_add], so the insert stores the time of the
    save; the other fields are stored as they are. *)
Definition on_insert (now : nat) (p : t) : t := mk (text p) now (author p) (group p) (image p).
End Post.

Module Comment.
Record t := mk {
  post : option nat;       (** [ForeignKey(Post, null=True, on_delete=CASCADE)] *)
  author : option nat;     (** [ForeignKey(User, null=True, on_delete=CASCADE)] *)
  text : string;
  created : nat            (** [auto_now_add] *)
}.

Definition fields : list field_meta :=
  [FieldMeta "post" "Пост" ""; FieldMeta "author" "Автор" ""; FieldMeta "text" "Текст комментария" "";
   FieldMeta "created" "Дата публикации" ""].

Definition meta_verbose_name : string * string := ("Комментарий", "Комментарии").

(** [__str__]: [self.text[:15]]. *)
Definition str (c : t) : string := py_str_prefix 15 (text c).
End Comment.

Module Follow.
Record t := mk {
  user : nat;              (** [ForeignKey(User, on_delete=CASCADE)] *)
  author : option nat      (** [ForeignKey(User, null=True, on_delete=CASCADE)] *)
}.

(** Neither field sets a [verbose_name]: Django uses the field's name. *)
Definition fields : list field_meta := [FieldMeta "user" "user" ""; FieldMeta "author" "author" ""].

Definition meta_verbose_name : string * string := ("Подписка", "Подписки").
End Follow.

(** Model instances compare field by field. *)
#[export] Instance user_eq_dec : EqDecision User.t.
Proof. solve_decision. Defined.
#[export] Instance group_eq_dec : EqDecision Group.t.
Proof. solve_decision. Defined.
#[export] Instance post_eq_dec : EqDecision Post.t.
Proof. solve_decision. Defined.
#[export] Instance comment_eq_dec : EqDecision Comment.t.
Proof. solve_decision. Defined.
#[export] Instance follow_eq_dec : EqDecision Follow.t.
Proof. solve_decision. Defined.

(** [class Meta: ordering = ("-pub_date",)] and [("-created",)]. *)
#[export] Instance post_ordering : MetaOrdering Post.t := Post.pub_date.
#[export] Instance comment_ordering : MetaOrdering Comment.t := Comment.created.

(** The database: one table per model. *)
Record db := DB {
  users : table User.t;
  groups : table Group.t;
  posts : table Post.t;
  comments : table Comment.t;
  follows : table Follow.t
}.

Definition db_empty : db := DB table_empty table_empty table_empty table_empty table_empty.

Definition set_posts (t : table Post.t) (d : db) : db :=
  DB (users d) (groups d) t (comments d) (follows d).
Definition set_comments (t : table Comment.t) (d : db) : db :=
  DB (users d) (groups d) (posts d) t (follows d).
Definition set_follows (t : table Follow.t) (d : db) : db :=
  DB (users d) (groups d) (posts d) (comments d) t.

(** [str(user)] is the username; [str(None)] is ["None"]. *)
Definition user_str (d : db) (u : option nat) : string :=
  match u ≫= λ k, objects_get k (users d) with
  | Some usr => User.username usr
  | None => "None"
  end.

(** [Follow.__str__]: [f'{self.user} подписан на {self.author}']. *)
Definition follow_str (d : db) (f : Follow.t) : string :=
  user_str d (Some (Follow.user f)) +:+ " подписан на " +:+ user_str d (Follow.author f).

(** ** Deletion and the [on_delete] rules *)

(** Deleting a post deletes its comments ([Comment.post], CASCADE). *)
Definition delete_post (k : nat) (d : db) : db :=
  DB (users d) (groups d)
     (objects_delete (λ k' _, bool_decide (k' = k)) (posts d))
     (objects_delete (λ _ c, bool_decide (Comment.post c = Some k)) (comments d))
     (follows d).

(** Deleting a group nulls the group of its posts ([Post.group], SET_NULL). *)
Definition delete_group (g : nat) (d : db) : db :=
  DB (users d)
     (objects_delete (λ k' _, bool_decide (k' = g)) (groups d))
     (objects_update (λ _ p, bool_decide (Post.group p = Some g))
        (λ p, Post.mk (Post.text p) (Post.pub_date p) (Post.author p) None (Post.image p))
        (posts d))
     (comments d) (follows d).

(** A post written by [u]. *)
Definition post_by (d : db) (u : nat) (k : option nat) : bool :=
  match k ≫= λ k, objects_get k (posts d) with
  | Some p => bool_decide (Post.author p = u)
  | None => false
  end.

(** Deleting an account deletes, by CASCADE, its posts and with them their
    comments, its comments, and the follow rows in which it is the
    follower or the followed author. *)
Definition delete_user (u : nat) (d : db) : db :=
  DB (objects_delete (λ k' _, bool_decide (k' = u)) (users d))
     (groups d)
     (objects_delete (λ _ p, bool_decide (Post.author p = u)) (posts d))
     (objects_delete (λ _ c, bool_decide (Comment.author c = Some u) || post_by d u (Comment.post c))
        (comments d))
     (objects_delete (λ _ f, bool_decide (Follow.user f = u) || bool_decide (Follow.author f = Some u))
        (follows d)).

(** Two databases are equivalent when every table holds the same rows. *)
#[export] Instance db_equiv : Equiv db := λ d1 d2,
  users d1 ≡ users d2 ∧ groups d1 ≡ groups d2 ∧ posts d1 ≡ posts d2 ∧
  comments d1 ≡ comments d2 ∧ follows d1 ≡ follows d2.

(** ** What a change of the database keeps

    A post keeps its date ([auto_now_add]) and its author once created;
    a comment is never changed once created (it may be deleted). *)
Definition history_kept (d d' : db) : Prop :=
  (∀ k p p', rows (posts d) !! k = Some p → rows (posts d') !! k = Some p' →
     Post.pub_date p' = Post.pub_date p ∧ Post.author p' = Post.author p) ∧
  (∀ k c c', rows (comments d) !! k = Some c → rows (comments d') !! k = Some c' → c' = c).

(** ** Referential integrity *)

(** A nullable foreign key is NULL or names a row of [t]. *)
Definition fk_ok {V} (t : table V) (k : option nat) : Prop :=
  ∀ k', k = Some k' → is_Some (rows t !! k').

#[export] Instance fk_ok_dec {V} (t : table V) k : Decision (fk_ok t k).
Proof.
  refine (match k with Some k' => cast_if (decide (is_Some (rows t !! k'))) | None => left _ end);
    unfold fk_ok; naive_solver.
Defined.

Record db_wf (d : db) : Prop := {
  wf_users : table_wf (users d);
  wf_groups : table_wf (groups d);
  wf_posts : table_wf (posts d);
  wf_comments : table_wf (comments d);
  wf_follows : table_wf (follows d);
  wf_post_fk : ∀ k p, rows (posts d) !! k = Some p →
    is_Some (rows (users d) !! Post.author p) ∧ fk_ok (groups d) (Post.group p);
  wf_comment_fk : ∀ k c, rows (comments d) !! k = Some c →
    fk_ok (posts d) (Comment.post c) ∧ fk_ok (users d) (Comment.author c);
  wf_follow_fk : ∀ k f, rows (follows d) !! k = Some f →
    is_Some (rows (users d) !! Follow.user f) ∧ fk_ok (users d) (Follow.author f)
}.

#[export] Hint Unfold fk_ok : yatube.

(** Project the tables out of a database built with [DB]. *)
Ltac db_simpl := cbn [users groups posts comments follows] in *.

Lemma fk_ok_None {V} (t : table V) : fk_ok t None.
Proof. by intros ? ?. Qed.
#[export] Hint Resolve fk_ok_None : yatube.

(** A foreign key that is not the deleted key stays valid. *)
Lemma fk_ok_delete {V} (t : table V) (P : nat → V → bool) k :
  fk_ok t k → (∀ k' v, k = Some k' → rows t !! k' = Some v → P k' v = false) →
  fk_ok (objects_delete P t) k.
Proof.
  intros Hk HP k' ->. apply objects_delete_is_Some; [by apply Hk|]. eauto.
Qed.

Lemma fk_ok_update {V} (t : table V) P f k : fk_ok t k → fk_ok (objects_update P f t) k.
Proof. intros Hk k' ->. apply objects_update_is_Some. by apply Hk. Qed.
#[export] Hint Resolve fk_ok_update : yatube.

(** Deleting a post keeps the database consistent: its comments go with it. *)
Lemma delete_post_wf k d : db_wf d → db_wf (delete_post k d).
Proof.
  intros [Hu Hg Hp Hc Hf Hpf Hcf Hff]. unfold delete_post. split; db_simpl; auto with yatube.
  - intros k' p [Hk' _]%objects_delete_Some. eauto.
  - intros k' c [Hk' Hc']%objects_delete_Some. bdecide.
    destruct (Hcf _ _ Hk') as [Hpost Hauth]. split; [|done].
    apply fk_ok_delete; [done|]. intros k'' v Hk'' _. apply bool_decide_eq_false. congruence.
Qed.

(** Deleting a group keeps the database consistent: its posts lose their group. *)
Lemma delete_group_wf g d : db_wf d → db_wf (delete_group g d).
Proof.
  intros [Hu Hg Hp Hc Hf Hpf Hcf Hff]. unfold delete_group. split; db_simpl; auto with yatube.
  - intros k p (w & Hw & ->)%objects_update_Some.
    destruct (Hpf _ _ Hw) as [Ha Hgr].
    case_bool_decide as Hgw; simpl; split; auto with yatube.
    apply fk_ok_delete; [done|]. intros g' v Hg' _. apply bool_decide_eq_false. congruence.
  - intros k c Hk. destruct (Hcf _ _ Hk). auto with yatube.
Qed.

(** Deleting an account keeps the database consistent: everything that
    refers to it is deleted with it. *)
Lemma delete_user_wf u d : db_wf d → db_wf (delete_user u d).
Proof.
  intros [Hu Hg Hp Hc Hf Hpf Hcf Hff]. unfold delete_user. split; db_simpl; auto with yatube.
  - intros k p [Hk Hpu]%objects_delete_Some. bdecide.
    destruct (Hpf _ _ Hk) as [Ha Hgr]. split; [|done].
    apply objects_delete_is_Some; [done|]. intros ? _. by apply bool_decide_eq_false.
  - intros k c [Hk Hcu]%objects_delete_Some. bdecide.
    destruct (Hcf _ _ Hk) as [Hpost Hauth]. split.
    + apply fk_ok_delete; [done|]. intros k' p Hk' Hp'.
      match goal with H : post_by _ _ _ = false |- _ => unfold post_by in H end.
      rewrite Hk' in *. simpl in *. unfold objects_get in *. by rewrite Hp' in *.
    + apply fk_ok_delete; [done|]. intros a v Ha _. apply bool_decide_eq_false. congruence.
  - intros k f [Hk Hfu]%objects_delete_Some. bdecide.
    destruct (Hff _ _ Hk) as [Hfuser Hfauth]. split.
    + apply objects_delete_is_Some; [done|]. intros ? _. by apply bool_decide_eq_false.
    + apply fk_ok_delete; [done|]. intros a v Ha _. apply bool_decide_eq_false. congruence.
Qed.

(** ** Writes that keep referential integrity *)

Lemma fk_ok_create {V} (t : table V) v k : fk_ok t k → fk_ok (objects_create v t).2 k.
Proof. intros Hk k' Hk'. apply objects_create_is_Some. by apply Hk. Qed.

Lemma fk_ok_save {V} (t : table V) k v k' : fk_ok t k' → fk_ok (instance_save k v t) k'.
Proof. intros Hk k'' Hk''. apply instance_save_is_Some. by apply Hk. Qed.

#[export] Hint Resolve fk_ok_create fk_ok_save objects_create_is_Some instance_save_is_Some : yatube.

Section writes.
Context (d : db) (Hwf : db_wf d).

Lemma set_posts_create_wf p :
  is_Some (rows (users d) !! Post.author p) → fk_ok (groups d) (Post.group p) →
  db_wf (set_posts (objects_create p (posts d)).2 d).
Proof.
  destruct Hwf as [Hu Hg Hp Hc Hf Hpf Hcf Hff]. intros Ha Hgr.
  split; unfold set_posts; db_simpl; auto with yatube.
  - intros k p' [[-> ->]|Hk]%objects_create_Some; eauto.
  - intros k c Hk. destruct (Hcf _ _ Hk). auto with yatube.
Qed.

Lemma set_posts_save_key_wf k p :
  0 < k < next_pk (posts d) →
  is_Some (rows (users d) !! Post.author p) → fk_ok (groups d) (Post.group p) →
  db_wf (set_posts (instance_save k p (posts d)) d).
Proof.
  destruct Hwf as [Hu Hg Hp Hc Hf Hpf Hcf Hff]. intros Hk Ha Hgr.
  split; unfold set_posts; db_simpl; auto using table_wf_save_key with yatube.
  - intros k' p' [[-> ->]|[_ Hk']]%instance_save_Some; eauto.
  - intros k' c Hk'. destruct (Hcf _ _ Hk'). auto with yatube.
Qed.

Lemma set_posts_save_wf k p :
  is_Some (rows (posts d) !! k) →
  is_Some (rows (users d) !! Post.author p) → fk_ok (groups d) (Post.group p) →
  db_wf (set_posts (instance_save k p (posts d)) d).
Proof. intros Hk. apply set_posts_save_key_wf, table_wf_key, Hk. apply Hwf. Qed.

Lemma set_comments_create_wf c :
  fk_ok (posts d) (Comment.post c) → fk_ok (users d) (Comment.author c) →
  db_wf (set_comments (objects_create c (comments d)).2 d).
Proof.
  destruct Hwf as [Hu Hg Hp Hc Hf Hpf Hcf Hff]. intros Hcp Hca.
  split; unfold set_comments; db_simpl; auto with yatube.
  intros k c' [[-> ->]|Hk]%objects_create_Some; eauto.
Qed.

Lemma set_follows_create_wf f :
  is_Some (rows (users d) !! Follow.user f) → fk_ok (users d) (Follow.author f) →
  db_wf (set_follows (objects_create f (follows d)).2 d).
Proof.
  destruct Hwf as [Hu Hg Hp Hc Hf Hpf Hcf Hff]. intros Hfu Hfa.
  split; unfold set_follows; db_simpl; auto with yatube.
  intros k f' [[-> ->]|Hk]%objects_create_Some; eauto.
Qed.

Lemma set_follows_delete_wf P : db_wf (set_follows (objects_delete P (follows d)) d).
Proof.
  destruct Hwf as [Hu Hg Hp Hc Hf Hpf Hcf Hff].
  split; unfold set_follows; db_simpl; auto with yatube.
  intros k f [Hk _]%objects_delete_Some. eauto.
Qed.

Lemma users_create_wf u :
  db_wf (DB (objects_create u (users d)).2 (groups d) (posts d) (comments d) (follows d)).
Proof.
  destruct Hwf as [Hu Hg Hp Hc Hf Hpf Hcf Hff].
  split; db_simpl; auto with yatube.
  - intros k p Hk. destruct (Hpf _ _ Hk). auto with yatube.
  - intros k c Hk. destruct (Hcf _ _ Hk). auto with yatube.
  - intros k f Hk. destruct (Hff _ _ Hk). auto with yatube.
Qed.

Lemma groups_create_wf g :
  db_wf (DB (users d) (objects_create g (groups d)).2 (posts d) (comments d) (follows d)).
Proof.
  destruct Hwf as [Hu Hg Hp Hc Hf Hpf Hcf Hff].
  split; db_simpl; auto with yatube.
  intros k p Hk. destruct (Hpf _ _ Hk). auto with yatube.
Qed.
End writes.

Lemma db_wf_empty : db_wf db_empty.
Proof.
  split; cbn; auto with yatube; intros k v Hk; rewrite lookup_empty in Hk; discriminate.
Qed.

(** ** What the deletions do *)

(** C14: Deleting an account deletes exactly the rows that refer to it,
    directly or through one of its posts: its posts, the comments it
    wrote or that were left on its posts, and the follow rows in which it
    is the follower or the author; every other row stays as it was. *)
Theorem delete_user_cascade u d :
  rows (users (delete_user u d)) !! u = None ∧
  (∀ k p, rows (posts (delete_user u d)) !! k = Some p ↔
     rows (posts d) !! k = Some p ∧ Post.author p ≠ u) ∧
  (∀ k c, rows (comments (delete_user u d)) !! k = Some c ↔
     rows (comments d) !! k = Some c ∧ Comment.author c ≠ Some u ∧
     ∀ kp p, Comment.post c = Some kp → rows (posts d) !! kp = Some p → Post.author p ≠ u) ∧
  (∀ k f, rows (follows (delete_user u d)) !! k = Some f ↔
     rows (follows d) !! k = Some f ∧ Follow.user f ≠ u ∧ Follow.author f ≠ Some u).
Proof.
  unfold delete_user. cbn [users posts comments follows]. split_and!.
  - rewrite objects_delete_lookup. destruct (rows (users d) !! u); [|done].
    by rewrite bool_decide_eq_true_2.
  - intros k p. by rewrite objects_delete_Some, bool_decide_eq_false.
  - intros k c. rewrite objects_delete_Some, orb_false_iff, bool_decide_eq_false.
    unfold post_by, objects_get. destruct (Comment.post c) as [kp|]; simpl.
    + destruct (rows (posts d) !! kp) as [p|] eqn:Hp; rewrite ?bool_decide_eq_false;
        [naive_solver|naive_solver].
    + naive_solver.
  - intros k f. by rewrite objects_delete_Some, orb_false_iff, !bool_decide_eq_false.
Qed.

(** Deleting a post deletes exactly that post and, by CASCADE, the
    comments on it; every other post and comment, the accounts, groups
    and follow rows stay. *)
Theorem delete_post_cascade k d :
  rows (posts (delete_post k d)) !! k = None ∧
  (∀ k', k' ≠ k → rows (posts (delete_post k d)) !! k' = rows (posts d) !! k') ∧
  (∀ kc c, rows (comments (delete_post k d)) !! kc = Some c ↔
     rows (comments d) !! kc = Some c ∧ Comment.post c ≠ Some k) ∧
  users (delete_post k d) = users d ∧ groups (delete_post k d) = groups d ∧
  follows (delete_post k d) = follows d.
Proof.
  unfold delete_post. cbn [users groups posts comments follows].
  split_and!; [|intros k' Hk'|intros kc c|done..].
  - rewrite objects_delete_lookup. destruct (rows (posts d) !! k); [|done].
    by rewrite bool_decide_eq_true_2.
  - rewrite objects_delete_lookup. destruct (rows (posts d) !! k'); [|done].
    by rewrite bool_decide_eq_false_2.
  - by rewrite objects_delete_Some, bool_decide_eq_false.
Qed.

(** C15: Deleting a group deletes no post: every post keeps its key, its
    text, date, author and image, a post of that group is left without a
    group ([SET_NULL]), the others keep theirs, and comments and follow
    rows are untouched. *)
Theorem delete_group_set_null g d :
  rows (groups (delete_group g d)) !! g = None ∧
  (∀ k, is_Some (rows (posts (delete_group g d)) !! k) ↔ is_Some (rows (posts d) !! k)) ∧
  (∀ k p p', rows (posts d) !! k = Some p → rows (posts (delete_group g d)) !! k = Some p' →
     Post.text p' = Post.text p ∧ Post.pub_date p' = Post.pub_date p ∧
     Post.author p' = Post.author p ∧ Post.image p' = Post.image p ∧
     Post.group p' = (if bool_decide (Post.group p = Some g) then None else Post.group p)) ∧
  comments (delete_group g d) = comments d ∧ follows (delete_group g d) = follows d.
Proof.
  unfold delete_group. cbn [groups posts comments follows]. split_and!; [| |intros k p p' Hp Hp'|done|done].
  - rewrite objects_delete_lookup. destruct (rows (groups d) !! g); [|done].
    by rewrite bool_decide_eq_true_2.
  - intros k. by rewrite objects_update_is_Some.
  - apply objects_update_Some in Hp' as (w & Hw & ->). rewrite Hp in Hw. injection Hw as <-.
    by case_bool_decide.
Qed.

(** ** [__str__] of posts and comments *)

(** C24: [Post.__str__] is the beginning of the post's text: a prefix of
    it with fifteen code points, or the whole text when it is shorter;
    multi-byte characters (the Cyrillic of the site) are never cut. *)
Theorem post_str_prefix p :
  (∃ rest, Post.text p = Post.str p +:+ rest) ∧
  code_points (Post.str p) = Nat.min 15 (code_points (Post.text p)) ∧
  ((code_points (Post.text p) ≤ 15)%nat → Post.str p = Post.text p).
Proof.
  unfold Post.str. split_and!; [apply py_str_prefix_app|apply code_points_py_str_prefix|].
  apply py_str_prefix_short.
Qed.

Lemma post_str_prefix_witness :
  Post.str (Post.mk "Тестовый пост" 1 1 None "") = "Тестовый пост".
Proof.
  apply (proj2 (proj2 (post_str_prefix (Post.mk "Тестовый пост" 1 1 None "")))).
  apply Nat.leb_le. vm_compute. reflexivity.
Defined.

(** ** Keeping the history *)

Lemma history_kept_refl d : history_kept d d.
Proof. split; intros k x x' H H'; rewrite H in H'; by injection H' as <-. Qed.

(** A change that leaves the posts and comments alone. *)
Lemma history_kept_same d d' : posts d' = posts d → comments d' = comments d → history_kept d d'.
Proof.
  intros Hp Hc. split; intros k x x' H H'; rewrite ?Hp, ?Hc, H in H'; by injection H' as <-.
Qed.

(** Creating a post, or saving one with the same date and author. *)
Lemma history_kept_create_post d v :
  table_wf (posts d) → history_kept d (set_posts (objects_create v (posts d)).2 d).
Proof.
  intros Hwf. split; [|intros k c c' H H'; simpl in H'; congruence].
  intros k p p' Hp [[-> ->]|Hp']%(objects_create_Some _ _ _ _ Hwf).
  - by rewrite table_wf_fresh in Hp.
  - rewrite Hp in Hp'. by injection Hp' as <-.
Qed.

Lemma history_kept_save_post d k p p' :
  rows (posts d) !! k = Some p → Post.pub_date p' = Post.pub_date p → Post.author p' = Post.author p →
  history_kept d (set_posts (instance_save k p' (posts d)) d).
Proof.
  intros Hp Hd Ha. split; [|intros k' c c' H H'; simpl in H'; congruence].
  intros k' q q' Hq [[-> ->]|[_ Hq']]%instance_save_Some.
  - rewrite Hp in Hq. by injection Hq as <-.
  - rewrite Hq in Hq'. by injection Hq' as <-.
Qed.

Lemma history_kept_create_comment d v :
  table_wf (comments d) → history_kept d (set_comments (objects_create v (comments d)).2 d).
Proof.
  intros Hwf. split; [intros k p p' H H'; simpl in H'; rewrite H in H'; by injection H' as <-|].
  intros k c c' Hc [[-> ->]|Hc']%(objects_create_Some _ _ _ _ Hwf).
  - by rewrite table_wf_fresh in Hc.
  - rewrite Hc in Hc'. by injection Hc' as <-.
Qed.

(** The deletions only delete rows, or null the group of a post. *)
Lemma history_kept_delete_post k d : history_kept d (delete_post k d).
Proof.
  split; intros k' x x' H [H' _]%objects_delete_Some; rewrite H in H'; by injection H' as <-.
Qed.

Lemma history_kept_delete_group g d : history_kept d (delete_group g d).
Proof.
  split; [|intros k c c' H H'; simpl in H'; congruence].
  intros k p p' Hp (w & Hw & ->)%objects_update_Some. rewrite Hp in Hw. injection Hw as <-.
  by case_bool_decide.
Qed.

Lemma history_kept_delete_user u d : history_kept d (delete_user u d).
Proof.
  split; intros k' x x' H [H' _]%objects_delete_Some; rewrite H in H'; by injection H' as <-.
Qed.

#[export] Instance db_equiv_equivalence : Equivalence (≡@{db}).
Proof.
  split.
  - intros d. split_and!; reflexivity.
  - intros d1 d2 (?&?&?&?&?). split_and!; by symmetry.
  - intros d1 d2 d3 (?&?&?&?&?) (?&?&?&?&?). split_and!; by etrans.
Qed.
