(* ===== verification/Paginator.v ===== *)
(** * Paginator: [posts/utils.py] and the Django paginator it calls

    [show_post_count_in_page(request, posts)] builds
    [Paginator(posts, settings.POST_COUNT)] and returns
    [paginator.get_page(request.GET.get('page'))].  The paginator is
    Django's ([django/core/paginator.py]), modelled with its defaults
    [orphans=0], [allow_empty_first_page=True] as fields: [num_pages],
    [validate_number] with its two exceptions [PageNotAnInteger] and
    [EmptyPage], [page] (slicing [object_list[bottom:top]]) and
    [get_page], which replaces a page number that is not an integer by 1
    and one that is out of range by the last page.

    The theorems show that [get_page] always returns a page (no exception
    escapes), which page it returns for every input, that a page holds at
    most [per_page] rows, and that the pages 1..[num_pages] split the
    list without loss or repetition. *)

From stdpp Require Import base list strings pretty.
From Stdlib Require Import ZArith.
From S2P Require Import Prelude PyBuiltins.

(** The value given as page number: [request.GET.get('page')] is [None]
    or a [str]; [get_page] passes an [int] to [page]. *)
Inductive py_value := PyNone | PyStr (s : string) | PyInt (z : Z).

(** [int(number)]; [None] is the [TypeError] or [ValueError]. *)
Definition py_int_of (v : py_value) : option Z :=
  match v with PyNone => None | PyStr s => py_int s | PyInt z => Some z end.

Inductive paginator_error := PageNotAnInteger | EmptyPage.

Record paginator (A : Type) := Paginator {
  object_list : list A;
  per_page : nat;
  orphans : nat;
  allow_empty_first_page : bool
}.
Arguments Paginator {A} _ _ _ _.
Arguments object_list {A} _.
Arguments per_page {A} _.
Arguments orphans {A} _.
Arguments allow_empty_first_page {A} _.

Record page (A : Type) := Page {
  page_object_list : list A;
  page_number : nat;
  page_paginator : paginator A
}.
Arguments Page {A} _ _ _.
Arguments page_object_list {A} _.
Arguments page_number {A} _.
Arguments page_paginator {A} _.

Section paginator.
Context {A : Type}.
Implicit Types (p : paginator A) (pg : page A).

(** [Paginator.count]: [len(object_list)] ([queryset.count()]). *)
Definition count p : nat := length (object_list p).

(** [Paginator.num_pages]: [ceil(hits / per_page)] with
    [hits = max(1, count - orphans)]. *)
Definition num_pages p : nat :=
  if bool_decide (count p = 0) && negb (allow_empty_first_page p) then 0
  else
    let hits := max 1 (count p - orphans p) in
    (hits + per_page p - 1) `div` per_page p.

(** [Paginator.validate_number]. *)
Definition validate_number p (v : py_value) : paginator_error + nat :=
  match py_int_of v with
  | None => inl PageNotAnInteger
  | Some n =>
      if (n <? 1)%Z then inl EmptyPage
      else if (Z.of_nat (num_pages p) <? n)%Z then
        if (n =? 1)%Z && allow_empty_first_page p then inr (Z.to_nat n) else inl EmptyPage
      else inr (Z.to_nat n)
  end.

(** [Paginator.page]: the slice [object_list[bottom:top]]; rows that
    would be left as [orphans] or fewer on a last page are kept on this
    one. *)
Definition page_rows p (n : nat) : list A :=
  let bottom := (n - 1) * per_page p in
  let top := bottom + per_page p in
  let top := if bool_decide (count p ≤ top + orphans p) then count p else top in
  py_slice bottom top (object_list p).

Definition paginator_page p (v : py_value) : paginator_error + page A :=
  match validate_number p v with
  | inl e => inl e
  | inr n => inr (Page (page_rows p n) n p)
  end.

(** [Paginator.get_page]. *)
Definition get_page p (v : py_value) : paginator_error + page A :=
  let number :=
    match validate_number p v with
    | inr n => n
    | inl PageNotAnInteger => 1
    | inl EmptyPage => num_pages p
    end in
  paginator_page p (PyInt (Z.of_nat number)).

(** The [Page] methods the templates use. *)
Definition has_next pg : bool := page_number pg <? num_pages (page_paginator pg).
Definition has_previous pg : bool := 1 <? page_number pg.
Definition has_other_pages pg : bool := has_previous pg || has_next pg.
Definition next_page_number pg : paginator_error + nat :=
  validate_number (page_paginator pg) (PyInt (Z.of_nat (S (page_number pg)))).
Definition previous_page_number pg : paginator_error + nat :=
  validate_number (page_paginator pg) (PyInt (Z.of_nat (page_number pg) - 1)).
Definition start_index pg : nat :=
  if bool_decide (count (page_paginator pg) = 0) then 0
  else per_page (page_paginator pg) * (page_number pg - 1) + 1.
Definition end_index pg : nat :=
  if bool_decide (page_number pg = num_pages (page_paginator pg)) then count (page_paginator pg)
  else page_number pg * per_page (page_paginator pg).
End paginator.

(** [settings.POST_COUNT]: ten posts per page. *)
Definition POST_COUNT : nat := 10.

(** [request.GET.get('page')]. *)
Definition page_arg (GET : querydict) : py_value :=
  match querydict_get "page" GET with Some s => PyStr s | None => PyNone end.

(** [show_post_count_in_page(request, posts)], given [request.GET]. *)
Definition show_post_count_in_page {A} (GET : querydict) (posts : list A) : paginator_error + page A :=
  get_page (Paginator posts POST_COUNT 0 true) (page_arg GET).

(** ** Which page [get_page] returns *)

(** The page [get_page] is meant to choose: 1 for a number that is not an
    integer, the last page for one out of range, the number otherwise. *)
Definition clamp_page {A} (p : paginator A) (v : py_value) : nat :=
  match py_int_of v with
  | None => 1
  | Some n =>
      if (n <? 1)%Z then num_pages p
      else if (Z.of_nat (num_pages p) <? n)%Z then num_pages p
      else Z.to_nat n
  end.

Section paginator_lemmas.
Context {A : Type} (p : paginator A).
Hypothesis Hper_page : 0 < per_page p.
Hypothesis Hallow : allow_empty_first_page p = true.

Lemma num_pages_pos : 1 ≤ num_pages p.
Proof.
  unfold num_pages. rewrite Hallow, andb_false_r.
  apply Nat.div_str_pos. lia.
Qed.

Lemma validate_number_in_range (n : nat) :
  1 ≤ n ≤ num_pages p → validate_number p (PyInt (Z.of_nat n)) = inr n.
Proof.
  intros Hn. unfold validate_number; simpl.
  destruct (Z.ltb_spec (Z.of_nat n) 1); [lia|].
  destruct (Z.ltb_spec (Z.of_nat (num_pages p)) (Z.of_nat n)); [lia|].
  by rewrite Nat2Z.id.
Qed.

Lemma clamp_page_range v : 1 ≤ clamp_page p v ≤ num_pages p.
Proof.
  pose proof num_pages_pos. unfold clamp_page.
  destruct (py_int_of v) as [n|]; [|lia].
  destruct (Z.ltb_spec n 1); [lia|].
  destruct (Z.ltb_spec (Z.of_nat (num_pages p)) n); lia.
Qed.

Lemma validate_number_clamp v :
  match validate_number p v with
  | inr n => n
  | inl PageNotAnInteger => 1
  | inl EmptyPage => num_pages p
  end = clamp_page p v.
Proof.
  pose proof num_pages_pos. unfold validate_number, clamp_page.
  destruct (py_int_of v) as [n|]; [|done].
  destruct (Z.ltb_spec n 1); [done|].
  destruct (Z.ltb_spec (Z.of_nat (num_pages p)) n); [|done].
  destruct (Z.eqb_spec n 1); [lia|done].
Qed.

(** [get_page] never raises: it returns the page [clamp_page] chooses. *)
Theorem get_page_spec v :
  get_page p v = inr (Page (page_rows p (clamp_page p v)) (clamp_page p v) p).
Proof.
  unfold get_page. rewrite validate_number_clamp. unfold paginator_page.
  by rewrite validate_number_in_range by apply clamp_page_range.
Qed.

(** A page holds at most [per_page + orphans] rows. *)
Lemma page_rows_length_le n : length (page_rows p n) ≤ per_page p + orphans p.
Proof.
  unfold page_rows, py_slice. rewrite length_take. case_bool_decide; lia.
Qed.
End paginator_lemmas.

(** ** Without orphans, the pages split the list *)

Section no_orphans.
Context {A : Type} (p : paginator A).
Hypothesis Hper_page : 0 < per_page p.
Hypothesis Horphans : orphans p = 0.

Lemma page_rows_take n :
  page_rows p n = take (per_page p) (drop ((n - 1) * per_page p) (object_list p)).
Proof.
  unfold page_rows, py_slice, count. rewrite Horphans, Nat.add_0_r.
  case_bool_decide as Hc; [|f_equal; lia].
  rewrite !take_ge; [done| |]; rewrite length_drop; lia.
Qed.

(** Page [n] has [per_page] rows, except the last, which has the rest. *)
Lemma page_rows_length n :
  length (page_rows p n) = min (per_page p) (count p - (n - 1) * per_page p).
Proof. rewrite page_rows_take, length_take, length_drop. unfold count. lia. Qed.

Lemma concat_pages m k :
  concat (page_rows p <$> seq (S m) k) =
    take (k * per_page p) (drop (m * per_page p) (object_list p)).
Proof.
  revert m. induction k as [|k IH]; intros m; [done|].
  rewrite <-cons_seq, fmap_cons. cbn [concat]. rewrite IH, page_rows_take.
  replace (S m - 1) with m by lia.
  replace (S m * per_page p) with (m * per_page p + per_page p) by lia.
  rewrite <-drop_drop, take_take_drop. done.
Qed.

Lemma num_pages_cover : count p ≤ num_pages p * per_page p.
Proof.
  unfold num_pages. rewrite Horphans, Nat.sub_0_r.
  destruct (bool_decide (count p = 0) && _)%bool eqn:E.
  - apply andb_true_iff in E as [E _]. bdecide. lia.
  - pose proof (Nat.div_mod (max 1 (count p) + per_page p - 1) (per_page p)).
    pose proof (Nat.mod_upper_bound (max 1 (count p) + per_page p - 1) (per_page p)). lia.
Qed.

(** Pages 1, ..., [num_pages] put together give back the whole list:
    every row is on exactly one page, in order. *)
Theorem pages_partition : concat (page_rows p <$> seq 1 (num_pages p)) = object_list p.
Proof.
  rewrite concat_pages, drop_0. apply take_ge. pose proof num_pages_cover.
  unfold count in *. lia.
Qed.
End no_orphans.

(** ** [show_post_count_in_page] *)

(** The list views' paginator: page [clamp_page] of the posts, ten per
    page, and never an exception. *)
Theorem show_post_count_in_page_spec {A} (GET : querydict) (posts : list A) :
  show_post_count_in_page GET posts =
    let p := Paginator posts POST_COUNT 0 true in
    let n := clamp_page p (page_arg GET) in
    inr (Page (page_rows p n) n p).
Proof. apply get_page_spec; [cbv; lia|done]. Qed.

(** C12: [show_post_count_in_page] never raises, whatever the [page]
    parameter: it returns a page whose number is between 1 and
    [num_pages] and whose posts are the ten-post slice of that number. *)
Theorem show_post_count_in_page_total {A} (GET : querydict) (posts : list A) :
  ∃ pg, show_post_count_in_page GET posts = inr pg ∧
    1 ≤ page_number pg ≤ num_pages (Paginator posts POST_COUNT 0 true) ∧
    page_object_list pg = take POST_COUNT (drop ((page_number pg - 1) * POST_COUNT) posts).
Proof.
  rewrite show_post_count_in_page_spec. eexists. split; [reflexivity|]. simpl. split.
  - apply clamp_page_range; [cbv; lia|done].
  - by rewrite page_rows_take by (cbv; lia).
Qed.

(** The link [?page=n] of a page in range leads to page [n]. *)
Lemma clamp_page_number {A} (p : paginator A) (n : nat) :
  1 ≤ n ≤ num_pages p → clamp_page p (page_arg [("page", pretty (Z.of_nat n))]) = n.
Proof.
  intros Hn. unfold clamp_page. cbn [page_arg querydict_get foldl]. simpl. rewrite py_int_pretty.
  destruct (Z.ltb_spec (Z.of_nat n) 1); [lia|].
  destruct (Z.ltb_spec (Z.of_nat (num_pages p)) (Z.of_nat n)); [lia|].
  apply Nat2Z.id.
Qed.

Lemma show_post_count_in_page_number {A} (posts : list A) (n : nat) :
  1 ≤ n ≤ num_pages (Paginator posts POST_COUNT 0 true) →
  show_post_count_in_page [("page", pretty (Z.of_nat n))] posts =
    inr (Page (page_rows (Paginator posts POST_COUNT 0 true) n) n (Paginator posts POST_COUNT 0 true)).
Proof. intros Hn. rewrite show_post_count_in_page_spec. cbn zeta. by rewrite clamp_page_number. Qed.

(** Thirteen posts make two pages. *)
Lemma num_pages_13 {A} (posts : list A) :
  length posts = 13 → num_pages (Paginator posts POST_COUNT 0 true) = 2.
Proof. intros Hlen. unfold num_pages, count. simpl. by rewrite Hlen. Qed.

(** C9: The pages [show_post_count_in_page] serves for the links
    [?page=1], ..., [?page=num_pages] put together are the list it
    paginates: every post is on exactly one page, in order. *)
Theorem show_post_count_in_page_partition {A} (posts : list A) :
  concat ((λ n : nat,
      match show_post_count_in_page [("page", pretty (Z.of_nat n))] posts with
      | inr pg => page_object_list pg
      | inl _ => []
      end) <$> seq 1 (num_pages (Paginator posts POST_COUNT 0 true))) = posts.
Proof.
  rewrite <-(pages_partition (Paginator posts POST_COUNT 0 true)) at 2 by (cbv; lia || done).
  f_equal. apply list_fmap_ext. intros _ n Hn%list_elem_of_lookup_2.
  rewrite elem_of_seq in Hn. by rewrite show_post_count_in_page_number by lia.
Qed.

(** C13: A page number below 1, such as [?page=0] or [?page=-3], is not
    clamped to the nearest page, page 1: [validate_number] raises
    [EmptyPage] for it and [get_page] then serves the last page. *)
Theorem show_post_count_in_page_nonpositive {A} (posts : list A) (z : Z) :
  (z ≤ 0)%Z →
  ∃ pg, show_post_count_in_page [("page", pretty z)] posts = inr pg ∧
    page_number pg = num_pages (Paginator posts POST_COUNT 0 true).
Proof.
  intros Hz. rewrite show_post_count_in_page_spec. eexists. split; [reflexivity|]. simpl.
  unfold clamp_page. cbn [page_arg querydict_get foldl]. simpl. rewrite py_int_pretty.
  destruct (Z.ltb_spec z 1); [done|lia].
Qed.

Lemma show_post_count_in_page_nonpositive_witness :
  (0 ≤ 0)%Z ∧
  ∃ pg, show_post_count_in_page [("page", pretty 0%Z)] (seq 1 25) = inr pg ∧
    page_number pg = num_pages (Paginator (seq 1 25) POST_COUNT 0 true).
Proof. split; [lia|]. apply (show_post_count_in_page_nonpositive (seq 1 25) 0%Z). lia. Defined.

(** Every row of a page is a row of the list. *)
Lemma elem_of_page_rows {A} (p : paginator A) n x : x ∈ page_rows p n → x ∈ object_list p.
Proof.
  unfold page_rows, py_slice. intros Hx. eapply elem_of_sublist; [exact Hx|].
  etrans; [apply sublist_take|apply sublist_drop].
Qed.

(** Without a [page] parameter the first page is served. *)
Lemma clamp_page_none {A} (p : paginator A) GET :
  querydict_get "page" GET = None → clamp_page p (page_arg GET) = 1.
Proof. intros H. unfold page_arg. by rewrite H. Qed.

(** The navigation links of a page work: on the page served for
    [?page=n] with a page after it, [has_next] holds and
    [next_page_number] is [n+1]; the page served for [?page=n+1] has a
    previous page, [n]; and the two pages are consecutive slices of the
    list. *)
Theorem show_post_count_in_page_next {A} (posts : list A) (n : nat) :
  1 ≤ n < num_pages (Paginator posts POST_COUNT 0 true) →
  ∃ pg pg',
    show_post_count_in_page [("page", pretty (Z.of_nat n))] posts = inr pg ∧
    show_post_count_in_page [("page", pretty (Z.of_nat (S n)))] posts = inr pg' ∧
    has_next pg = true ∧ next_page_number pg = inr (S n) ∧
    has_previous pg' = true ∧ previous_page_number pg' = inr n ∧
    page_object_list pg ++ page_object_list pg' =
      take (2 * POST_COUNT) (drop ((n - 1) * POST_COUNT) posts).
Proof.
  intros Hn. rewrite !show_post_count_in_page_number by lia.
  set (p := Paginator posts POST_COUNT 0 true) in *.
  assert (0 < per_page p) as Hpp by (cbv; lia).
  do 2 eexists. split_and!; [reflexivity|reflexivity| | | | |].
  - apply Nat.ltb_lt. simpl. lia.
  - apply validate_number_in_range; cbn [page_paginator]; first [lia|reflexivity|cbv; lia].
  - apply Nat.ltb_lt. simpl. lia.
  - unfold previous_page_number. simpl page_paginator. simpl page_number.
    replace (Z.of_nat (S n) - 1)%Z with (Z.of_nat n) by lia.
    apply validate_number_in_range; first [lia|reflexivity|cbv; lia].
  - cbn [page_object_list]. pose proof (concat_pages p Hpp eq_refl (n - 1) 2) as Hc.
    replace (S (n - 1)) with n in Hc by lia. cbn [seq fmap list_fmap concat] in Hc.
    rewrite app_nil_r in Hc. exact Hc.
Qed.

Lemma show_post_count_in_page_next_witness :
  ∃ pg pg',
    show_post_count_in_page [("page", pretty (Z.of_nat 2))] (seq 1 25) = inr pg ∧
    show_post_count_in_page [("page", pretty (Z.of_nat 3))] (seq 1 25) = inr pg' ∧
    has_next pg = true ∧ next_page_number pg = inr 3 ∧
    has_previous pg' = true ∧ previous_page_number pg' = inr 2 ∧
    page_object_list pg ++ page_object_list pg' =
      take (2 * POST_COUNT) (drop ((2 - 1) * POST_COUNT) (seq 1 25)).
Proof. apply (show_post_count_in_page_next (seq 1 25) 2). vm_compute. lia. Defined.
