(* ===== verification/Urls.v ===== *)
(** * Urls: the URL configuration of the [posts] application

    [posts/urls.py] is not among the sources; the routes are those of
    the HTTP surface listed in the specification (section 6), with
    Django's path converters: [<slug:slug>] ([-a-zA-Z0-9_]+),
    [<str:username>] ([^/]+) and [<int:post_id>] ([0-9]+, read with
    [int]).  [route_path] is the path of a route, [reverse] the URL
    Django builds from it (percent-quoted), [resolve] the route a request
    path selects ([None]: no pattern matches, the 404 page), and
    [login_url] the redirect of [login_required]. *)

From stdpp Require Import base list strings pretty numbers.
From Stdlib Require Import Ascii ZArith.
From S2P Require Import Prelude PyBuiltins.

Local Open Scope string_scope.

Inductive route :=
  | RIndex
  | RGroupList (slug : string)
  | RProfile (username : string)
  | RPostDetail (post_id : nat)
  | RPostCreate
  | RPostEdit (post_id : nat)
  | RAddComment (post_id : nat)
  | RFollowIndex
  | RProfileFollow (username : string)
  | RProfileUnfollow (username : string).

(** [str(post_id)] in a path. *)
Definition str_nat (n : nat) : string := pretty (Z.of_nat n).

Definition route_path (r : route) : string :=
  match r with
  | RIndex => "/"
  | RGroupList s => "/group/" +:+ s +:+ "/"
  | RProfile u => "/profile/" +:+ u +:+ "/"
  | RPostDetail n => "/posts/" +:+ str_nat n +:+ "/"
  | RPostCreate => "/create/"
  | RPostEdit n => "/posts/" +:+ str_nat n +:+ "/edit/"
  | RAddComment n => "/posts/" +:+ str_nat n +:+ "/comment/"
  | RFollowIndex => "/follow/"
  | RProfileFollow u => "/profile/" +:+ u +:+ "/follow/"
  | RProfileUnfollow u => "/profile/" +:+ u +:+ "/unfollow/"
  end.

(** ** Percent-quoting: [urllib.parse.quote(s, safe)] on UTF-8 bytes *)

Definition is_unreserved (c : ascii) : bool :=
  let n := nat_of_ascii c in
  ((48 <=? n)%nat && (n <=? 57)%nat) || ((65 <=? n)%nat && (n <=? 90)%nat) ||
  ((97 <=? n)%nat && (n <=? 122)%nat) ||
  bool_decide (c ∈ String.list_ascii_of_string "_.-~").

Definition hex_digit (n : nat) : ascii :=
  ascii_of_nat (if (n <? 10)%nat then 48 + n else 55 + n)%nat.

Fixpoint quote_list (safe : list ascii) (l : list ascii) : list ascii :=
  match l with
  | [] => []
  | c :: l' =>
      if is_unreserved c || bool_decide (c ∈ safe) then c :: quote_list safe l'
      else "%"%char :: hex_digit (nat_of_ascii c / 16)%nat :: hex_digit (nat_of_ascii c mod 16)%nat
             :: quote_list safe l'
  end.

Definition quote (safe : string) (s : string) : string :=
  String.string_of_list_ascii (quote_list (String.list_ascii_of_string safe) (String.list_ascii_of_string s)).

(** [reverse(...)]: the path, quoted with the characters RFC 3986 allows
    in a path kept. *)
Definition reverse (r : route) : string := quote "!$&'()*+,;=/~:@" (route_path r).

(** [redirect_to_login(request.get_full_path())] with
    [LOGIN_URL = '/auth/login/']. *)
Definition login_url (next : string) : string := "/auth/login/?next=" +:+ quote "/" next.

(** ** Unquoting: how Django reads a query parameter back

    [QueryDict] parses a query string with [urllib.parse.parse_qsl]:
    ["+"] becomes a space, then [unquote] replaces each [%XX] with two
    hexadecimal digits (either case) by the byte [XX] and keeps any
    other ["%"] as it is. *)
Definition hex_value (c : ascii) : option nat :=
  let n := nat_of_ascii c in
  if (48 <=? n)%nat && (n <=? 57)%nat then Some (n - 48)%nat
  else if (65 <=? n)%nat && (n <=? 70)%nat then Some (n - 55)%nat
  else if (97 <=? n)%nat && (n <=? 102)%nat then Some (n - 87)%nat
  else None.

Fixpoint unquote_list (l : list ascii) : list ascii :=
  match l with
  | [] => []
  | c :: rest =>
      if Ascii.eqb c "%" then
        match rest with
        | h1 :: h2 :: l' =>
            match hex_value h1, hex_value h2 with
            | Some a, Some b => ascii_of_nat (16 * a + b) :: unquote_list l'
            | _, _ => c :: unquote_list rest
            end
        | _ => c :: unquote_list rest
        end
      else c :: unquote_list rest
  end.

Definition plus_to_space (l : list ascii) : list ascii :=
  (λ c, if Ascii.eqb c "+" then " "%char else c) <$> l.

(** The value of a query parameter as [request.GET] gives it. *)
Definition qs_unquote (s : string) : string :=
  String.string_of_list_ascii (unquote_list (plus_to_space (String.list_ascii_of_string s))).

(** ** Resolving a request path *)

Fixpoint split_on (sep : ascii) (l : list ascii) : list (list ascii) :=
  match l with
  | [] => [[]]
  | c :: l' =>
      if Ascii.eqb c sep then [] :: split_on sep l'
      else match split_on sep l' with
           | s :: ss => (c :: s) :: ss
           | [] => [[c]]
           end
  end.

(** The segments of a path ["/a/b/"]: it starts and ends with a slash. *)
Definition path_segments (p : string) : option (list string) :=
  match String.list_ascii_of_string p with
  | c :: l =>
      if Ascii.eqb c "/" then
        match List.rev (split_on "/" l) with
        | [] :: rsegs => Some (String.string_of_list_ascii <$> List.rev rsegs)
        | _ => None
        end
      else None
  | [] => None
  end.

Definition is_slug_char (c : ascii) : bool := is_unreserved c && negb (bool_decide (c ∈ String.list_ascii_of_string ".~")).

(** [<slug:...>]: one or more of [-a-zA-Z0-9_]. *)
Definition slug_ok (s : string) : bool :=
  bool_decide (s ≠ "") && forallb is_slug_char (String.list_ascii_of_string s).

(** [<str:...>]: one or more characters other than a slash. *)
Definition str_ok (s : string) : bool :=
  bool_decide (s ≠ "") && forallb (λ c, negb (Ascii.eqb c "/")) (String.list_ascii_of_string s).

(** [<int:...>]: one or more digits, read with [int]. *)
Definition int_segment (s : string) : option nat :=
  if bool_decide (s ≠ "") && forallb (λ c, bool_decide (is_Some (digit_value c))) (String.list_ascii_of_string s)
  then Z.to_nat <$> py_int s else None.

Definition resolve (p : string) : option route :=
  match path_segments p with
  | Some [] => Some RIndex
  | Some ["group"; s] => if slug_ok s then Some (RGroupList s) else None
  | Some ["profile"; u] => if str_ok u then Some (RProfile u) else None
  | Some ["posts"; n] => RPostDetail <$> int_segment n
  | Some ["create"] => Some RPostCreate
  | Some ["posts"; n; "edit"] => RPostEdit <$> int_segment n
  | Some ["posts"; n; "comment"] => RAddComment <$> int_segment n
  | Some ["follow"] => Some RFollowIndex
  | Some ["profile"; u; "follow"] => if str_ok u then Some (RProfileFollow u) else None
  | Some ["profile"; u; "unfollow"] => if str_ok u then Some (RProfileUnfollow u) else None
  | _ => None
  end.

(** ** [resolve] inverts [route_path] *)

(** The parameters of a route are accepted by their converters. *)
Definition route_ok (r : route) : bool :=
  match r with
  | RGroupList s => slug_ok s
  | RProfile u | RProfileFollow u | RProfileUnfollow u => str_ok u
  | _ => true
  end.

(** A path made of segments, each followed by a slash. *)
Definition join_segments (segs : list string) : list ascii :=
  "/"%char :: concat ((λ s, (String.list_ascii_of_string s ++ ["/"%char])%list) <$> segs).

Definition no_slash (s : string) : Prop :=
  Forall (λ c, Ascii.eqb c "/" = false) (String.list_ascii_of_string s).

(** ** The other applications: [users] under [auth/], and [about]

    [users/urls.py] and [about/urls.py] are not among the sources; their
    pages are those the tests of these applications reverse, at the
    paths of Django's authentication views, each with the template the
    tests expect.  The password-reset confirmation link, which carries a
    token, is left out. *)
Inductive app_page :=
  | PSignup | PLogin | PLogout | PPasswordChange | PPasswordChangeDone
  | PPasswordReset | PPasswordResetDone | PPasswordResetComplete
  | PAboutAuthor | PAboutTech.

Definition app_page_segments (p : app_page) : list string :=
  match p with
  | PSignup => ["auth"; "signup"]
  | PLogin => ["auth"; "login"]
  | PLogout => ["auth"; "logout"]
  | PPasswordChange => ["auth"; "password_change"]
  | PPasswordChangeDone => ["auth"; "password_change"; "done"]
  | PPasswordReset => ["auth"; "password_reset"]
  | PPasswordResetDone => ["auth"; "password_reset"; "done"]
  | PPasswordResetComplete => ["auth"; "reset"; "done"]
  | PAboutAuthor => ["about"; "author"]
  | PAboutTech => ["about"; "tech"]
  end.

Definition app_pages : list app_page :=
  [PSignup; PLogin; PLogout; PPasswordChange; PPasswordChangeDone; PPasswordReset;
   PPasswordResetDone; PPasswordResetComplete; PAboutAuthor; PAboutTech].

(** [reverse('users:...')] and [reverse('about:...')]. *)
Definition app_page_path (p : app_page) : string :=
  foldr (λ seg acc, "/" +:+ seg +:+ acc) "/" (app_page_segments p).

(** The page a path selects, if any. *)
Definition app_resolve (path : string) : option app_page :=
  path_segments path ≫= λ segs, head (filter (λ p, app_page_segments p = segs) app_pages).

(** The [template_name] each view is given. *)
Definition app_page_template (p : app_page) : string :=
  match p with
  | PSignup => "users/signup.html"
  | PLogin => "users/login.html"
  | PLogout => "users/logged_out.html"
  | PPasswordChange => "users/password_change_form.html"
  | PPasswordChangeDone => "users/password_change_done.html"
  | PPasswordReset => "users/password_reset_form.html"
  | PPasswordResetDone => "users/password_reset_done.html"
  | PPasswordResetComplete => "users/password_reset_complete.html"
  | PAboutAuthor => "about/author.html"
  | PAboutTech => "about/tech.html"
  end.

Lemma split_on_app (l : list ascii) (rest : list ascii) :
  Forall (λ c, Ascii.eqb c "/" = false) l →
  split_on "/" (l ++ "/"%char :: rest)%list = l :: split_on "/" rest.
Proof.
  induction l as [|c l IH]; intros Hl; [done|].
  inversion Hl as [|? ? Hc Hl']; subst. simpl. rewrite Hc, IH by done. done.
Qed.


Lemma path_segments_join (p : string) (segs : list string) :
  Forall no_slash segs → String.list_ascii_of_string p = join_segments segs →
  path_segments p = Some segs.
Proof.
  intros Hsegs Hp.
  assert (split_on "/" (concat ((λ s, (String.list_ascii_of_string s ++ ["/"%char])%list) <$> segs)) =
    ((String.list_ascii_of_string <$> segs) ++ [[]])%list) as Hsplit.
  { clear Hp. induction Hsegs as [|s segs Hs _ IH]; [done|].
    rewrite fmap_cons. cbn [concat]. rewrite <-app_assoc. simpl.
    rewrite split_on_app by exact Hs. by rewrite IH. }
  unfold path_segments. rewrite Hp. unfold join_segments. cbv beta iota. rewrite Hsplit.
  rewrite List.rev_app_distr. simpl. rewrite List.rev_involutive, <-list_fmap_compose.
  f_equal. rewrite <-(list_fmap_id segs) at 2. apply list_fmap_ext.
  intros ? s _. apply String.string_of_list_ascii_of_string.
Qed.

Lemma digit_no_slash c : is_Some (digit_value c) → Ascii.eqb c "/" = false.
Proof.
  intros [d Hd]. apply Ascii.eqb_neq. intros ->. discriminate.
Qed.

(** [str(n)] is a non-empty run of digits. *)
Lemma str_nat_digits n :
  str_nat n ≠ "" ∧ Forall (λ c, is_Some (digit_value c)) (String.list_ascii_of_string (str_nat n)).
Proof.
  destruct n as [|n]; [split; [done|repeat constructor; by eexists]|].
  change (String.list_ascii_of_string (str_nat (S n))) with (decimal (N.pos (Pos.of_succ_nat n))).
  split; [|apply decimal_digits].
  intros Hnil. destruct (decimal_nonempty (N.pos (Pos.of_succ_nat n))) as (c & l & E); [lia|].
  assert (String.list_ascii_of_string (str_nat (S n)) = []) as E' by (by rewrite Hnil).
  change (String.list_ascii_of_string (str_nat (S n))) with (decimal (N.pos (Pos.of_succ_nat n))) in E'.
  congruence.
Qed.

Lemma int_segment_str_nat n : int_segment (str_nat n) = Some n.
Proof.
  destruct (str_nat_digits n) as [Hne Hd]. unfold int_segment.
  rewrite bool_decide_eq_true_2 by done.
  assert (forallb (λ c, bool_decide (is_Some (digit_value c)))
            (String.list_ascii_of_string (str_nat n)) = true) as ->.
  { apply forallb_forall. intros c Hc. apply bool_decide_eq_true_2.
    rewrite Forall_forall in Hd. apply Hd. first [done|by apply list_elem_of_In]. }
  simpl. unfold str_nat. rewrite py_int_pretty. simpl. by rewrite Nat2Z.id.
Qed.

Lemma no_slash_str_nat n : no_slash (str_nat n).
Proof.
  destruct (str_nat_digits n) as [_ Hd]. unfold no_slash.
  eapply Forall_impl; [|exact Hd]. apply digit_no_slash.
Qed.

Lemma no_slash_str_ok u : str_ok u = true → no_slash u.
Proof.
  unfold str_ok. intros [_ Hu]%andb_true_iff. apply Forall_forall. intros c Hc.
  apply forallb_forall with (x := c) in Hu; [|first [done|by apply list_elem_of_In]].
  by apply negb_true_iff in Hu.
Qed.

Lemma no_slash_slug_ok s : slug_ok s = true → no_slash s.
Proof.
  unfold slug_ok. intros [_ Hs]%andb_true_iff. apply Forall_forall. intros c Hc.
  apply forallb_forall with (x := c) in Hs; [|first [done|by apply list_elem_of_In]].
  apply Ascii.eqb_neq. intros ->. discriminate.
Qed.

#[export] Hint Resolve no_slash_str_nat no_slash_str_ok no_slash_slug_ok : yatube.

(** Rewrite a path into its segments with [path_segments_join]. *)
Ltac segments_side :=
  first
    [ solve [unfold join_segments; simpl; autorewrite with yatube_rw; simpl;
             rewrite ?app_nil_r, <-?app_assoc; done]
    | solve [repeat apply Forall_cons; (apply Forall_nil || auto with yatube || (unfold no_slash; simpl; repeat constructor))] ].
Ltac segments_of segs :=
  rewrite (path_segments_join _ segs); [| segments_side | segments_side].

(** Every route the application links to resolves back to itself:
    [resolve] inverts [route_path] on routes whose parameters their
    converters accept. *)
Theorem resolve_route_path r : route_ok r = true → resolve (route_path r) = Some r.
Proof.
  intros Hok. destruct r; simpl in Hok; unfold resolve.
  - by segments_of (@nil string).
  - segments_of ["group"; slug]. simpl. by rewrite Hok.
  - segments_of ["profile"; username]. simpl. by rewrite Hok.
  - segments_of ["posts"; str_nat post_id]. simpl. by rewrite int_segment_str_nat.
  - by segments_of ["create"].
  - segments_of ["posts"; str_nat post_id; "edit"]. simpl. by rewrite int_segment_str_nat.
  - segments_of ["posts"; str_nat post_id; "comment"]. simpl. by rewrite int_segment_str_nat.
  - by segments_of ["follow"].
  - segments_of ["profile"; username; "follow"]. simpl. by rewrite Hok.
  - segments_of ["profile"; username; "unfollow"]. simpl. by rewrite Hok.
Qed.

(** The parameters of a resolved route pass their converters. *)
Lemma resolve_route_ok p rt : resolve p = Some rt → route_ok rt = true.
Proof.
  unfold resolve. intros H. repeat case_match; simplify_eq/=; try done.
  all: match goal with H : _ <$> _ = Some _ |- _ => apply fmap_Some in H as (? & _ & ->) end; done.
Qed.

(** The paths of the [posts] routes select no page of the other
    applications, ... *)
Lemma app_resolve_route_path r : route_ok r = true → app_resolve (route_path r) = None.
Proof.
  intros Hok. destruct r; simpl in Hok; unfold app_resolve.
  - by segments_of (@nil string).
  - by segments_of ["group"; slug].
  - by segments_of ["profile"; username].
  - by segments_of ["posts"; str_nat post_id].
  - by segments_of ["create"].
  - by segments_of ["posts"; str_nat post_id; "edit"].
  - by segments_of ["posts"; str_nat post_id; "comment"].
  - by segments_of ["follow"].
  - by segments_of ["profile"; username; "follow"].
  - by segments_of ["profile"; username; "unfollow"].
Qed.

(** ... and the pages of the other applications are selected by their
    own paths, which no [posts] route matches. *)
Lemma app_resolve_page_path p : app_resolve (app_page_path p) = Some p ∧ resolve (app_page_path p) = None.
Proof. destruct p; split; vm_compute; reflexivity. Qed.

(** ** Unquoting undoes quoting *)

Lemma hex_value_hex_digit n : (n < 16)%nat → hex_value (hex_digit n) = Some n.
Proof. intros Hn. do 16 (destruct n as [|n]; [reflexivity|]). lia. Qed.

Lemma hex_digit_unreserved n : (n < 16)%nat → is_unreserved (hex_digit n) = true.
Proof. intros Hn. do 16 (destruct n as [|n]; [reflexivity|]). lia. Qed.

(** The two hexadecimal digits of a byte. *)
Lemma nibbles_bounded c : (nat_of_ascii c / 16 < 16 ∧ nat_of_ascii c mod 16 < 16)%nat.
Proof.
  pose proof (nat_ascii_bounded c).
  split; [apply Nat.Div0.div_lt_upper_bound|apply Nat.mod_upper_bound]; lia.
Qed.

(** A byte outside the safe set and not unreserved never appears in
    quoted text but as the ["%"] of an escape. *)
Lemma kept_not (safe : list ascii) x c :
  x ∉ safe → is_unreserved x = false → is_unreserved c || bool_decide (c ∈ safe) = true →
  Ascii.eqb c x = false.
Proof.
  intros Hsafe Hx Hk. destruct (Ascii.eqb_spec c x) as [->|]; [|done].
  exfalso. apply orb_true_iff in Hk as [Hk|Hk]; [congruence|]. by apply bool_decide_eq_true in Hk.
Qed.

Lemma hex_digit_not n x : (n < 16)%nat → is_unreserved x = false → Ascii.eqb (hex_digit n) x = false.
Proof.
  intros Hn Hx. destruct (Ascii.eqb_spec (hex_digit n) x) as [<-|]; [|done].
  by rewrite hex_digit_unreserved in Hx.
Qed.

Lemma quote_list_avoids (safe : list ascii) x l :
  x ∉ safe → is_unreserved x = false → x ≠ "%"%char →
  Forall (λ c, Ascii.eqb c x = false) (quote_list safe l).
Proof.
  intros Hsafe Hx Hp. induction l as [|c l IH]; [constructor|].
  pose proof (nibbles_bounded c) as [Hq Hm]. cbn [quote_list].
  destruct (is_unreserved c || bool_decide (c ∈ safe)) eqn:Hk.
  - constructor; [by eapply kept_not|done].
  - repeat constructor; [|by apply hex_digit_not..|done].
    destruct (Ascii.eqb_spec "%" x); congruence.
Qed.

Lemma unquote_quote_list (safe : list ascii) l :
  "%"%char ∉ safe → unquote_list (quote_list safe l) = l.
Proof.
  intros Hsafe. induction l as [|c l IH]; [done|].
  pose proof (nibbles_bounded c) as [Hq Hm]. cbn [quote_list].
  destruct (is_unreserved c || bool_decide (c ∈ safe)) eqn:Hk; cbn [unquote_list].
  - by rewrite (kept_not safe "%" c Hsafe eq_refl Hk), IH.
  - rewrite (hex_value_hex_digit _ Hq), (hex_value_hex_digit _ Hm), IH, Ascii.eqb_refl.
    cbn beta iota. rewrite <-(Nat.div_mod_eq (nat_of_ascii c) 16). by rewrite ascii_nat_embedding.
Qed.

Lemma plus_to_space_id l : Forall (λ c, Ascii.eqb c "+" = false) l → plus_to_space l = l.
Proof.
  induction 1 as [|c l Hc _ IH]; [done|]. unfold plus_to_space in *. rewrite fmap_cons, IH.
  by rewrite Hc.
Qed.

(** Quoting with a safe set without ["+"] leaves no ["+"]. *)
Lemma plus_to_space_quote_list (safe : list ascii) l :
  "+"%char ∉ safe → plus_to_space (quote_list safe l) = quote_list safe l.
Proof. intros Hsafe. by apply plus_to_space_id, quote_list_avoids. Qed.

(** Unquoting a query value undoes [quote "/"]: the [next] parameter of
    [login_url] reads back as the path it was built from. *)
Lemma qs_unquote_quote s : qs_unquote (quote "/" s) = s.
Proof.
  unfold qs_unquote, quote. rewrite String.list_ascii_of_string_of_list_ascii.
  rewrite plus_to_space_quote_list, unquote_quote_list by (intros H; apply list_elem_of_singleton in H; discriminate).
  apply String.string_of_list_ascii_of_string.
Qed.
