(* ===== verification/Forms.v ===== *)
(** * Forms: [PostForm] and [CommentForm]

    [posts/forms.py] is not among the sources: the forms are modelled
    from the specification (a post has a required text, an optional
    group and an optional image; a comment has a required text) with
    the cleaning rules of the Django fields they use:
    - [text], a [CharField(strip=True)]: surrounding whitespace removed,
      required (the empty string is an error), no NUL character;
    - [group], a [ModelChoiceField] over [Group.objects.all()], not
      required: an empty value is [None], otherwise [int] of the value
      must be the key of a group;
    - [image], an [ImageField] with a [ClearableFileInput], not
      required: a new upload must be an image, the [image-clear]
      checkbox empties the field, both at once is a contradiction, and
      neither keeps the current file.
    A form is bound when the request carries data or files; a bound form
    is valid when no field has an error. *)

From stdpp Require Import base list strings.
From Stdlib Require Import Ascii ZArith.
From S2P Require Import Prelude PyBuiltins Orm Models.

Local Open Scope string_scope.

(** An uploaded file: its name and whether Pillow can open it. *)
Record upload := Upload { upload_name : string; upload_is_image : bool }.

(** [request.FILES]: the uploaded files by field name. *)
Definition files := list (string * upload).

Definition files_get (k : string) (fs : files) : option upload :=
  foldl (λ acc kv, if bool_decide (kv.1 = k) then Some kv.2 else acc) None fs.

Inductive form_error :=
  | Required | NullCharacters | InvalidChoice | InvalidImage | Contradiction
  | InvalidUsername | UsernameTaken | PasswordMismatch.

(** The state of a form a template receives. *)
Inductive form_state :=
  | FormUnbound
  | FormBound (data : querydict) (errors : list (string * form_error)).

(** ** Fields *)

Definition has_nul (s : string) : bool :=
  bool_decide ((Ascii.ascii_of_nat 0) ∈ String.list_ascii_of_string s).

(** [CharField(strip=True, required=True).clean]. *)
Definition clean_text (v : option string) : form_error + string :=
  let s := match v with
           | Some s => String.string_of_list_ascii (py_strip (String.list_ascii_of_string s))
           | None => ""
           end in
  if bool_decide (s = "") then inl Required
  else if has_nul s then inl NullCharacters
  else inr s.

(** [ModelChoiceField(Group.objects.all(), required=False).clean]. *)
Definition clean_group (d : db) (v : option string) : form_error + option nat :=
  match v with
  | None => inr None
  | Some s =>
      if bool_decide (s = "") then inr None
      else match py_int s with
           | Some z =>
               if bool_decide (0 ≤ z)%Z && bool_decide (is_Some (objects_get (Z.to_nat z) (groups d)))
               then inr (Some (Z.to_nat z)) else inl InvalidChoice
           | None => inl InvalidChoice
           end
  end.

(** What saving the form does to the image field. *)
Inductive image_change := KeepImage | ClearImage | NewImage (u : upload).

Definition ascii_lower (c : ascii) : ascii :=
  let n := nat_of_ascii c in
  if (65 <=? n)%nat && (n <=? 90)%nat then ascii_of_nat (n + 32) else c.

(** [CheckboxInput.value_from_datadict]: absent is [False]; ["true"] and
    ["false"] in any case are themselves; any other value is its
    truthiness. *)
Definition checkbox_value (data : querydict) (name : string) : bool :=
  match querydict_get name data with
  | None => false
  | Some v =>
      let lv := String.string_of_list_ascii (ascii_lower <$> String.list_ascii_of_string v) in
      if bool_decide (lv = "true") then true
      else if bool_decide (lv = "false") then false
      else bool_decide (v ≠ "")
  end.

(** [ClearableFileInput.value_from_datadict] followed by [ImageField.clean]. *)
Definition clean_image (data : querydict) (fs : files) : form_error + image_change :=
  let upload := files_get "image" fs in
  if checkbox_value data "image-clear" then
    match upload with Some _ => inl Contradiction | None => inr ClearImage end
  else
    match upload with
    | None => inr KeepImage
    | Some u => if upload_is_image u then inr (NewImage u) else inl InvalidImage
    end.

(** [upload_to='posts/']: the stored name of an upload. *)
Definition image_path (u : upload) : string := "posts/" +:+ upload_name u.

Definition apply_image (ch : image_change) (current : string) : string :=
  match ch with
  | KeepImage => current
  | ClearImage => ""
  | NewImage u => image_path u
  end.

(** ** The two forms *)

Record post_cleaned := PostCleaned {
  cleaned_text : string;
  cleaned_group : option nat;
  cleaned_image : image_change
}.

Definition field_error {A} (name : string) (r : form_error + A) : list (string * form_error) :=
  match r with inl e => [(name, e)] | inr _ => [] end.

(** [PostForm(data, files).is_valid()] and [cleaned_data]. *)
Definition post_form_clean (d : db) (data : querydict) (fs : files)
    : list (string * form_error) + post_cleaned :=
  let t := clean_text (querydict_get "text" data) in
  let g := clean_group d (querydict_get "group" data) in
  let i := clean_image data fs in
  match t, g, i with
  | inr t, inr g, inr i => inr (PostCleaned t g i)
  | _, _, _ => inl (field_error "text" t ++ field_error "group" g ++ field_error "image" i)%list
  end.

(** [CommentForm(data).is_valid()] and [cleaned_data['text']]. *)
Definition comment_form_clean (data : querydict) : list (string * form_error) + string :=
  match clean_text (querydict_get "text" data) with
  | inr t => inr t
  | inl e => inl [("text", e)]
  end.

(** ** [CreationForm] of the [users] application

    [users/forms.py] is not among the sources either: [CreationForm] is a
    [UserCreationForm] over [first_name], [last_name], [username] and
    [email].  Its [username] is required and stripped, checked by
    [UnicodeUsernameValidator] and at most 150 characters long, and
    must not be taken ([unique=True]); [password1] and [password2] are
    required, not stripped, and must be equal.  The password validators
    of the settings and the e-mail syntax are not modelled. *)

(** [\w], [.], [@], [+] or [-]: an ASCII letter, digit or one of
    [_.@+-], or a byte of a non-ASCII character (which the model counts
    as a word character). *)
Definition is_username_char (c : ascii) : bool :=
  let n := nat_of_ascii c in
  (48 <=? n)%nat && (n <=? 57)%nat || (65 <=? n)%nat && (n <=? 90)%nat ||
  (97 <=? n)%nat && (n <=? 122)%nat || bool_decide (c ∈ String.list_ascii_of_string "_.@+-") ||
  (128 <=? n)%nat.

(** [UnicodeUsernameValidator] ([^[\w.@+-]+\Z]) and [max_length=150]. *)
Definition username_ok (s : string) : bool :=
  bool_decide (s ≠ "") && (code_points s <=? 150)%nat &&
  forallb is_username_char (String.list_ascii_of_string s).

Definition username_taken (d : db) (s : string) : bool :=
  objects_exists (λ _ u, bool_decide (User.username u = s)) (users d).

(** [UsernameField.clean] and the uniqueness check. *)
Definition clean_username (d : db) (v : option string) : form_error + string :=
  match clean_text v with
  | inl e => inl e
  | inr s =>
      if negb (username_ok s) then inl InvalidUsername
      else if username_taken d s then inl UsernameTaken
      else inr s
  end.

(** [CharField(strip=False).clean] of a password field. *)
Definition clean_password (v : option string) : form_error + string :=
  match v with
  | None => inl Required
  | Some s => if bool_decide (s = "") then inl Required else if has_nul s then inl NullCharacters else inr s
  end.

(** [CreationForm(data).is_valid()] and the new account's username;
    [clean_password2] reports two different passwords on [password2]. *)
Definition creation_form_clean (d : db) (data : querydict) : list (string * form_error) + string :=
  let u := clean_username d (querydict_get "username" data) in
  let p1 := clean_password (querydict_get "password1" data) in
  let p2 := match clean_password (querydict_get "password2" data), p1 with
            | inr s2, inr s1 => if bool_decide (s1 = s2) then inr s2 else inl PasswordMismatch
            | p2, _ => p2
            end in
  match u, p1, p2 with
  | inr u, inr _, inr _ => inr u
  | _, _, _ => inl (field_error "username" u ++ field_error "password1" p1 ++ field_error "password2" p2)%list
  end.

(** ** What a valid form guarantees *)

Lemma clean_group_fk d v g : clean_group d v = inr g → fk_ok (groups d) g.
Proof.
  unfold clean_group. intros Hg k ->.
  destruct v as [s|]; [|discriminate].
  case_bool_decide; [discriminate|].
  destruct (py_int s) as [z|]; [|discriminate].
  destruct (bool_decide (0 ≤ z)%Z && bool_decide _) eqn:E; [|discriminate].
  injection Hg as <-. bdecide. done.
Qed.

Lemma post_form_clean_group d data fs c :
  post_form_clean d data fs = inr c → fk_ok (groups d) (cleaned_group c).
Proof.
  unfold post_form_clean.
  destruct (clean_text _), (clean_group d _) as [|g] eqn:Hg, (clean_image _ _); try discriminate.
  intros [= <-]. simpl. by eapply clean_group_fk.
Qed.

(** The text a valid form saves is not empty. *)
Lemma clean_text_nonempty v t : clean_text v = inr t → t ≠ "".
Proof.
  unfold clean_text. case_bool_decide as Hs; [discriminate|].
  destruct (has_nul _); [discriminate|]. by intros [= <-].
Qed.

(** An invalid post form reports at least one field error. *)
Lemma post_form_clean_errors d data fs errs :
  post_form_clean d data fs = inl errs → errs ≠ [].
Proof.
  unfold post_form_clean.
  destruct (clean_text _) as [e|t], (clean_group d _) as [e'|g], (clean_image _ _) as [e''|i];
    intros [= <-]; simpl; discriminate.
Qed.

(** The text a valid [CharField] gives: the submitted value stripped,
    not empty, without NUL. *)
Lemma clean_text_spec v t :
  clean_text v = inr t →
  (∃ s, v = Some s ∧ t = String.string_of_list_ascii (py_strip (String.list_ascii_of_string s))) ∧
  t ≠ "" ∧ has_nul t = false.
Proof.
  unfold clean_text. case_bool_decide as Hs; [discriminate|].
  destruct (has_nul _) eqn:Hn; [discriminate|]. intros [= <-]. split_and!; [|done|done].
  destruct v as [s|]; [by eexists|done].
Qed.

(** What [post_form_clean] returns, field by field. *)
Lemma post_form_clean_inr d data fs c :
  post_form_clean d data fs = inr c →
  clean_text (querydict_get "text" data) = inr (cleaned_text c) ∧
  clean_group d (querydict_get "group" data) = inr (cleaned_group c) ∧
  clean_image data fs = inr (cleaned_image c).
Proof.
  unfold post_form_clean.
  destruct (clean_text _), (clean_group d _), (clean_image _ _); try discriminate.
  by intros [= <-].
Qed.

Lemma clean_username_inr d v u :
  clean_username d v = inr u → username_ok u = true ∧ username_taken d u = false.
Proof.
  unfold clean_username. destruct (clean_text v) as [|s]; [discriminate|].
  destruct (username_ok s) eqn:Hok, (username_taken d s) eqn:Ht; simpl; try discriminate.
  by intros [= <-].
Qed.

(** A valid creation form names a valid username nobody has. *)
Lemma creation_form_clean_inr d data u :
  creation_form_clean d data = inr u → username_ok u = true ∧ username_taken d u = false.
Proof.
  unfold creation_form_clean. intros H. repeat case_match; simplify_eq. by eapply clean_username_inr.
Qed.

(** An invalid creation form reports at least one field error. *)
Lemma creation_form_clean_errors d data errs :
  creation_form_clean d data = inl errs → errs ≠ [].
Proof. unfold creation_form_clean. intros H. repeat case_match; simplify_eq/=; discriminate. Qed.
