(* ===== verification/Views.v ===== *)
(** * Views: the request handlers of [posts/views.py]

    Each view is a function of the request in the monad
    [exc_state db exn]: it reads and writes the database and may leave
    early with an exception ([get_object_or_404] raises [Http404];
    [objects.get] finding several rows raises an error the framework
    turns into a server error).  [run_view] is the framework's handling
    of the exceptions.  The [@login_required] decorator is [Site.v]'s.

    [request.user] is [req_user], the key of the authenticated account
    or [None] for the anonymous user; the time [auto_now_add] reads is
    [req_now].  [select_related] only changes how rows are fetched and is
    not modelled. *)

From stdpp Require Import base list strings gmap.
From Stdlib Require Import ZArith.
From S2P Require Import Prelude PyBuiltins Orm Models Paginator Urls Forms.

Local Open Scope string_scope.

(** ** Requests and responses *)

Inductive http_method := GET | POST.

(** [req_path] is [request.path_info] (decoded), [req_query] the raw
    query string and [req_GET] its decoding. *)
Record request := Request {
  req_user : option nat;
  req_method : http_method;
  req_path : string;
  req_query : string;
  req_GET : querydict;
  req_data : querydict;
  req_files : files;
  req_now : nat
}.

(** [request.POST] and [request.FILES]: empty unless the method is POST. *)
Definition request_POST (r : request) : querydict :=
  match req_method r with POST => req_data r | GET => [] end.
Definition request_FILES (r : request) : files :=
  match req_method r with POST => req_files r | GET => [] end.

(** [request.get_full_path()]: the quoted path and the query string. *)
Definition full_path (r : request) : string :=
  quote "/:@&+$,-_.!~*'()" (req_path r) +:+
  (if bool_decide (req_query r = "") then "" else "?" +:+ req_query r).

Definition post_row := (nat * Post.t)%type.

(** The context a template is rendered with: one constructor per template
    of [posts], and [CtxAppPage] for a page of the [users] and [about]
    applications with its form. *)
Inductive context :=
  | CtxIndex (page_obj : page post_row)
  | CtxGroupList (group : nat * Group.t) (page_obj : page post_row)
  | CtxProfile (page_obj : page post_row) (author : nat * User.t) (following : bool)
  | CtxPostDetail (post : post_row) (post_count : nat) (comments : list (nat * Comment.t))
      (form : form_state)
  | CtxCreatePost (form : form_state)
  | CtxEditPost (post : post_row) (form : form_state) (is_edit : bool)
  | CtxFollow (page_obj : page post_row) (follow : bool)
  | CtxAppPage (p : app_page) (form : form_state).

Inductive response :=
  | Render (template : string) (ctx : context)
  | Redirect (url : string)
  | NotFound
  | ServerError.

Inductive exn := Http404 | Http500.

Definition is_redirect (resp : response) : bool :=
  match resp with Redirect _ => true | _ => false end.

(** The URLs the views redirect to, which a [GET] answers without
    redirecting again: the login page, the main page, a post's page
    and the profile of a username the [<str:...>] converter accepts. *)
Definition final_target (url : string) : Prop :=
  (∃ next, url = login_url next) ∨ url = reverse RIndex ∨ (∃ k, url = reverse (RPostDetail k)) ∨
  (∃ s, url = reverse (RProfile s) ∧ str_ok s = true).

Definition redirects_final (resp : response) : Prop :=
  match resp with Redirect url => final_target url | _ => True end.

(** The template that reads each context: the variables of
    [templates/posts/*.html] are those of one constructor. *)
Definition template_of (ctx : context) : string :=
  match ctx with
  | CtxIndex _ => "posts/index.html"
  | CtxGroupList _ _ => "posts/group_list.html"
  | CtxProfile _ _ _ => "posts/profile.html"
  | CtxPostDetail _ _ _ _ => "posts/post_detail.html"
  | CtxCreatePost _ | CtxEditPost _ _ _ => "posts/create_post.html"
  | CtxFollow _ _ => "posts/follow.html"
  | CtxAppPage p _ => app_page_template p
  end.

(** A response is well typed when a rendered template receives the
    context it reads. *)
Definition response_typed (resp : response) : Prop :=
  match resp with Render t ctx => t = template_of ctx | _ => True end.

Abbreviation view := (exc_state db exn response).

(** The framework's handling of an exception that leaves a view. *)
Definition run_view (v : view) (d : db) : db * response :=
  match v d with
  | (d', inr resp) => (d', resp)
  | (d', inl Http404) => (d', NotFound)
  | (d', inl Http500) => (d', ServerError)
  end.

(** ** Helpers of the views *)

(** [get_object_or_404(Model, **lookup)]. *)
Definition get_object_or_404 {V} (tbl : db → table V) (P : nat → V → bool) : exc_state db exn (nat * V) :=
  λ d, match objects_get_by P (tbl d) with
       | Found k v => (d, inr (k, v))
       | DoesNotExist => (d, inl Http404)
       | MultipleObjectsReturned => (d, inl Http500)
       end.

(** A paginator exception would reach the framework. *)
Definition paginate (r : request) (l : list post_row) : exc_state db exn (page post_row) :=
  match show_post_count_in_page (req_GET r) l with
  | inr pg => mret pg
  | inl _ => raise Http500
  end.

Definition redirect (rt : route) : response := Redirect (reverse rt).

Definition by_pk {V} (k : nat) : nat → V → bool := λ k' _, bool_decide (k' = k).

(** ** The list views *)

Definition index (r : request) : view :=
  d ← get_state;
  let posts := queryset (λ _ _, true) (posts d) in
  page_obj ← paginate r posts;
  mret (Render "posts/index.html" (CtxIndex page_obj)).

Definition group_posts (r : request) (slug : string) : view :=
  group ← get_object_or_404 groups (λ _ g, bool_decide (Group.slug g = slug));
  d ← get_state;
  let posts := queryset (λ _ p, bool_decide (Post.group p = Some group.1)) (posts d) in
  page_obj ← paginate r posts;
  mret (Render "posts/group_list.html" (CtxGroupList group page_obj)).

(** [author.following.filter(user=request.user).exists()] *)
Definition is_follower (d : db) (u a : nat) : bool :=
  objects_exists (λ _ f, bool_decide (Follow.author f = Some a) && bool_decide (Follow.user f = u))
    (follows d).

Definition profile (r : request) (username : string) : view :=
  author ← get_object_or_404 users (λ _ u, bool_decide (User.username u = username));
  d ← get_state;
  let post_author := queryset (λ _ p, bool_decide (Post.author p = author.1)) (posts d) in
  let is_following :=
    match req_user r with
    | None => false
    | Some u => bool_decide (author.1 ≠ u) && is_follower d u author.1
    end in
  page_obj ← paginate r post_author;
  mret (Render "posts/profile.html" (CtxProfile page_obj author is_following)).

(** [request.POST or None]: an empty query dictionary is falsy. *)
Definition or_none {A} (l : list A) : option (list A) := match l with [] => None | _ => Some l end.

(** The comment form of [post_detail], as the template receives it. *)
Definition comment_form_state (data : option querydict) : form_state :=
  match data with
  | None => FormUnbound
  | Some q => FormBound q (match comment_form_clean q with inl errs => errs | inr _ => [] end)
  end.

Definition post_detail (r : request) (post_id : nat) : view :=
  post ← get_object_or_404 posts (by_pk post_id);
  d ← get_state;
  let post_count := objects_count (λ _ p, bool_decide (Post.author p = Post.author post.2)) (posts d) in
  let form := comment_form_state (or_none (request_POST r)) in
  let comments := queryset (λ _ c, bool_decide (Comment.post c = Some post.1)) (comments d) in
  mret (Render "posts/post_detail.html" (CtxPostDetail post post_count comments form)).

(** ** Creating and editing posts *)

(** [PostForm(request.POST or None, files=request.FILES or None)] is bound
    when there is data or a file. *)
Definition form_is_bound (r : request) : bool :=
  bool_decide (request_POST r ≠ [] ∨ request_FILES r ≠ []).

Definition post_form_state (d : db) (r : request) : form_state :=
  if form_is_bound r then
    FormBound (request_POST r)
      (match post_form_clean d (request_POST r) (request_FILES r) with inl errs => errs | inr _ => [] end)
  else FormUnbound.

(** [form.is_valid()]: bound and without errors. *)
Definition post_form_valid (d : db) (r : request) : option post_cleaned :=
  if form_is_bound r then
    match post_form_clean d (request_POST r) (request_FILES r) with inr c => Some c | inl _ => None end
  else None.

Definition create_page_with_form (form : form_state) : view :=
  mret (Render "posts/create_post.html" (CtxCreatePost form)).

(** [post = form.save(commit=False); post.author = request.user]: the
    new post, dated now. *)
Definition new_post (r : request) (u : nat) (c : post_cleaned) : Post.t :=
  Post.mk (cleaned_text c) (req_now r) u (cleaned_group c) (apply_image (cleaned_image c) "").

(** [post_create] (under [login_required]: [u] is [request.user]). *)
Definition post_create (r : request) (u : nat) : view :=
  match req_method r with
  | POST =>
      d ← get_state;
      match post_form_valid d r with
      | Some c =>
          put_state (set_posts (objects_create (new_post r u c) (posts d)).2 d);;
          mret (redirect (RProfile (user_str d (Some u))))
      | None => create_page_with_form (post_form_state d r)
      end
  | GET => create_page_with_form FormUnbound
  end.

(** The post a valid edit form saves: author and date unchanged. *)
Definition edited_post (p : Post.t) (c : post_cleaned) : Post.t :=
  Post.mk (cleaned_text c) (Post.pub_date p) (Post.author p) (cleaned_group c)
    (apply_image (cleaned_image c) (Post.image p)).

(** [post_edit] (under [login_required]). *)
Definition post_edit (r : request) (u : nat) (post_id : nat) : view :=
  post ← get_object_or_404 posts (by_pk post_id);
  if bool_decide (Post.author post.2 ≠ u) then mret (redirect (RPostDetail post_id))
  else
    d ← get_state;
    match post_form_valid d r with
    | Some c =>
        put_state (set_posts (instance_save post.1 (edited_post post.2 c) (posts d)) d);;
        mret (redirect (RPostDetail post_id))
    | None =>
        mret (Render "posts/create_post.html" (CtxEditPost post (post_form_state d r) true))
    end.

(** ** Comments *)

(** [CommentForm(request.POST or None).is_valid()] and its text. *)
Definition comment_form_valid (r : request) : option string :=
  or_none (request_POST r) ≫= λ q, match comment_form_clean q with inr t => Some t | inl _ => None end.

(** [add_comment] (under [login_required]). *)
Definition add_comment (r : request) (u : nat) (post_id : nat) : view :=
  post ← get_object_or_404 posts (by_pk post_id);
  match comment_form_valid r with
  | None => mret (redirect (RPostDetail post_id))
  | Some text =>
      d ← get_state;
      let comment := Comment.mk (Some post.1) (Some u) text (req_now r) in
      put_state (set_comments (objects_create comment (comments d)).2 d);;
      mret (redirect (RPostDetail post_id))
  end.

(** ** Following *)

(** [Post.objects.filter(author__following__user=request.user)]: a join of
    posts with the follow rows of their author, so a post appears once
    per matching follow row. *)
Definition follow_join (d : db) (u : nat) : list post_row :=
  order_by (mjoin ((λ kp : post_row,
      replicate (objects_count (λ _ f, bool_decide (Follow.author f = Some (Post.author kp.2))
                                       && bool_decide (Follow.user f = u)) (follows d)) kp)
    <$> map_to_list (rows (posts d)))).

(** [follow_index] (under [login_required]). *)
Definition follow_index (r : request) (u : nat) : view :=
  d ← get_state;
  page_obj ← paginate r (follow_join d u);
  mret (Render "posts/follow.html" (CtxFollow page_obj true)).

Definition follow_row (u a : nat) : nat → Follow.t → bool :=
  λ _ f, bool_decide (Follow.user f = u) && bool_decide (Follow.author f = Some a).

(** [profile_follow] (under [login_required]). *)
Definition profile_follow (r : request) (u : nat) (username : string) : view :=
  post_author ← get_object_or_404 users (λ _ usr, bool_decide (User.username usr = username));
  d ← get_state;
  let follow := objects_exists (follow_row u post_author.1) (follows d) in
  (if bool_decide (u ≠ post_author.1) && negb follow
   then put_state (set_follows (objects_create (Follow.mk u (Some post_author.1)) (follows d)).2 d)
   else mret ());;
  mret (redirect (RProfile username)).

(** [profile_unfollow] (under [login_required]). *)
Definition profile_unfollow (r : request) (u : nat) (username : string) : view :=
  post_author ← get_object_or_404 users (λ _ usr, bool_decide (User.username usr = username));
  d ← get_state;
  (if objects_exists (follow_row u post_author.1) (follows d)
   then put_state (set_follows (objects_delete (follow_row u post_author.1) (follows d)) d)
   else mret ());;
  mret (redirect (RProfile username)).

(** ** The follow table: no duplicate edge, no self-follow *)

Definition follows_ok (t : table Follow.t) : Prop :=
  (∀ k f, rows t !! k = Some f → Follow.author f ≠ Some (Follow.user f)) ∧
  unique_by (λ f, (Follow.user f, Follow.author f)) t.

(** The views other than [profile_follow] and [profile_unfollow] change
    neither the accounts, the groups nor the follow table. *)
Definition same_accounts (d d' : db) : Prop :=
  users d' = users d ∧ groups d' = groups d.

Definition no_server_error (x : exn + response) : Prop :=
  match x with inl Http500 | inr ServerError => False | _ => True end.

(** ** Running the views *)

Lemma get_object_or_404_bind {V A} (tbl : db → table V) P (f : nat * V → exc_state db exn A) d :
  (get_object_or_404 tbl P ≫= f) d =
    match objects_get_by P (tbl d) with
    | Found k v => f (k, v) d
    | DoesNotExist => (d, inl Http404)
    | MultipleObjectsReturned => (d, inl Http500)
    end.
Proof. unfold get_object_or_404. exc_simpl. by destruct (objects_get_by P (tbl d)). Qed.

(** By primary key: the row, or [Http404]. *)
Lemma get_object_or_404_pk {V A} (tbl : db → table V) k (f : nat * V → exc_state db exn A) d :
  (get_object_or_404 tbl (by_pk k) ≫= f) d =
    match rows (tbl d) !! k with
    | Some v => f (k, v) d
    | None => (d, inl Http404)
    end.
Proof.
  rewrite get_object_or_404_bind. unfold by_pk. rewrite objects_get_by_pk.
  by destruct (rows (tbl d) !! k).
Qed.

Lemma paginate_bind {A} r l (f : page post_row → exc_state db exn A) d :
  (paginate r l ≫= f) d =
    let p := Paginator l POST_COUNT 0 true in
    let n := clamp_page p (page_arg (req_GET r)) in
    f (Page (page_rows p n) n p) d.
Proof. unfold paginate. by rewrite show_post_count_in_page_spec. Qed.

(** A non-author who edits a post is sent to the post's page, and the
    database is unchanged. *)
Lemma post_edit_not_author r u post_id p d :
  rows (posts d) !! post_id = Some p → Post.author p ≠ u →
  post_edit r u post_id d = (d, inr (redirect (RPostDetail post_id))).
Proof.
  intros Hp Hu. unfold post_edit. rewrite get_object_or_404_pk, Hp. cbn.
  by rewrite bool_decide_eq_true_2.
Qed.

(** Every view returns well-typed responses. *)
Lemma index_typed r : exc_post response_typed (index r).
Proof. unfold index. by exc_post_solve done. Qed.

Lemma group_posts_typed r slug : exc_post response_typed (group_posts r slug).
Proof. unfold group_posts. by exc_post_solve done. Qed.

Lemma profile_typed r username : exc_post response_typed (profile r username).
Proof. unfold profile. by exc_post_solve done. Qed.

Lemma post_detail_typed r post_id : exc_post response_typed (post_detail r post_id).
Proof. unfold post_detail. by exc_post_solve done. Qed.

Lemma post_create_typed r u : exc_post response_typed (post_create r u).
Proof. unfold post_create, create_page_with_form. by exc_post_solve done. Qed.

Lemma post_edit_typed r u post_id : exc_post response_typed (post_edit r u post_id).
Proof. unfold post_edit. by exc_post_solve done. Qed.

Lemma add_comment_typed r u post_id : exc_post response_typed (add_comment r u post_id).
Proof. unfold add_comment. by exc_post_solve done. Qed.

Lemma follow_index_typed r u : exc_post response_typed (follow_index r u).
Proof. unfold follow_index. by exc_post_solve done. Qed.

Lemma profile_follow_typed r u username : exc_post response_typed (profile_follow r u username).
Proof. unfold profile_follow. by exc_post_solve done. Qed.

Lemma profile_unfollow_typed r u username : exc_post response_typed (profile_unfollow r u username).
Proof. unfold profile_unfollow. by exc_post_solve done. Qed.

(** The read-only views never redirect, ... *)
Lemma index_no_redirect r : exc_post (λ resp, is_redirect resp = false) (index r).
Proof. unfold index. by exc_post_solve done. Qed.

Lemma profile_no_redirect r username : exc_post (λ resp, is_redirect resp = false) (profile r username).
Proof. unfold profile. by exc_post_solve done. Qed.

Lemma post_detail_no_redirect r post_id : exc_post (λ resp, is_redirect resp = false) (post_detail r post_id).
Proof. unfold post_detail. by exc_post_solve done. Qed.

Lemma group_posts_no_redirect r slug : exc_post (λ resp, is_redirect resp = false) (group_posts r slug).
Proof. unfold group_posts. by exc_post_solve done. Qed.

Lemma follow_index_no_redirect r u : exc_post (λ resp, is_redirect resp = false) (follow_index r u).
Proof. unfold follow_index. by exc_post_solve done. Qed.

Lemma no_redirect_final (v : view) : exc_post (λ resp, is_redirect resp = false) v → exc_post redirects_final v.
Proof. intros Hv. apply (exc_post_weaken _ _ _ Hv). by intros []. Qed.

(** ... and the others redirect to final targets, the profile of the
    user who posts apart ([post_create], in [Site.v]). *)
Ltac final_target_solve :=
  unfold redirects_final, redirect, final_target; eauto 6.

Lemma post_edit_final r u post_id : exc_post redirects_final (post_edit r u post_id).
Proof. unfold post_edit. by exc_post_solve final_target_solve. Qed.

Lemma add_comment_final r u post_id : exc_post redirects_final (add_comment r u post_id).
Proof. unfold add_comment. by exc_post_solve final_target_solve. Qed.

Lemma profile_follow_final r u username :
  str_ok username = true → exc_post redirects_final (profile_follow r u username).
Proof. intros Hs. unfold profile_follow. by exc_post_solve final_target_solve. Qed.

Lemma profile_unfollow_final r u username :
  str_ok username = true → exc_post redirects_final (profile_unfollow r u username).
Proof. intros Hs. unfold profile_unfollow. by exc_post_solve final_target_solve. Qed.

Arguments show_post_count_in_page : simpl never.
Arguments objects_get_by : simpl never.
Arguments queryset : simpl never.
Arguments objects_exists : simpl never.
Arguments objects_count : simpl never.
Arguments post_form_clean : simpl never.
Arguments comment_form_clean : simpl never.
Arguments comment_form_valid : simpl never.
Arguments post_form_valid : simpl never.
Arguments objects_create : simpl never.
Arguments objects_delete : simpl never.
Arguments instance_save : simpl never.

Lemma paginate_eq r l d :
  paginate r l d =
    let p := Paginator l POST_COUNT 0 true in
    let n := clamp_page p (page_arg (req_GET r)) in
    (d, inr (Page (page_rows p n) n p)).
Proof. unfold paginate. by rewrite show_post_count_in_page_spec. Qed.

(** ** The views that only read *)

Lemma index_state r d : (index r d).1 = d.
Proof. unfold index. exc_simpl. by rewrite paginate_eq. Qed.

Lemma group_posts_state r slug d : (group_posts r slug d).1 = d.
Proof.
  unfold group_posts, get_object_or_404. exc_simpl.
  destruct (objects_get_by _ _); simpl; [|done..]. by rewrite paginate_eq.
Qed.

Lemma profile_state r username d : (profile r username d).1 = d.
Proof.
  unfold profile, get_object_or_404. exc_simpl.
  destruct (objects_get_by _ _); simpl; [|done..]. by rewrite paginate_eq.
Qed.

Lemma post_detail_state r post_id d : (post_detail r post_id d).1 = d.
Proof.
  unfold post_detail, get_object_or_404. exc_simpl.
  by destruct (objects_get_by _ _).
Qed.

(** The detail page of an existing post lists the comments of the post in
    the queryset order. *)
Lemma post_detail_render r post_id p d :
  rows (posts d) !! post_id = Some p →
  post_detail r post_id d =
    (d, inr (Render "posts/post_detail.html"
      (CtxPostDetail (post_id, p)
         (objects_count (λ _ q, bool_decide (Post.author q = Post.author p)) (posts d))
         (queryset (λ _ c, bool_decide (Comment.post c = Some post_id)) (comments d))
         (comment_form_state (or_none (request_POST r)))))).
Proof. intros Hp. unfold post_detail. rewrite get_object_or_404_pk, Hp. by exc_simpl. Qed.

Lemma follow_index_state r u d : (follow_index r u d).1 = d.
Proof. unfold follow_index. exc_simpl. by rewrite paginate_eq. Qed.

Lemma post_form_valid_group d r c :
  post_form_valid d r = Some c → fk_ok (groups d) (cleaned_group c).
Proof.
  unfold post_form_valid. destruct (form_is_bound r); [|discriminate].
  destruct (post_form_clean _ _ _) eqn:E; [discriminate|]. intros [= <-].
  by eapply post_form_clean_group.
Qed.

(** ** The views that write keep referential integrity *)

Section write_views.
Context (d : db) (Hwf : db_wf d) (r : request) (u : nat) (Hu : is_Some (rows (users d) !! u)).

Lemma post_create_wf : db_wf (post_create r u d).1.
Proof.
  unfold post_create, create_page_with_form. destruct (req_method r); exc_simpl; [done|].
  destruct (post_form_valid d r) as [c|] eqn:Hc; exc_simpl; [|done].
  apply set_posts_create_wf; [done..|]. by eapply post_form_valid_group.
Qed.

Lemma post_edit_wf post_id : db_wf (post_edit r u post_id d).1.
Proof.
  unfold post_edit, get_object_or_404, by_pk. exc_simpl.
  rewrite objects_get_by_pk. destruct (rows (posts d) !! post_id) as [p|] eqn:Hp; simpl; [|done].
  case_bool_decide as Ha; exc_simpl; [done|].
  destruct (post_form_valid d r) as [c|] eqn:Hc; exc_simpl; [|done].
  apply set_posts_save_wf; [done|by eexists| |].
  - simpl. apply (wf_post_fk _ Hwf post_id). done.
  - simpl. by eapply post_form_valid_group.
Qed.

Lemma add_comment_wf post_id : db_wf (add_comment r u post_id d).1.
Proof.
  unfold add_comment, get_object_or_404, by_pk. exc_simpl.
  rewrite objects_get_by_pk. destruct (rows (posts d) !! post_id) as [p|] eqn:Hp; simpl; [|done].
  destruct (comment_form_valid r); exc_simpl; [|done].
  apply set_comments_create_wf; [done|intros ? [= <-]; by eexists|intros ? [= <-]; done].
Qed.

Lemma profile_follow_wf username : db_wf (profile_follow r u username d).1.
Proof.
  unfold profile_follow, get_object_or_404. exc_simpl.
  destruct (objects_get_by _ _) as [a v| |] eqn:Ha; simpl; [|done..].
  apply objects_get_by_Found in Ha as [Ha _].
  destruct (_ && _)%bool; exc_simpl; [|done].
  apply set_follows_create_wf; [done|done|intros ? [= <-]; by eexists].
Qed.

Lemma profile_unfollow_wf username : db_wf (profile_unfollow r u username d).1.
Proof.
  unfold profile_unfollow, get_object_or_404. exc_simpl.
  destruct (objects_get_by _ _) as [a v| |]; simpl; [|done..].
  destruct (objects_exists _ _); exc_simpl; [|done].
  by apply set_follows_delete_wf.
Qed.

Lemma post_create_kept : history_kept d (post_create r u d).1.
Proof.
  unfold post_create, create_page_with_form. destruct (req_method r); exc_simpl; [apply history_kept_refl|].
  destruct (post_form_valid d r); exc_simpl; [apply history_kept_create_post, Hwf|apply history_kept_refl].
Qed.

Lemma post_edit_kept post_id : history_kept d (post_edit r u post_id d).1.
Proof.
  unfold post_edit, get_object_or_404, by_pk. exc_simpl.
  rewrite objects_get_by_pk. destruct (rows (posts d) !! post_id) as [p|] eqn:Hp; simpl; [|apply history_kept_refl].
  case_bool_decide; exc_simpl; [apply history_kept_refl|].
  destruct (post_form_valid d r); exc_simpl; [|apply history_kept_refl].
  by apply (history_kept_save_post _ _ p).
Qed.

Lemma add_comment_kept post_id : history_kept d (add_comment r u post_id d).1.
Proof.
  unfold add_comment, get_object_or_404, by_pk. exc_simpl.
  rewrite objects_get_by_pk. destruct (rows (posts d) !! post_id); simpl; [|apply history_kept_refl].
  destruct (comment_form_valid r); exc_simpl; [|apply history_kept_refl].
  apply history_kept_create_comment, Hwf.
Qed.

Lemma profile_follow_kept username : history_kept d (profile_follow r u username d).1.
Proof.
  apply history_kept_same; unfold profile_follow, get_object_or_404; exc_simpl;
    (destruct (objects_get_by _ _); simpl; [|done..]); by destruct (_ && _)%bool.
Qed.

Lemma profile_unfollow_kept username : history_kept d (profile_unfollow r u username d).1.
Proof.
  apply history_kept_same; unfold profile_unfollow, get_object_or_404; exc_simpl;
    (destruct (objects_get_by _ _); simpl; [|done..]); by destruct (objects_exists _ _).
Qed.
End write_views.


Lemma follows_ok_empty : follows_ok table_empty.
Proof.
  split; [|apply unique_by_empty].
  intros k f Hk. unfold table_empty in Hk; simpl in Hk. by rewrite lookup_empty in Hk.
Qed.

Lemma follows_ok_delete P t : follows_ok t → follows_ok (objects_delete P t).
Proof.
  intros [Hself Huniq]. split; [|by apply unique_by_delete].
  intros k f [Hk _]%objects_delete_Some. eauto.
Qed.

(** The row [profile_follow] creates, when its guard holds, keeps the
    table free of duplicates and self-follows. *)
Lemma follows_ok_create u a t :
  table_wf t → u ≠ a → objects_exists (follow_row u a) t = false →
  follows_ok t → follows_ok (objects_create (Follow.mk u (Some a)) t).2.
Proof.
  intros Hwf Hne Hnew [Hself Huniq]. split.
  - intros k f [[-> ->]|Hk]%(objects_create_Some _ _ _ _ Hwf); [simpl; congruence|eauto].
  - apply unique_by_create; [done| |done].
    rewrite <-Hnew. apply objects_exists_ext. intros k [fu fa]. unfold follow_row. simpl.
    repeat case_bool_decide; simplify_eq; done.
Qed.


Section tables.
Context (d : db) (r : request) (u : nat).

Lemma post_create_tables :
  same_accounts d (post_create r u d).1 ∧ follows (post_create r u d).1 = follows d.
Proof.
  unfold post_create, create_page_with_form. destruct (req_method r); exc_simpl; [done|].
  by destruct (post_form_valid d r); exc_simpl.
Qed.

Lemma post_edit_tables post_id :
  same_accounts d (post_edit r u post_id d).1 ∧ follows (post_edit r u post_id d).1 = follows d.
Proof.
  unfold post_edit, get_object_or_404. exc_simpl.
  destruct (objects_get_by _ _); simpl; [|done..].
  case_bool_decide; exc_simpl; [done|]. by destruct (post_form_valid d r); exc_simpl.
Qed.

Lemma add_comment_tables post_id :
  same_accounts d (add_comment r u post_id d).1 ∧ follows (add_comment r u post_id d).1 = follows d.
Proof.
  unfold add_comment, get_object_or_404. exc_simpl.
  destruct (objects_get_by _ _); simpl; [|done..].
  by destruct (comment_form_valid r); exc_simpl.
Qed.

Lemma profile_follow_tables username :
  same_accounts d (profile_follow r u username d).1 ∧
  (table_wf (follows d) → follows_ok (follows d) → follows_ok (follows (profile_follow r u username d).1)).
Proof.
  unfold profile_follow, get_object_or_404. exc_simpl.
  destruct (objects_get_by _ _) as [a v| |]; simpl; [|done..].
  destruct (bool_decide (u ≠ a) && negb _)%bool eqn:E; exc_simpl; [|done].
  apply andb_true_iff in E as [Hne Hnew]. bdecide. apply negb_true_iff in Hnew.
  split; [done|]. intros Hwf Hok. by apply follows_ok_create.
Qed.

Lemma profile_unfollow_tables username :
  same_accounts d (profile_unfollow r u username d).1 ∧
  (follows_ok (follows d) → follows_ok (follows (profile_unfollow r u username d).1)).
Proof.
  unfold profile_unfollow, get_object_or_404. exc_simpl.
  destruct (objects_get_by _ _) as [a v| |]; simpl; [|done..].
  destruct (objects_exists _ _); exc_simpl; [|done].
  split; [done|]. apply follows_ok_delete.
Qed.
End tables.

(** ** The writing views on their main branch *)

Lemma post_create_valid r u d c :
  req_method r = POST → post_form_valid d r = Some c →
  post_create r u d =
    (set_posts (objects_create (new_post r u c) (posts d)).2 d,
     inr (redirect (RProfile (user_str d (Some u))))).
Proof. intros Hm Hc. unfold post_create. rewrite Hm. exc_simpl. by rewrite Hc. Qed.

Lemma add_comment_valid r u post_id p d text :
  rows (posts d) !! post_id = Some p → comment_form_valid r = Some text →
  add_comment r u post_id d =
    (set_comments (objects_create (Comment.mk (Some post_id) (Some u) text (req_now r)) (comments d)).2 d,
     inr (redirect (RPostDetail post_id))).
Proof.
  intros Hp Ht. unfold add_comment. rewrite get_object_or_404_pk, Hp, Ht. by exc_simpl.
Qed.

(** [profile_follow] and [profile_unfollow] once the author is found. *)
Lemma profile_follow_found r u username a usr d :
  objects_get_by (λ _ x, bool_decide (User.username x = username)) (users d) = Found a usr →
  profile_follow r u username d =
    (if bool_decide (u ≠ a) && negb (objects_exists (follow_row u a) (follows d))
     then set_follows (objects_create (Follow.mk u (Some a)) (follows d)).2 d else d,
     inr (redirect (RProfile username))).
Proof.
  intros Ha. unfold profile_follow. rewrite get_object_or_404_bind, Ha. exc_simpl.
  by destruct (_ && _)%bool.
Qed.

Lemma profile_unfollow_found r u username a usr d :
  objects_get_by (λ _ x, bool_decide (User.username x = username)) (users d) = Found a usr →
  profile_unfollow r u username d =
    (if objects_exists (follow_row u a) (follows d)
     then set_follows (objects_delete (follow_row u a) (follows d)) d else d,
     inr (redirect (RProfile username))).
Proof.
  intros Ha. unfold profile_unfollow. rewrite get_object_or_404_bind, Ha. exc_simpl.
  by destruct (objects_exists _ _).
Qed.

(** Without duplicate edges, the join of [follow_index] is the queryset of
    the posts whose author the user follows. *)
Lemma follow_join_queryset d u :
  unique_by (λ f, (Follow.user f, Follow.author f)) (follows d) →
  follow_join d u =
    queryset (λ _ p, objects_exists (follow_row u (Post.author p)) (follows d)) (posts d).
Proof.
  intros Hu. unfold follow_join, queryset, objects_filter. f_equal.
  rewrite <-mjoin_replicate_filter. f_equal. apply list_fmap_ext. intros _ [k p] _. simpl.
  f_equal. rewrite objects_count_unique.
  - rewrite (objects_exists_ext _ (follow_row u (Post.author p))); [done|].
    intros k' f. unfold follow_row. apply andb_comm.
  - intros k1 f1 k2 f2 H1 P1 H2 P2. bdecide. apply (Hu k1 f1 k2 f2 H1 H2). congruence.
Qed.

(** [group_posts] for a slug that names a group: the page of the group's
    posts the [page] parameter selects. *)
Lemma group_posts_render r slug gk g d :
  objects_get_by (λ _ g, bool_decide (Group.slug g = slug)) (groups d) = Found gk g →
  group_posts r slug d =
    let p := Paginator (queryset (λ _ q, bool_decide (Post.group q = Some gk)) (posts d)) POST_COUNT 0 true in
    let n := clamp_page p (page_arg (req_GET r)) in
    (d, inr (Render "posts/group_list.html" (CtxGroupList (gk, g) (Page (page_rows p n) n p)))).
Proof.
  intros Hg. unfold group_posts. rewrite get_object_or_404_bind, Hg. exc_simpl.
  by rewrite paginate_eq.
Qed.

(** ** [GET] requests *)

(** On a [GET] request the forms are unbound, so never valid. *)
Lemma post_form_valid_GET d r : req_method r = GET → post_form_valid d r = None.
Proof. intros Hm. unfold post_form_valid, form_is_bound, request_POST, request_FILES. by rewrite Hm. Qed.

Lemma comment_form_valid_GET r : req_method r = GET → comment_form_valid r = None.
Proof. intros Hm. unfold comment_form_valid, request_POST. by rewrite Hm. Qed.

Section get_views.
Context (r : request) (u : nat) (d : db) (Hget : req_method r = GET).

Lemma post_create_GET : (post_create r u d).1 = d.
Proof. unfold post_create. by rewrite Hget. Qed.

Lemma post_edit_GET post_id : (post_edit r u post_id d).1 = d.
Proof.
  unfold post_edit, get_object_or_404. exc_simpl.
  destruct (objects_get_by _ _); simpl; [|done..].
  case_bool_decide; exc_simpl; [done|]. by rewrite post_form_valid_GET.
Qed.

Lemma add_comment_GET post_id : (add_comment r u post_id d).1 = d.
Proof.
  unfold add_comment, get_object_or_404. exc_simpl.
  destruct (objects_get_by _ _); simpl; [|done..]. by rewrite comment_form_valid_GET.
Qed.
End get_views.

(** ** No server error while usernames and slugs are unique

    [objects.get] raises [MultipleObjectsReturned], a server error, when
    several rows match.  The views look rows up by primary key, by
    username and by slug; with unique usernames and slugs, no view
    raises it, nothing else in the views raises [Http500], and no view
    answers with a server error itself. *)


Section no_server_error.
Context (d : db).
Hypothesis Husers : unique_by User.username (users d).
Hypothesis Hgroups : unique_by Group.slug (groups d).

Lemma get_by_pk_single {V} (t : table V) k : objects_get_by (by_pk k) t ≠ MultipleObjectsReturned.
Proof. unfold by_pk. rewrite objects_get_by_pk. by destruct (rows t !! k). Qed.

Lemma get_by_username_single username :
  objects_get_by (λ _ u, bool_decide (User.username u = username)) (users d) ≠ MultipleObjectsReturned.
Proof.
  apply objects_get_by_unique. intros k1 v1 k2 v2 H1 P1 H2 P2. bdecide.
  apply (Husers k1 v1 k2 v2 H1 H2). congruence.
Qed.

Lemma get_by_slug_single slug :
  objects_get_by (λ _ g, bool_decide (Group.slug g = slug)) (groups d) ≠ MultipleObjectsReturned.
Proof.
  apply objects_get_by_unique. intros k1 v1 k2 v2 H1 P1 H2 P2. bdecide.
  apply (Hgroups k1 v1 k2 v2 H1 H2). congruence.
Qed.

(** Look a row up as the view does, then run the rest of the view. *)
Ltac get_row single :=
  unfold get_object_or_404; exc_simpl;
  match goal with
  | |- context [objects_get_by ?P ?t] =>
      destruct (objects_get_by P t) eqn:E; simpl;
      [|exact I|by destruct (single E)]
  end.

Lemma index_no_500 r : no_server_error (index r d).2.
Proof. unfold index. exc_simpl. rewrite paginate_eq. exact I. Qed.

Lemma group_posts_no_500 r slug : no_server_error (group_posts r slug d).2.
Proof. unfold group_posts. get_row (get_by_slug_single slug). rewrite paginate_eq. exact I. Qed.

Lemma profile_no_500 r username : no_server_error (profile r username d).2.
Proof. unfold profile. get_row (get_by_username_single username). rewrite paginate_eq. exact I. Qed.

Lemma post_detail_no_500 r k : no_server_error (post_detail r k d).2.
Proof. unfold post_detail. get_row (get_by_pk_single (posts d) k). exact I. Qed.

Lemma post_create_no_500 r u : no_server_error (post_create r u d).2.
Proof.
  unfold post_create, create_page_with_form. destruct (req_method r); exc_simpl; [exact I|].
  destruct (post_form_valid d r); exc_simpl; exact I.
Qed.

Lemma post_edit_no_500 r u k : no_server_error (post_edit r u k d).2.
Proof.
  unfold post_edit. get_row (get_by_pk_single (posts d) k).
  case_bool_decide; exc_simpl; [exact I|].
  destruct (post_form_valid d r); exc_simpl; exact I.
Qed.

Lemma add_comment_no_500 r u k : no_server_error (add_comment r u k d).2.
Proof.
  unfold add_comment. get_row (get_by_pk_single (posts d) k).
  destruct (comment_form_valid r); exc_simpl; exact I.
Qed.

Lemma follow_index_no_500 r u : no_server_error (follow_index r u d).2.
Proof. unfold follow_index. exc_simpl. rewrite paginate_eq. exact I. Qed.

Lemma profile_follow_no_500 r u username : no_server_error (profile_follow r u username d).2.
Proof.
  unfold profile_follow. get_row (get_by_username_single username).
  destruct (_ && _)%bool; exc_simpl; exact I.
Qed.

Lemma profile_unfollow_no_500 r u username : no_server_error (profile_unfollow r u username d).2.
Proof.
  unfold profile_unfollow. get_row (get_by_username_single username).
  destruct (objects_exists _ _); exc_simpl; exact I.
Qed.
End no_server_error.

(** [post_edit] by the author with a valid form saves the edited post in
    place. *)
Lemma post_edit_valid r u k p d c :
  rows (posts d) !! k = Some p → Post.author p = u → post_form_valid d r = Some c →
  post_edit r u k d =
    (set_posts (instance_save k (edited_post p c) (posts d)) d, inr (redirect (RPostDetail k))).
Proof.
  intros Hp Ha Hc. unfold post_edit. rewrite get_object_or_404_pk, Hp.
  rewrite bool_decide_eq_false_2 by (simpl; tauto). exc_simpl. by rewrite Hc.
Qed.

(** A bound form that is not valid carries its field errors. *)
Lemma post_form_state_invalid d r :
  form_is_bound r = true → post_form_valid d r = None →
  ∃ errs, post_form_state d r = FormBound (request_POST r) errs ∧ errs ≠ [].
Proof.
  unfold post_form_state, post_form_valid. intros -> Hv.
  destruct (post_form_clean d _ _) as [errs|c] eqn:E; [|discriminate].
  exists errs. split; [done|]. by eapply post_form_clean_errors.
Qed.

(** [profile] of an existing account: the page of its posts and whether
    the visitor follows it. *)
Lemma profile_render r username a usr d :
  objects_get_by (λ _ x, bool_decide (User.username x = username)) (users d) = Found a usr →
  profile r username d =
    let p := Paginator (queryset (λ _ q, bool_decide (Post.author q = a)) (posts d)) POST_COUNT 0 true in
    let n := clamp_page p (page_arg (req_GET r)) in
    let is_following :=
      match req_user r with
      | None => false
      | Some u => bool_decide (a ≠ u) && is_follower d u a
      end in
    (d, inr (Render "posts/profile.html" (CtxProfile (Page (page_rows p n) n p) (a, usr) is_following))).
Proof.
  intros Ha. unfold profile. rewrite get_object_or_404_bind, Ha. exc_simpl.
  by rewrite paginate_eq.
Qed.

(** A follow row from [u] to [a] exists. *)
Lemma follow_row_exists u a (t : table Follow.t) :
  objects_exists (follow_row u a) t = true ↔ ∃ kf, rows t !! kf = Some (Follow.mk u (Some a)).
Proof.
  rewrite objects_exists_spec. split.
  - intros (kf & [fu fa] & Hf & Hr). unfold follow_row in Hr. bdecide. simpl in *. subst. eauto.
  - intros [kf Hf]. exists kf, (Follow.mk u (Some a)). split; [done|].
    unfold follow_row. simpl. by rewrite !bool_decide_eq_true_2.
Qed.

(** [profile]'s test is [profile_follow]'s. *)
Lemma is_follower_follow_row d u a : is_follower d u a = objects_exists (follow_row u a) (follows d).
Proof. apply objects_exists_ext. intros k f. unfold follow_row. apply andb_comm. Qed.

(** [index]: the page of all posts the [page] parameter selects. *)
Lemma index_render r d :
  index r d =
    let p := Paginator (queryset (λ _ _, true) (posts d)) POST_COUNT 0 true in
    let n := clamp_page p (page_arg (req_GET r)) in
    (d, inr (Render "posts/index.html" (CtxIndex (Page (page_rows p n) n p)))).
Proof. unfold index. exc_simpl. by rewrite paginate_eq. Qed.

(** ** Missing rows *)

Lemma by_pk_missing {V} (t : table V) k : rows t !! k = None → objects_exists (by_pk k) t = false.
Proof.
  intros Hk. destruct (objects_exists _ _) eqn:E; [|done].
  apply objects_exists_spec in E as (k' & v & Hk' & Hp). unfold by_pk in Hp. bdecide. congruence.
Qed.

(** A view that starts with [get_object_or_404] answers 404 and writes
    nothing when no row matches. *)
Lemma get_object_or_404_missing {V A} (tbl : db → table V) P (f : nat * V → exc_state db exn A) d :
  objects_exists P (tbl d) = false → (get_object_or_404 tbl P ≫= f) d = (d, inl Http404).
Proof. intros Hn. by rewrite get_object_or_404_bind, objects_get_by_none. Qed.

(** [add_comment] with an invalid form on an existing post. *)
Lemma add_comment_invalid r u k p d :
  rows (posts d) !! k = Some p → comment_form_valid r = None →
  add_comment r u k d = (d, inr (redirect (RPostDetail k))).
Proof. intros Hp Ht. unfold add_comment. rewrite get_object_or_404_pk, Hp, Ht. by exc_simpl. Qed.

(** [follow_index]: the page of the join the [page] parameter selects. *)
Lemma follow_index_render r u d :
  follow_index r u d =
    let p := Paginator (follow_join d u) POST_COUNT 0 true in
    let n := clamp_page p (page_arg (req_GET r)) in
    (d, inr (Render "posts/follow.html" (CtxFollow (Page (page_rows p n) n p) true))).
Proof. unfold follow_index. exc_simpl. by rewrite paginate_eq. Qed.

(** ** The pages only read the rows

    The views that only read answer the same on databases with the same
    rows. *)

#[export] Instance follow_join_proper : Proper ((≡) ==> (=) ==> (=)) follow_join.
Proof.
  intros d1 d2 (_&_&Hp&_&Hf) u ? <-. unfold follow_join.
  unfold equiv, table_equiv in Hp. rewrite Hp. do 2 f_equal. apply list_fmap_ext.
  intros _ kp _. by rewrite Hf.
Qed.

#[export] Instance is_follower_proper : Proper ((≡) ==> (=) ==> (=) ==> (=)) is_follower.
Proof. intros d1 d2 (_&_&_&_&Hf) u ? <- a ? <-. unfold is_follower. by rewrite Hf. Qed.

Lemma run_view_snd v d :
  (run_view v d).2 = match (v d).2 with
                     | inl Http404 => NotFound
                     | inl Http500 => ServerError
                     | inr resp => resp
                     end.
Proof. unfold run_view. by destruct (v d) as [d' [[]|]]. Qed.

Section read_views_equiv.
Context (d1 d2 : db) (Hd : d1 ≡ d2) (r : request).

Lemma index_equiv : (index r d1).2 = (index r d2).2.
Proof. destruct Hd as (_&_&Hp&_&_). rewrite !index_render. simpl. by rewrite Hp. Qed.

Lemma group_posts_equiv slug : (group_posts r slug d1).2 = (group_posts r slug d2).2.
Proof.
  pose proof Hd as (_&Hg&Hp&_&_). unfold group_posts. rewrite !get_object_or_404_bind, Hg.
  destruct (objects_get_by _ (groups d2)); [|done..]. exc_simpl. rewrite !paginate_eq. simpl. by rewrite Hp.
Qed.

Lemma profile_equiv username : (profile r username d1).2 = (profile r username d2).2.
Proof.
  pose proof Hd as (Hu&_&Hp&_&_). unfold profile. rewrite !get_object_or_404_bind, Hu.
  destruct (objects_get_by _ (users d2)); [|done..]. exc_simpl. rewrite !paginate_eq. simpl.
  destruct (req_user r); [|by rewrite Hp]. by rewrite Hp, Hd.
Qed.

Lemma post_detail_equiv k : (post_detail r k d1).2 = (post_detail r k d2).2.
Proof.
  pose proof Hd as (_&_&Hp&Hc&_). unfold post_detail. rewrite !get_object_or_404_bind, Hp.
  destruct (objects_get_by _ (posts d2)); [|done..]. exc_simpl. by rewrite Hp, Hc.
Qed.

Lemma follow_index_equiv u : (follow_index r u d1).2 = (follow_index r u d2).2.
Proof. rewrite !follow_index_render. simpl. by rewrite Hd. Qed.
End read_views_equiv.

(** ** What a valid post form guarantees *)

(** A post form is valid only when it was submitted, and then the
    text it saves is the submitted [text] with surrounding whitespace
    removed, not empty and without NUL, and its group is none or an
    existing group. *)
Theorem post_form_valid_spec d r c :
  post_form_valid d r = Some c →
  form_is_bound r = true ∧
  (∃ s, querydict_get "text" (request_POST r) = Some s ∧
        cleaned_text c = String.string_of_list_ascii (py_strip (String.list_ascii_of_string s))) ∧
  cleaned_text c ≠ "" ∧ has_nul (cleaned_text c) = false ∧
  fk_ok (groups d) (cleaned_group c).
Proof.
  unfold post_form_valid. destruct (form_is_bound r); [|discriminate].
  destruct (post_form_clean d _ _) as [|c'] eqn:E; [discriminate|]. intros [= <-].
  pose proof (post_form_clean_group _ _ _ _ E) as Hg.
  apply post_form_clean_inr in E as (Ht & _ & _). apply clean_text_spec in Ht as (Hs & Hne & Hnul).
  by split_and!.
Qed.

Lemma post_form_valid_spec_witness :
  let r := Request (Some 1) POST "/create/" "" [] [("text", "  Новый пост  "); ("group", "")] [] 5 in
  post_form_valid db_empty r = Some (PostCleaned "Новый пост" None KeepImage) ∧
  (form_is_bound r = true ∧
   (∃ s, querydict_get "text" (request_POST r) = Some s ∧
         cleaned_text (PostCleaned "Новый пост" None KeepImage) =
           String.string_of_list_ascii (py_strip (String.list_ascii_of_string s))) ∧
   cleaned_text (PostCleaned "Новый пост" None KeepImage) ≠ "" ∧
   has_nul (cleaned_text (PostCleaned "Новый пост" None KeepImage)) = false ∧
   fk_ok (groups db_empty) (cleaned_group (PostCleaned "Новый пост" None KeepImage))).
Proof.
  intros r. subst r. split; [vm_compute; reflexivity|].
  apply post_form_valid_spec. vm_compute. reflexivity.
Defined.
