(* ===== verification/Site.v ===== *)
(** * Site: routing, [login_required] and the life of the database

    [dispatch] is the URL configuration applied to a request: the route
    [resolve] selects, its view, and [@login_required] in front of the
    views that need an account ([post_create], [post_edit],
    [add_comment], [follow_index], [profile_follow],
    [profile_unfollow]); a path no pattern matches gets the 404 page.
    [handle] runs it on a database.

    [step] is everything that changes the database: a request (by an
    account that exists, as Django's authentication middleware ensures),
    a sign-up, a group created in the admin site, and the deletions of
    [Models.v].  [reachable] is its reflexive-transitive closure from the
    empty database; its invariants are proved by induction on it. *)

From stdpp Require Import base list strings gmap pretty.
From Stdlib Require Import ZArith Ascii.
From S2P Require Import Prelude PyBuiltins Orm Models Paginator Urls Forms Views.

Local Open Scope string_scope.

(** [@login_required]: the view, for an authenticated user; otherwise a
    redirect to the login page that comes back to this path. *)
Definition login_required (r : request) (v : nat → view) : view :=
  match req_user r with
  | Some u => v u
  | None => mret (Redirect (login_url (full_path r)))
  end.

Definition dispatch (r : request) : view :=
  match resolve (req_path r) with
  | Some RIndex => index r
  | Some (RGroupList slug) => group_posts r slug
  | Some (RProfile username) => profile r username
  | Some (RPostDetail post_id) => post_detail r post_id
  | Some RPostCreate => login_required r (post_create r)
  | Some (RPostEdit post_id) => login_required r (λ u, post_edit r u post_id)
  | Some (RAddComment post_id) => login_required r (λ u, add_comment r u post_id)
  | Some RFollowIndex => login_required r (follow_index r)
  | Some (RProfileFollow username) => login_required r (λ u, profile_follow r u username)
  | Some (RProfileUnfollow username) => login_required r (λ u, profile_unfollow r u username)
  | None => mret NotFound
  end.

Definition handle (d : db) (r : request) : db * response := run_view (dispatch r) d.

(** ** Operations outside the application *)

(** [User.objects.create_user(username=...)]: a new account. *)
Definition add_account (username : string) (d : db) : db :=
  DB (objects_create (User.mk username) (users d)).2 (groups d) (posts d) (comments d) (follows d).

(** Sign-up ([users] application): a new account with a username the
    validator accepts and no account has. *)
Definition signup (username : string) (d : db) : option db :=
  if negb (username_ok username) || username_taken d username then None
  else Some (add_account username d).

(** A group created in the admin site; [slug] is unique. *)
Definition create_group (g : Group.t) (d : db) : option db :=
  if objects_exists (λ _ g', bool_decide (Group.slug g' = Group.slug g)) (groups d) then None
  else Some (DB (users d) (objects_create g (groups d)).2 (posts d) (comments d) (follows d)).

(** Every username passes the username validator. *)
Definition usernames_ok (d : db) : Prop :=
  ∀ k u, rows (users d) !! k = Some u → username_ok (User.username u) = true.

(** The authenticated user of a request is an account of the database. *)
Definition request_ok (d : db) (r : request) : Prop :=
  ∀ u, req_user r = Some u → is_Some (rows (users d) !! u).

Inductive step : db → db → Prop :=
  | step_request d r : request_ok d r → step d (handle d r).1
  | step_signup d name d' : signup name d = Some d' → step d d'
  | step_create_group d g d' : create_group g d = Some d' → step d d'
  | step_delete_post d k : step d (delete_post k d)
  | step_delete_group d g : step d (delete_group g d)
  | step_delete_user d u : step d (delete_user u d).

Inductive reachable : db → Prop :=
  | reachable_empty : reachable db_empty
  | reachable_step d d' : reachable d → step d d' → reachable d'.


(** The routes whose views are decorated with [@login_required]. *)
Definition login_route (rt : route) : bool :=
  match rt with
  | RPostCreate | RPostEdit _ | RAddComment _ | RFollowIndex
  | RProfileFollow _ | RProfileUnfollow _ => true
  | _ => false
  end.

(** The routes of the views that only read. *)
Definition read_route (rt : route) : bool :=
  match rt with
  | RIndex | RGroupList _ | RProfile _ | RPostDetail _ | RFollowIndex => true
  | _ => false
  end.

(** The row a route names does not exist: no group with the slug, no
    account with the username, no post with the key. *)
Definition target_missing (d : db) (rt : route) : bool :=
  match rt with
  | RGroupList s => negb (objects_exists (λ _ g, bool_decide (Group.slug g = s)) (groups d))
  | RProfile u | RProfileFollow u | RProfileUnfollow u =>
      negb (objects_exists (λ _ x, bool_decide (User.username x = u)) (users d))
  | RPostDetail k | RPostEdit k | RAddComment k => bool_decide (rows (posts d) !! k = None)
  | _ => false
  end.

(** The fixture of the URL tests: the accounts "auth" and "NotAuthor",
    the group "test-slug" and one post of "auth" in that group. *)
Definition fixture_db : db :=
  DB (Table {[1 := User.mk "auth"; 2 := User.mk "NotAuthor"]} 3)
     (Table {[1 := Group.mk "Тестовая группа" "test-slug" "Тестовое описание"]} 2)
     (Table {[1 := Post.mk "Тестовый пост" 1 1 (Some 1) ""]} 2)
     table_empty table_empty.

Definition fixture_request (user : option nat) (m : http_method) (path : string)
    (data : querydict) : request :=
  Request user m path "" [] data [] 5.


(** The fixture of the paginator tests: thirteen posts
    ["Тестовый пост 0"], ..., ["Тестовый пост 12"] of "auth" in
    "test-slug", created in that order. *)
Definition fixture_13_db : db :=
  DB (Table {[1 := User.mk "auth"]} 2) (groups fixture_db)
     (Table (list_to_map ((λ i, (S i, Post.mk ("Тестовый пост " +:+ pretty i) (S i) 1 (Some 1) ""))
                            <$> seq 0 13)) 14)
     table_empty table_empty.

(** An anonymous [GET] of [path] with the query string [?page=n]. *)
Definition page_request (path n : string) : request :=
  Request None GET path ("page=" +:+ n) [("page", n)] [] [] 5.

(** ** A reachable database of the tests: two accounts, a post, a follow *)

Definition scenario_d1 : db := default db_empty (signup "auth" db_empty).
Definition scenario_d2 : db := default scenario_d1 (signup "NotAuthor" scenario_d1).
Definition scenario_d3 : db :=
  (handle scenario_d2 (fixture_request (Some 1) POST "/create/" [("text", "Тестовый пост")])).1.
Definition scenario_db : db :=
  (handle scenario_d3 (fixture_request (Some 2) POST "/profile/auth/follow/" [])).1.

(** Referential integrity, a follow table without duplicates or
    self-follows, unique usernames and unique group slugs. *)
Record site_inv (d : db) : Prop := {
  inv_wf : db_wf d;
  inv_follows : follows_ok (follows d);
  inv_usernames : unique_by User.username (users d);
  inv_slugs : unique_by Group.slug (groups d);
  inv_usernames_ok : usernames_ok d
}.

(** The part of [site_inv] that is about the accounts and the groups:
    what every interleaving of requests keeps ([Concurrency.v]). *)
Record accounts_inv (d : db) : Prop := {
  ainv_wf : db_wf d;
  ainv_usernames : unique_by User.username (users d);
  ainv_slugs : unique_by Group.slug (groups d);
  ainv_usernames_ok : usernames_ok d
}.

(** ** Referential integrity of every reachable database *)

Lemma login_required_anonymous r v d :
  req_user r = None → login_required r v d = (d, inr (Redirect (login_url (full_path r)))).
Proof. unfold login_required. by intros ->. Qed.

(** Every response [dispatch] returns is well typed. *)
Lemma dispatch_typed r : exc_post response_typed (dispatch r).
Proof.
  unfold dispatch, login_required.
  repeat case_match; try (apply exc_post_ret; done);
    auto using index_typed, group_posts_typed, profile_typed, post_detail_typed, post_create_typed,
      post_edit_typed, add_comment_typed, follow_index_typed, profile_follow_typed, profile_unfollow_typed.
Qed.

(** A valid username has no slash: its profile path has one segment. *)
Lemma username_ok_str_ok s : username_ok s = true → str_ok s = true.
Proof.
  unfold username_ok, str_ok. intros [[Hne _]%andb_true_iff Hc]%andb_true_iff.
  rewrite Hne. simpl. apply forallb_forall. intros c Hin.
  apply forallb_forall with (x := c) in Hc; [|done].
  destruct (Ascii.eqb_spec c "/"%char) as [->|]; [discriminate|done].
Qed.

Lemma user_str_str_ok d u : usernames_ok d → str_ok (user_str d u) = true.
Proof.
  intros Hn. unfold user_str. destruct (u ≫= _) as [usr|] eqn:E; [|done].
  destruct u as [k|]; [|discriminate]. simpl in E. unfold objects_get in E.
  apply username_ok_str_ok. by apply (Hn k).
Qed.

(** [post_create] redirects to the profile of a username with no slash. *)
Lemma post_create_final r u d :
  usernames_ok d → match (post_create r u d).2 with inr resp => redirects_final resp | inl _ => True end.
Proof.
  intros Hn. unfold post_create, create_page_with_form.
  destruct (req_method r); exc_simpl; try done. destruct (post_form_valid d r); simpl; [|done].
  unfold redirect, final_target. right; right; right. eexists; split; [done|by apply user_str_str_ok].
Qed.

(** Every redirect of [handle] on a database with valid usernames goes
    to a final target. *)
Lemma handle_final d r : usernames_ok d → redirects_final (handle d r).2.
Proof.
  intros Hn. unfold handle, run_view.
  enough (match (dispatch r d).2 with inr resp => redirects_final resp | inl _ => True end) as H
    by (destruct (dispatch r d) as [? [[]|]]; done).
  unfold dispatch, login_required.
  destruct (resolve (req_path r)) as [[]|] eqn:Hres; try destruct (req_user r);
    try (apply resolve_route_ok in Hres; simpl in Hres);
    first
      [ by apply post_create_final
      | apply post_edit_final | apply add_comment_final
      | by apply profile_follow_final | by apply profile_unfollow_final
      | apply no_redirect_final;
        first [apply index_no_redirect | apply group_posts_no_redirect | apply profile_no_redirect
              | apply post_detail_no_redirect | apply follow_index_no_redirect]
      | simpl; unfold final_target; by eauto ].
Qed.

(** A property of the state that every view keeps, kept by [dispatch]. *)
Lemma dispatch_keeps (P : db → Prop) d r :
  P d →
  (∀ u, req_user r = Some u →
     P (post_create r u d).1 ∧ (∀ k, P (post_edit r u k d).1) ∧ (∀ k, P (add_comment r u k d).1) ∧
     (∀ s, P (profile_follow r u s d).1) ∧ (∀ s, P (profile_unfollow r u s d).1)) →
  P (handle d r).1.
Proof.
  intros Hd Hv. unfold handle, run_view.
  assert (P (dispatch r d).1) as Hdisp.
  { unfold dispatch.
    destruct (resolve (req_path r)) as [[]|]; simpl;
      rewrite ?index_state, ?group_posts_state, ?profile_state, ?post_detail_state; try done;
      unfold login_required; destruct (req_user r) as [u|] eqn:Eu; simpl; try done;
      try rewrite follow_index_state; try done;
      destruct (Hv u eq_refl) as (? & ? & ? & ? & ?); auto. }
  by destruct (dispatch r d) as [d' [[]|]].
Qed.

Lemma handle_wf d r : db_wf d → request_ok d r → db_wf (handle d r).1.
Proof.
  intros Hwf Hr. apply dispatch_keeps; [done|]. intros u Hu%Hr.
  split_and!; intros;
    eauto using post_create_wf, post_edit_wf, add_comment_wf, profile_follow_wf, profile_unfollow_wf.
Qed.

Lemma signup_Some name d d' :
  signup name d = Some d' →
  username_ok name = true ∧ username_taken d name = false ∧ d' = add_account name d.
Proof.
  unfold signup. destruct (username_ok name), (username_taken d name); simpl; try discriminate.
  by intros [= <-].
Qed.

Lemma signup_wf name d d' : db_wf d → signup name d = Some d' → db_wf d'.
Proof. intros Hwf (_ & _ & ->)%signup_Some. by apply users_create_wf. Qed.

Lemma create_group_wf g d d' : db_wf d → create_group g d = Some d' → db_wf d'.
Proof.
  unfold create_group. intros Hwf. destruct (objects_exists _ _); [discriminate|].
  intros [= <-]. by apply groups_create_wf.
Qed.

(** ** The invariant of the site *)

Lemma site_inv_empty : site_inv db_empty.
Proof.
  split; [apply db_wf_empty|apply follows_ok_empty|apply unique_by_empty|apply unique_by_empty|done].
Qed.

Lemma site_inv_accounts d : site_inv d ↔ accounts_inv d ∧ follows_ok (follows d).
Proof. split; [intros [Hw Hf Hu Hg Hn]; split; [by split|done]|intros [[Hw Hu Hg Hn] Hf]; by split]. Qed.

(** A change that keeps integrity, the accounts and the groups keeps
    [accounts_inv]. *)
Lemma accounts_inv_of d d' : accounts_inv d → db_wf d' → same_accounts d d' → accounts_inv d'.
Proof.
  intros [Hwf Hu Hg Hn] Hwf' [Eu Eg]. split; [done|by rewrite Eu|by rewrite Eg|unfold usernames_ok; by rewrite Eu].
Qed.

(** A request keeps [accounts_inv], and the follow invariant when the
    database had it. *)
Lemma handle_accounts d r :
  accounts_inv d → request_ok d r →
  accounts_inv (handle d r).1 ∧ (follows_ok (follows d) → follows_ok (follows (handle d r).1)).
Proof.
  intros Ha Hr. pose proof (ainv_wf d Ha) as Hwf. pose proof (wf_follows d Hwf) as Hft.
  assert (same_accounts d (handle d r).1 ∧ (follows_ok (follows d) → follows_ok (follows (handle d r).1)))
    as [Hs Hf].
  { apply (dispatch_keeps (λ d', same_accounts d d' ∧ (follows_ok (follows d) → follows_ok (follows d'))));
      [done|]. intros u _. refine (conj _ (conj _ (conj _ (conj _ _)))); intros; cbv beta.
    - destruct (post_create_tables d r u) as [Hs ->]. auto.
    - destruct (post_edit_tables d r u k) as [Hs ->]. auto.
    - destruct (add_comment_tables d r u k) as [Hs ->]. auto.
    - destruct (profile_follow_tables d r u s) as [Hs Hfo]. auto.
    - destruct (profile_unfollow_tables d r u s) as [Hs Hfo]. auto. }
  split; [|done]. apply accounts_inv_of with d; [done|by apply handle_wf|done].
Qed.

(** Every step keeps [accounts_inv], and the follow invariant when the
    database had it. *)
Lemma step_accounts d d' :
  accounts_inv d → step d d' → accounts_inv d' ∧ (follows_ok (follows d) → follows_ok (follows d')).
Proof.
  intros Ha Hs. destruct Hs as [d r Hr|d name d' E|d g d' E|d k|d g|d u]; [by apply handle_accounts|..];
    destruct Ha as [Hwf Hu Hg Hn].
  - pose proof (signup_wf _ _ _ Hwf E) as Hwf'. apply signup_Some in E as (Hok & En & ->).
    split; [split|done]; simpl; try done.
    + apply unique_by_create; [apply Hwf|exact En|done].
    + intros k u [[-> ->]|Hk]%(objects_create_Some _ _ _ _ (wf_users _ Hwf)); [exact Hok|by eapply Hn].
  - pose proof (create_group_wf _ _ _ Hwf E) as Hwf'. unfold create_group in E.
    destruct (objects_exists _ _) eqn:En; [discriminate|]. injection E as <-.
    split; [split|done]; simpl; try done. apply unique_by_create; [apply Hwf|exact En|done].
  - split; [split; [by apply delete_post_wf|done..]|done].
  - split; [split; [by apply delete_group_wf|done|by apply unique_by_delete|done]|done].
  - split; [split; [by apply delete_user_wf|by apply unique_by_delete|done|]|by apply follows_ok_delete].
    intros k v [Hk _]%objects_delete_Some. by eapply Hn.
Qed.

Lemma step_inv d d' : site_inv d → step d d' → site_inv d'.
Proof.
  rewrite !site_inv_accounts. intros [Ha Hf] Hs. destruct (step_accounts d d' Ha Hs) as [Ha' Hf']. auto.
Qed.

Lemma reachable_inv d : reachable d → site_inv d.
Proof. induction 1; eauto using site_inv_empty, step_inv. Qed.

Lemma reachable_scenario_d3 : reachable scenario_d3.
Proof.
  apply (reachable_step scenario_d2);
    [|apply step_request; intros u [= <-]; vm_compute; by eexists].
  apply (reachable_step scenario_d1); [|apply (step_signup _ "NotAuthor"); vm_compute; reflexivity].
  apply (reachable_step db_empty); [constructor|apply (step_signup _ "auth"); vm_compute; reflexivity].
Qed.

Lemma step_scenario : step scenario_d3 scenario_db.
Proof. apply step_request. intros u [= <-]. vm_compute. by eexists. Qed.

Lemma reachable_scenario : reachable scenario_db.
Proof. eapply reachable_step; [apply reachable_scenario_d3|apply step_scenario]. Qed.

(** Every step keeps the dates and authors of the posts and the comments
    as they are. *)
Lemma step_history_kept d d' : db_wf d → step d d' → history_kept d d'.
Proof.
  intros Hwf Hs. destruct Hs as [d r Hr|d name d' Hs|d g d' Hs|d k|d g|d u].
  - apply (dispatch_keeps (history_kept d)); [apply history_kept_refl|].
    intros u _. split_and!; intros; eauto using post_create_kept, post_edit_kept, add_comment_kept,
      profile_follow_kept, profile_unfollow_kept.
  - apply signup_Some in Hs as (_ & _ & ->). by apply history_kept_same.
  - unfold create_group in Hs. destruct (objects_exists _ _); [discriminate|].
    injection Hs as <-. by apply history_kept_same.
  - apply history_kept_delete_post.
  - apply history_kept_delete_group.
  - apply history_kept_delete_user.
Qed.

(** The pages of the views that only read are the same on equivalent
    databases. *)
Lemma handle_read_equiv d1 d2 r rt :
  d1 ≡ d2 → resolve (req_path r) = Some rt → read_route rt = true →
  (handle d1 r).2 = (handle d2 r).2.
Proof.
  intros Hd Hres Hrt. unfold handle. rewrite !run_view_snd. unfold dispatch. rewrite Hres.
  destruct rt; try discriminate;
    rewrite ?(index_equiv d1 d2 Hd), ?(group_posts_equiv d1 d2 Hd), ?(profile_equiv d1 d2 Hd),
      ?(post_detail_equiv d1 d2 Hd); try done.
  unfold login_required. destruct (req_user r); [|done]. by rewrite (follow_index_equiv d1 d2 Hd).
Qed.

(** C1: Every database reachable from the empty one by requests, sign-ups,
    admin-created groups and deletions satisfies referential integrity:
    every post has an existing author and a NULL or existing group, every
    comment a NULL or existing post and author, every follow row an
    existing follower and a NULL or existing author. *)
Theorem reachable_db_wf d : reachable d → db_wf d.
Proof. intros Hd. apply (reachable_inv d Hd). Qed.

Lemma reachable_db_wf_witness : reachable scenario_db ∧ db_wf scenario_db.
Proof. split; [apply reachable_scenario|]. apply (reachable_db_wf scenario_db). apply reachable_scenario. Defined.

(** C2: In every reachable database the follow table has no self-follow
    and no two rows for the same follower and author: [profile_follow]'s
    guard is the only way rows are added, and rows are only removed
    otherwise. *)
Theorem reachable_follows_ok d :
  reachable d →
  (∀ k f, rows (follows d) !! k = Some f → Follow.author f ≠ Some (Follow.user f)) ∧
  (∀ k1 f1 k2 f2, rows (follows d) !! k1 = Some f1 → rows (follows d) !! k2 = Some f2 →
     Follow.user f1 = Follow.user f2 → Follow.author f1 = Follow.author f2 → k1 = k2).
Proof.
  intros Hd. destruct (inv_follows _ (reachable_inv d Hd)) as [Hself Huniq].
  split; [done|]. intros k1 f1 k2 f2 H1 H2 Hu Ha. apply (Huniq k1 f1 k2 f2); [done|done|].
  by rewrite Hu, Ha.
Qed.

Lemma reachable_follows_ok_witness :
  reachable scenario_db ∧
  ((∀ k f, rows (follows scenario_db) !! k = Some f → Follow.author f ≠ Some (Follow.user f)) ∧
   (∀ k1 f1 k2 f2, rows (follows scenario_db) !! k1 = Some f1 → rows (follows scenario_db) !! k2 = Some f2 →
     Follow.user f1 = Follow.user f2 → Follow.author f1 = Follow.author f2 → k1 = k2)).
Proof.
  split; [apply reachable_scenario|]. apply (reachable_follows_ok scenario_db). apply reachable_scenario.
Defined.


(** C8: In every reachable database the feed of [follow_index] is the
    queryset of the posts whose author the user follows, newest first and
    each post once: a post is in it exactly when the user has a follow row
    for its author. *)
Theorem reachable_follow_feed d u :
  reachable d →
  follow_join d u =
    queryset (λ _ p, objects_exists (follow_row u (Post.author p)) (follows d)) (posts d) ∧
  ∀ k p, (k, p) ∈ follow_join d u ↔
    rows (posts d) !! k = Some p ∧ ∃ kf, rows (follows d) !! kf = Some (Follow.mk u (Some (Post.author p))).
Proof.
  intros Hd. pose proof (follow_join_queryset d u (proj2 (inv_follows _ (reachable_inv d Hd)))) as Hj.
  split; [done|]. intros k p. by rewrite Hj, elem_of_queryset, follow_row_exists.
Qed.

Lemma reachable_follow_feed_witness :
  length (follow_join scenario_db 2) = 1 ∧
  (follow_join scenario_db 2 =
    queryset (λ _ p, objects_exists (follow_row 2 (Post.author p)) (follows scenario_db)) (posts scenario_db) ∧
  ∀ k p, (k, p) ∈ follow_join scenario_db 2 ↔
    rows (posts scenario_db) !! k = Some p ∧
    ∃ kf, rows (follows scenario_db) !! kf = Some (Follow.mk 2 (Some (Post.author p)))).
Proof.
  split; [vm_compute; reflexivity|].
  apply (reachable_follow_feed scenario_db 2). apply reachable_scenario.
Defined.

(** C17: No request on a reachable database gets a server error: the
    usernames and slugs the views look rows up by are unique there, so
    [objects.get] never finds several rows, and the paginator never
    raises. *)
Theorem reachable_no_server_error d r : reachable d → (handle d r).2 ≠ ServerError.
Proof.
  intros Hd. destruct (reachable_inv d Hd) as [_ _ Hu Hg].
  assert (no_server_error (dispatch r d).2) as Hok.
  { unfold dispatch. destruct (resolve (req_path r)) as [[]|];
      eauto using index_no_500, group_posts_no_500, profile_no_500, post_detail_no_500;
      try exact I; unfold login_required; destruct (req_user r); try exact I;
      eauto using post_create_no_500, post_edit_no_500, add_comment_no_500, follow_index_no_500,
        profile_follow_no_500, profile_unfollow_no_500. }
  unfold handle, run_view. by destruct (dispatch r d) as [d' [[]|[]]].
Qed.

Lemma reachable_no_server_error_witness :
  reachable scenario_db ∧
  (handle scenario_db (fixture_request (Some 2) GET "/profile/auth/" [])).2 ≠ ServerError.
Proof.
  split; [apply reachable_scenario|]. apply reachable_no_server_error. apply reachable_scenario.
Defined.

(** C28: From a reachable database, no step changes the past: a post that
    exists before and after keeps its publication date ([auto_now_add],
    set once) and its author, and a comment that exists before and after
    is unchanged. *)
Theorem reachable_step_history d d' :
  reachable d → step d d' →
  (∀ k p p', rows (posts d) !! k = Some p → rows (posts d') !! k = Some p' →
     Post.pub_date p' = Post.pub_date p ∧ Post.author p' = Post.author p) ∧
  (∀ k c c', rows (comments d) !! k = Some c → rows (comments d') !! k = Some c' → c' = c).
Proof.
  intros Hd Hs. apply (step_history_kept d d'); [apply (reachable_inv d Hd)|done].
Qed.

Lemma reachable_step_history_witness :
  reachable scenario_d3 ∧ step scenario_d3 scenario_db ∧
  ((∀ k p p', rows (posts scenario_d3) !! k = Some p → rows (posts scenario_db) !! k = Some p' →
     Post.pub_date p' = Post.pub_date p ∧ Post.author p' = Post.author p) ∧
   (∀ k c c', rows (comments scenario_d3) !! k = Some c → rows (comments scenario_db) !! k = Some c' →
     c' = c)).
Proof.
  split; [apply reachable_scenario_d3|split; [apply step_scenario|]].
  apply reachable_step_history; [apply reachable_scenario_d3|apply step_scenario].
Defined.

(** In every reachable database group slugs ([SlugField(unique=True)])
    and usernames are unique, and every username is one the username
    validator accepts: only the admin site and sign-up add groups and
    accounts, both refuse a value already taken, sign-up refuses an
    invalid username, and no view of [posts] writes either table. *)
Theorem reachable_unique_slugs_usernames d :
  reachable d →
  (∀ k1 g1 k2 g2, rows (groups d) !! k1 = Some g1 → rows (groups d) !! k2 = Some g2 →
     Group.slug g1 = Group.slug g2 → k1 = k2) ∧
  (∀ k1 u1 k2 u2, rows (users d) !! k1 = Some u1 → rows (users d) !! k2 = Some u2 →
     User.username u1 = User.username u2 → k1 = k2) ∧
  (∀ k u, rows (users d) !! k = Some u → username_ok (User.username u) = true).
Proof. intros Hd. destruct (reachable_inv d Hd) as [_ _ Hu Hg Hn]. split_and!; [apply Hg|apply Hu|apply Hn]. Qed.

Lemma reachable_unique_slugs_usernames_witness :
  reachable scenario_db ∧
  ((∀ k1 g1 k2 g2, rows (groups scenario_db) !! k1 = Some g1 → rows (groups scenario_db) !! k2 = Some g2 →
     Group.slug g1 = Group.slug g2 → k1 = k2) ∧
   (∀ k1 u1 k2 u2, rows (users scenario_db) !! k1 = Some u1 → rows (users scenario_db) !! k2 = Some u2 →
     User.username u1 = User.username u2 → k1 = k2) ∧
   (∀ k u, rows (users scenario_db) !! k = Some u → username_ok (User.username u) = true)).
Proof.
  split; [apply reachable_scenario|]. apply reachable_unique_slugs_usernames. apply reachable_scenario.
Defined.
