(* ===== verification/Project.v ===== *)
(** * Project: the whole site, [users] and [about] next to [posts]

    [yatube/urls.py] (not among the sources) includes the [users]
    application under [auth/], [posts] at the root and [about] under
    [about/], and names [core.views.page_not_found] as [handler404].
    [project_handle] runs a request through it: a page of [users] or
    [about] ([app_resolve] of [Urls.v]) goes to its view ([app_view]),
    anything else to [handle] of [Site.v], whose unmatched paths get
    the 404 page.  Of the [users] views, sign-up ([signup_view], a
    [CreateView] with [CreationForm]) writes the database; the others
    render their template.  What the model leaves out is [None]:
    logging in, changing or resetting a password by [POST] (sessions,
    password hashes and e-mail are the framework's), and a [POST] to a
    page that only answers [GET] (405). *)

From stdpp Require Import base list strings gmap.
From S2P Require Import Prelude PyBuiltins Orm Models Urls Forms Views Site.

Local Open Scope string_scope.

(** A page of [users] or [about] rendered with its form. *)
Definition render_page (p : app_page) (form : form_state) : view :=
  mret (Render (app_page_template p) (CtxAppPage p form)).

(** [users.views.SignUp]: [CreateView(form_class=CreationForm,
    success_url=reverse_lazy('posts:index'))]; a [POST] binds the form,
    a valid one saves the account and redirects, an invalid one
    re-renders the page with the errors. *)
Definition signup_view (r : request) : view :=
  match req_method r with
  | POST =>
      d ← get_state;
      match creation_form_clean d (request_POST r) with
      | inr username => put_state (add_account username d);; mret (redirect RIndex)
      | inl errs => render_page PSignup (FormBound (request_POST r) errs)
      end
  | GET => render_page PSignup FormUnbound
  end.

(** The view of each page on a request, [None] where the model stops. *)
Definition app_view (p : app_page) (r : request) : option view :=
  let page := render_page p FormUnbound in
  match p with
  | PSignup => Some (signup_view r)
  | PLogout => Some page
  | PPasswordChange | PPasswordChangeDone =>
      match req_method r, req_user r with
      | POST, Some _ => None
      | _, _ => Some (login_required r (λ _, page))
      end
  | PLogin | PPasswordReset | PPasswordResetDone | PPasswordResetComplete | PAboutAuthor | PAboutTech =>
      match req_method r with GET => Some page | POST => None end
  end.

(** [yatube/urls.py] applied to a request. *)
Definition project_handle (d : db) (r : request) : option (db * response) :=
  match app_resolve (req_path r) with
  | Some p => (λ v, run_view v d) <$> app_view p r
  | None => Some (handle d r)
  end.

Arguments creation_form_clean : simpl never.

(** A submitted sign-up form, run. *)
Lemma signup_view_post r d :
  req_method r = POST →
  signup_view r d =
    match creation_form_clean d (request_POST r) with
    | inr username => (add_account username d, inr (redirect RIndex))
    | inl errs => (d, inr (Render "users/signup.html" (CtxAppPage PSignup (FormBound (request_POST r) errs))))
    end.
Proof. intros Hm. unfold signup_view, render_page. rewrite Hm. exc_simpl. by destruct (creation_form_clean _ _). Qed.

(** A valid sign-up adds the account the [signup] step adds. *)
Lemma signup_of_form d data username :
  creation_form_clean d data = inr username → signup username d = Some (add_account username d).
Proof.
  intros (Hok & Ht)%creation_form_clean_inr. unfold signup. by rewrite Hok, Ht.
Qed.

(** A sign-up form posted to [/auth/signup/] either is valid, and
    then creates exactly one account, with the submitted username, by a
    step of the site (the [signup] of [Site.v]), and redirects to the
    main page; or is invalid, and then changes nothing and re-renders
    [users/signup.html] with the data and at least one field error. *)
Theorem project_signup d r :
  app_resolve (req_path r) = Some PSignup → req_method r = POST → table_wf (users d) →
  match creation_form_clean d (request_POST r) with
  | inr username =>
      project_handle d r = Some (add_account username d, Redirect "/") ∧ step d (add_account username d) ∧
      objects_count (λ _ _, true) (users (add_account username d)) = S (objects_count (λ _ _, true) (users d)) ∧
      username_taken (add_account username d) username = true
  | inl errs =>
      project_handle d r =
        Some (d, Render "users/signup.html" (CtxAppPage PSignup (FormBound (request_POST r) errs))) ∧
      errs ≠ []
  end.
Proof.
  intros Hp Hm Hwf. unfold project_handle. rewrite Hp. cbn [app_view fmap option_fmap option_map].
  unfold run_view. rewrite (signup_view_post r d Hm).
  destruct (creation_form_clean d (request_POST r)) as [errs|username] eqn:Hc.
  - split; [done|]. by eapply creation_form_clean_errors.
  - split_and!; [done|apply (step_signup _ username); by apply (signup_of_form d (request_POST r))| |].
    + unfold add_account. cbn [users]. rewrite objects_count_create by done. lia.
    + apply objects_exists_create. by apply bool_decide_eq_true_2.
Qed.

Lemma project_signup_witness :
  let r := Request None POST "/auth/signup/" "" []
             [("first_name", "Petr"); ("last_name", "Petrov"); ("username", "Petrusha");
              ("email", "petrusha@mail.ru"); ("password1", "q1w2e3r4t"); ("password2", "q1w2e3r4t")] [] 5 in
  creation_form_clean db_empty (request_POST r) = inr "Petrusha" ∧
  match creation_form_clean db_empty (request_POST r) with
  | inr username =>
      project_handle db_empty r = Some (add_account username db_empty, Redirect "/") ∧
      step db_empty (add_account username db_empty) ∧
      objects_count (λ _ _, true) (users (add_account username db_empty)) =
        S (objects_count (λ _ _, true) (users db_empty)) ∧
      username_taken (add_account username db_empty) username = true
  | inl errs =>
      project_handle db_empty r =
        Some (db_empty, Render "users/signup.html" (CtxAppPage PSignup (FormBound (request_POST r) errs))) ∧
      errs ≠ []
  end.
Proof.
  intros r. split; [vm_compute; reflexivity|].
  apply (project_signup db_empty r); [vm_compute; reflexivity|reflexivity|apply table_wf_empty].
Defined.

(** The views of [users] and [about] redirect only to final targets:
    sign-up to the main page, the password pages to the login page. *)
Lemma app_view_final p r v : app_view p r = Some v → exc_post redirects_final v.
Proof.
  destruct p; unfold app_view; destruct (req_method r), (req_user r); intros [= <-];
    unfold signup_view, render_page, login_required; by exc_post_solve final_target_solve.
Qed.

(** Every redirect of the site, from a database with valid usernames,
    goes to a final target. *)
Lemma project_handle_final d r d' resp :
  usernames_ok d → project_handle d r = Some (d', resp) → redirects_final resp.
Proof.
  intros Hn. unfold project_handle. destruct (app_resolve (req_path r)) as [p|].
  - destruct (app_view p r) as [v|] eqn:Hv; [|done]. intros [= Hrun].
    pose proof (app_view_final p r v Hv d) as Hf. unfold run_view in Hrun.
    destruct (v d) as [? [[]|]]; simplify_eq; done.
  - intros [= Hh]. pose proof (handle_final d r Hn) as Hf. by rewrite Hh in Hf.
Qed.
