(* ===== verification/Client.v ===== *)
(** * Client: Django's test client and the redirects it follows

    The tests drive the site through [django.test.Client].  [client_request]
    is one request of it: the address is split at ["?"], the path
    unquoted (percent escapes become bytes, as the WSGI environment has
    it) and the query string parsed into [request.GET] as [QueryDict]
    does; [POST] data is the form.  With [follow=True] the client runs
    [_handle_redirects]: while the response is a redirect it records the
    target in the redirect chain and [GET]s it, raising
    [RedirectCycleError] when a target repeats ("Redirect loop
    detected.") or the chain grows beyond twenty ("Too many
    redirects.").  [handle_redirects] is that loop; its fuel is only for
    Rocq, as the chain bound stops the loop after 21 requests
    ([handle_redirects_enough]).  On this site the loop stops after at
    most one redirect ([client_follow_terminates]). *)

From stdpp Require Import base list strings gmap.
From Stdlib Require Import Ascii.
From S2P Require Import Prelude PyBuiltins Orm Models Urls Forms Views Site Project.

Local Open Scope string_scope.

(** ** One request *)

(** [str.partition(sep)] on a list of bytes: before and after the first
    [sep] (all and nothing when there is none). *)
Fixpoint split_first (sep : ascii) (l : list ascii) : list ascii * list ascii :=
  match l with
  | [] => ([], [])
  | c :: l' => if Ascii.eqb c sep then ([], l') else let '(a, b) := split_first sep l' in (c :: a, b)
  end.

(** [parse_qsl(query, keep_blank_values=True)]: the fields between ["&"],
    empty ones skipped, each split at its first ["="] (a field without
    one has the empty value), names and values unquoted. *)
Definition parse_qsl (query : string) : querydict :=
  (λ f, let '(k, v) := split_first "=" f in
        (qs_unquote (String.string_of_list_ascii k), qs_unquote (String.string_of_list_ascii v)))
  <$> filter (λ f, f ≠ []) (split_on "&" (String.list_ascii_of_string query)).

(** [Client.get(address)] and [Client.post(address, data)] by the user of
    [force_login] ([None]: a client that did not log in); the uploaded
    files of [data] are [fs]. *)
Definition client_request (user : option nat) (m : http_method) (address : string) (data : querydict)
    (fs : files) : request :=
  let '(path, query) := split_first "?" (String.list_ascii_of_string address) in
  let query := String.string_of_list_ascii query in
  Request user m (String.string_of_list_ascii (unquote_list path)) query (parse_qsl query) data fs 5.

Definition client_get (user : option nat) (address : string) : request := client_request user GET address [] [].

(** ** Following redirects *)

Inductive redirect_cycle_error := RedirectLoop | TooManyRedirects.

(** [Client._handle_redirects], from the first response on: the
    database, the final response or the error, and the redirect chain. *)
Fixpoint handle_redirects (fuel : nat) (user : option nat) (d : db) (resp : response) (chain : list string)
    : option (db * (redirect_cycle_error + response) * list string) :=
  match resp with
  | Redirect url =>
      match fuel with
      | O => None
      | S fuel' =>
          let chain' := (chain ++ [url])%list in
          match project_handle d (client_get user url) with
          | None => None
          | Some (d', resp') =>
              if bool_decide (url ∈ chain) then Some (d', inl RedirectLoop, chain')
              else if bool_decide (20 < length chain')%nat then Some (d', inl TooManyRedirects, chain')
              else handle_redirects fuel' user d' resp' chain'
          end
      end
  | _ => Some (d, inr resp, chain)
  end.

(** [client.get(address, follow=True)] and [client.post(address, data,
    follow=True)]; [None] when a request leaves the model. *)
Definition client_follow (user : option nat) (m : http_method) (address : string) (data : querydict)
    (fs : files) (d : db) : option (db * (redirect_cycle_error + response) * list string) :=
  project_handle d (client_request user m address data fs) ≫= λ '(d', resp), handle_redirects 21 user d' resp [].

(** ** The loop's own bound *)

(** Fuel beyond what the chain bound allows changes nothing: from an
    empty chain, 21 iterations are all the loop can make. *)
Lemma handle_redirects_enough fuel fuel' user d resp chain :
  (length chain ≤ 20 → 21 ≤ length chain + fuel → fuel ≤ fuel' →
   handle_redirects fuel user d resp chain = handle_redirects fuel' user d resp chain)%nat.
Proof.
  induction fuel as [|fuel IH] in fuel', d, resp, chain |- *; intros H1 H2 H3; [lia|].
  destruct fuel' as [|fuel']; [lia|]. destruct resp as [| url | |]; try done. cbn [handle_redirects].
  destruct (project_handle d (client_get user url)) as [[d' resp']|]; [|done].
  case_bool_decide; [done|]. case_bool_decide as Hlen; [done|].
  apply IH; rewrite ?length_app in *; simpl in *; lia.
Qed.

(** A response that is not a redirect ends the loop at once. *)
Lemma handle_redirects_final fuel user d resp chain :
  is_redirect resp = false → handle_redirects fuel user d resp chain = Some (d, inr resp, chain).
Proof. by destruct fuel, resp. Qed.

(** One iteration on a redirect. *)
Lemma handle_redirects_step fuel user d url chain :
  handle_redirects (S fuel) user d (Redirect url) chain =
    match project_handle d (client_get user url) with
    | None => None
    | Some (d', resp') =>
        if bool_decide (url ∈ chain) then Some (d', inl RedirectLoop, (chain ++ [url])%list)
        else if bool_decide (20 < length (chain ++ [url]))%nat
        then Some (d', inl TooManyRedirects, (chain ++ [url])%list)
        else handle_redirects fuel user d' resp' (chain ++ [url])%list
    end.
Proof. done. Qed.

(** ** The redirects of this site end at once *)

Lemma split_first_none sep l : Forall (λ c, Ascii.eqb c sep = false) l → split_first sep l = (l, []).
Proof. induction 1 as [|c l Hc _ IH]; [done|]. simpl. by rewrite Hc, IH. Qed.

(** The client reads a reversed URL back as the route's path, with no
    query string. *)
Lemma client_get_reverse user rt : client_get user (reverse rt) = Request user GET (route_path rt) "" [] [] [] 5.
Proof.
  unfold client_get, client_request, reverse, quote. rewrite String.list_ascii_of_string_of_list_ascii.
  rewrite split_first_none by (apply quote_list_avoids; [compute_done|reflexivity|discriminate]).
  rewrite unquote_quote_list by compute_done. by rewrite String.string_of_list_ascii_of_string.
Qed.

(** The login URL, whatever its [next], is a [GET] of [/auth/login/]. *)
Lemma client_get_login user next :
  ∃ q g, client_get user (login_url next) = Request user GET "/auth/login/" q g [] [] 5.
Proof. eexists _, _. unfold client_get, client_request, login_url. by rewrite list_ascii_of_string_app. Qed.

Lemma run_view_no_redirect v d :
  exc_post (λ resp, is_redirect resp = false) v → is_redirect (run_view v d).2 = false.
Proof. intros Hv. specialize (Hv d). unfold run_view. by destruct (v d) as [? [[]|]]. Qed.

(** A [GET] of a [posts] route goes to [handle], which resolves it. *)
Lemma project_get_reverse d user rt :
  route_ok rt = true →
  ∃ r, project_handle d (client_get user (reverse rt)) = Some (handle d r) ∧ resolve (req_path r) = Some rt.
Proof.
  intros Hok. rewrite client_get_reverse. unfold project_handle. cbn [req_path].
  rewrite app_resolve_route_path by done. eexists; split; [reflexivity|]. by apply resolve_route_path.
Qed.

(** A [GET] of a final target is answered without a redirect. *)
Lemma final_target_get d user url :
  final_target url → ∃ d' resp, project_handle d (client_get user url) = Some (d', resp) ∧ is_redirect resp = false.
Proof.
  intros [[next ->]|[->|[[k ->]|[s [-> Hs]]]]].
  - destruct (client_get_login user next) as (q & g & ->). eexists _, _. split; [reflexivity|done].
  - destruct (project_get_reverse d user RIndex) as (r & -> & Hres); [done|].
    exists (handle d r).1, (handle d r).2. split; [by destruct (handle d r)|].
    unfold handle, dispatch. rewrite Hres.
    apply run_view_no_redirect, index_no_redirect.
  - destruct (project_get_reverse d user (RPostDetail k)) as (r & -> & Hres); [done|].
    exists (handle d r).1, (handle d r).2. split; [by destruct (handle d r)|].
    unfold handle, dispatch. rewrite Hres.
    apply run_view_no_redirect, post_detail_no_redirect.
  - destruct (project_get_reverse d user (RProfile s)) as (r & -> & Hres); [done|].
    exists (handle d r).1, (handle d r).2. split; [by destruct (handle d r)|].
    unfold handle, dispatch. rewrite Hres.
    apply run_view_no_redirect, profile_no_redirect.
Qed.

(** C32: [client.get(..., follow=True)] and [client.post(..., follow=True)]
    terminate on every reachable database: the loop of
    [_handle_redirects] ends with a response that is not a redirect,
    without [RedirectCycleError], after at most one redirect, whatever
    the request, because every redirect of the site goes to a page a
    [GET] answers directly. *)
Theorem client_follow_terminates d user m address data fs d1 resp1 :
  reachable d → project_handle d (client_request user m address data fs) = Some (d1, resp1) →
  ∃ d2 resp2 chain, client_follow user m address data fs d = Some (d2, inr resp2, chain) ∧
    (length chain ≤ 1)%nat ∧ is_redirect resp2 = false.
Proof.
  intros Hr Hp. unfold client_follow. rewrite Hp. cbn [mbind option_bind].
  pose proof (project_handle_final d _ _ _ (inv_usernames_ok _ (reachable_inv d Hr)) Hp) as Hf.
  destruct (is_redirect resp1) eqn:E.
  - destruct resp1 as [|url| |]; try discriminate.
    destruct (final_target_get d1 user url Hf) as (d2 & resp2 & Hg & Hn).
    exists d2, resp2, [url]. rewrite handle_redirects_step, Hg. cbn iota beta zeta.
    rewrite !bool_decide_eq_false_2 by (simpl; first [apply not_elem_of_nil|lia]).
    rewrite handle_redirects_final by done. split_and!; [done|simpl; lia|done].
  - exists d1, resp1, []. rewrite handle_redirects_final by done. split_and!; [done|simpl; lia|done].
Qed.

Lemma client_follow_terminates_witness :
  reachable scenario_db ∧
  project_handle scenario_db (client_request None GET "/create/" [] []) =
    Some (scenario_db, Redirect "/auth/login/?next=/create/") ∧
  ∃ d2 resp2 chain, client_follow None GET "/create/" [] [] scenario_db = Some (d2, inr resp2, chain) ∧
    (length chain ≤ 1)%nat ∧ is_redirect resp2 = false.
Proof.
  split; [apply reachable_scenario|]. split; [vm_compute; reflexivity|].
  apply (client_follow_terminates scenario_db None GET "/create/" [] [] scenario_db
           (Redirect "/auth/login/?next=/create/")); [apply reachable_scenario|vm_compute; reflexivity].
Defined.
