(* ===== verification/Handlers.v ===== *)
(** * Handlers: what one request does

    The theorems of this file run [handle] of [Site.v] on a request and
    say what the database and the response become: a valid new post, a
    protected view requested anonymously, an edit by someone who is not
    the author, a valid comment, following then unfollowing an author,
    the two pages of a group with thirteen posts, and which [GET]
    requests can write.  Their witnesses run the handlers on the
    fixtures of [Site.v], which are those of the view tests. *)

From stdpp Require Import base list strings gmap pretty sorting.
From Stdlib Require Import ZArith.
From S2P Require Import Prelude PyBuiltins Orm Models Paginator Urls Forms Views Site.

Local Open Scope string_scope.
(** [handle] on a valid post submitted by a logged-in user. *)
Lemma handle_post_create_eq d r u c :
  req_user r = Some u → resolve (req_path r) = Some RPostCreate → req_method r = POST →
  post_form_valid d r = Some c →
  handle d r = (set_posts (objects_create (new_post r u c) (posts d)).2 d,
                redirect (RProfile (user_str d (Some u)))).
Proof.
  intros Hu Hres Hm Hc. unfold handle, run_view, dispatch, login_required.
  by rewrite Hres, Hu, (post_create_valid r u d c Hm Hc).
Qed.

(** [handle] on a protected route for an anonymous visitor. *)
Lemma handle_login_redirect d r rt :
  req_user r = None → resolve (req_path r) = Some rt → login_route rt = true →
  handle d r = (d, Redirect (login_url (full_path r))).
Proof.
  intros Hu Hres Hl. unfold handle, dispatch. rewrite Hres.
  destruct rt; try discriminate; unfold run_view; by rewrite login_required_anonymous.
Qed.

(** C3: A valid post submitted by an authenticated user creates exactly
    one post, whose author is that user, which comes first in the feed
    when the clock has not gone back, and the user is redirected to their
    profile. *)
Theorem handle_post_create_valid d r u c :
  req_user r = Some u → resolve (req_path r) = Some RPostCreate → req_method r = POST →
  post_form_valid d r = Some c → table_wf (posts d) →
  (∀ k p, rows (posts d) !! k = Some p → (Post.pub_date p ≤ req_now r)%nat) →
  objects_count (λ _ _, true) (posts (handle d r).1) = S (objects_count (λ _ _, true) (posts d)) ∧
  queryset (λ _ _, true) (posts (handle d r).1) =
    (next_pk (posts d), new_post r u c) :: queryset (λ _ _, true) (posts d) ∧
  Post.author (new_post r u c) = u ∧
  (handle d r).2 = Redirect (reverse (RProfile (user_str d (Some u)))).
Proof.
  intros Hu Hres Hm Hc Hwf Hclock. rewrite (handle_post_create_eq d r u c Hu Hres Hm Hc).
  cbn [fst snd set_posts posts].
  split_and!; [|apply queryset_create; [done..|]|done|done].
  - rewrite objects_count_create by done. simpl. lia.
  - intros k p Hk _. by apply Hclock in Hk.
Qed.

Lemma handle_post_create_valid_witness :
  let r := fixture_request (Some 1) POST "/create/" [("text", "Новый тестовый пост"); ("group", "1")] in
  let c := PostCleaned "Новый тестовый пост" (Some 1) KeepImage in
  objects_count (λ _ _, true) (posts (handle fixture_db r).1) = S (objects_count (λ _ _, true) (posts fixture_db)) ∧
  queryset (λ _ _, true) (posts (handle fixture_db r).1) =
    (next_pk (posts fixture_db), new_post r 1 c) :: queryset (λ _ _, true) (posts fixture_db) ∧
  Post.author (new_post r 1 c) = 1 ∧
  (handle fixture_db r).2 = Redirect (reverse (RProfile (user_str fixture_db (Some 1)))).
Proof.
  intros r c. subst r c. apply (handle_post_create_valid fixture_db _ 1 _);
    [reflexivity|vm_compute; reflexivity|reflexivity|vm_compute; reflexivity
    |apply table_wf_singleton; lia|].
  intros k p Hk. simpl in Hk. apply lookup_singleton_Some in Hk as [<- <-]. simpl. lia.
Defined.

(** C4: Every view behind [@login_required], requested by an anonymous
    visitor, leaves the database unchanged and redirects to the login page
    with [next] set to the requested path. *)
Theorem handle_anonymous d r rt :
  req_user r = None → resolve (req_path r) = Some rt → login_route rt = true →
  handle d r = (d, Redirect (login_url (full_path r))).
Proof. apply handle_login_redirect. Qed.

Lemma handle_anonymous_witness :
  handle fixture_db (fixture_request None GET "/create/" []) =
    (fixture_db, Redirect "/auth/login/?next=/create/").
Proof.
  rewrite (handle_anonymous fixture_db _ RPostCreate); vm_compute; reflexivity.
Defined.

(** The [next] parameter of the login redirect reads back, once the
    login view unquotes its query string, as the full path the anonymous
    visitor requested, query string and its ["&"] and ["+"] included. *)
Theorem handle_anonymous_next_roundtrip d r rt :
  req_user r = None → resolve (req_path r) = Some rt → login_route rt = true →
  ∃ q, handle d r = (d, Redirect ("/auth/login/?next=" +:+ q)) ∧ qs_unquote q = full_path r.
Proof.
  intros Hu Hres Hl. exists (quote "/" (full_path r)).
  rewrite (handle_login_redirect d r rt Hu Hres Hl). split; [done|apply qs_unquote_quote].
Qed.

Lemma handle_anonymous_next_roundtrip_witness :
  let r := Request None GET "/posts/1/edit/" "page=2&q=a+b" [] [] [] 5 in
  ∃ q, handle fixture_db r = (fixture_db, Redirect ("/auth/login/?next=" +:+ q)) ∧
       qs_unquote q = "/posts/1/edit/?page=2&q=a+b".
Proof.
  intros r. apply (handle_anonymous_next_roundtrip fixture_db r (RPostEdit 1));
    [reflexivity|vm_compute; reflexivity|reflexivity].
Defined.

(** C5: A user who is not the author of a post and opens its edit page
    is redirected to the post's page, and the database is unchanged. *)
Theorem handle_post_edit_non_author d r u post_id p :
  req_user r = Some u → resolve (req_path r) = Some (RPostEdit post_id) →
  rows (posts d) !! post_id = Some p → Post.author p ≠ u →
  handle d r = (d, Redirect (reverse (RPostDetail post_id))).
Proof.
  intros Hu Hres Hp Ha. unfold handle, dispatch. rewrite Hres.
  unfold run_view, login_required. rewrite Hu, (post_edit_not_author r u post_id p d Hp Ha). done.
Qed.

Lemma handle_post_edit_non_author_witness :
  handle fixture_db (fixture_request (Some 2) POST "/posts/1/edit/" [("text", "Чужой текст")]) =
    (fixture_db, Redirect (reverse (RPostDetail 1))).
Proof.
  apply (handle_post_edit_non_author fixture_db _ 2 1 (Post.mk "Тестовый пост" 1 1 (Some 1) ""));
    [reflexivity|vm_compute; reflexivity|reflexivity|simpl; lia].
Defined.

(** C6: A valid comment on an existing post is saved under the post and
    the author, the user is redirected to the post, and the post's page
    then lists the new comment first, before the post's older comments,
    when the clock has not gone back. *)
Theorem handle_add_comment_valid d r r' u post_id p text :
  req_user r = Some u → resolve (req_path r) = Some (RAddComment post_id) →
  rows (posts d) !! post_id = Some p → comment_form_valid r = Some text →
  table_wf (comments d) →
  (∀ k c, rows (comments d) !! k = Some c → (Comment.created c ≤ req_now r)%nat) →
  resolve (req_path r') = Some (RPostDetail post_id) →
  (handle d r).2 = Redirect (reverse (RPostDetail post_id)) ∧
  ∃ post_count form,
    (handle (handle d r).1 r').2 =
      Render "posts/post_detail.html"
        (CtxPostDetail (post_id, p) post_count
           ((next_pk (comments d), Comment.mk (Some post_id) (Some u) text (req_now r))
              :: queryset (λ _ c, bool_decide (Comment.post c = Some post_id)) (comments d))
           form).
Proof.
  intros Hu Hres Hp Ht Hwf Hclock Hres'.
  assert (Hd : handle d r =
    (set_comments (objects_create (Comment.mk (Some post_id) (Some u) text (req_now r)) (comments d)).2 d,
     redirect (RPostDetail post_id))).
  { unfold handle, dispatch, run_view, login_required. rewrite Hres, Hu.
    by rewrite (add_comment_valid r u post_id p d text Hp Ht). }
  rewrite Hd. split; [done|]. unfold handle, dispatch, run_view. rewrite Hres'.
  rewrite (post_detail_render r' post_id p) by exact Hp.
  cbn [snd set_comments comments]. eexists _, _. f_equal. f_equal.
  apply queryset_create; [done|by rewrite bool_decide_eq_true_2|].
  intros k c Hk _. by apply Hclock in Hk.
Qed.

Lemma handle_add_comment_valid_witness :
  let r := fixture_request (Some 1) POST "/posts/1/comment/" [("text", "Тестовый комментарий")] in
  (handle fixture_db r).2 = Redirect (reverse (RPostDetail 1)) ∧
  ∃ post_count form,
    (handle (handle fixture_db r).1 (fixture_request None GET "/posts/1/" [])).2 =
      Render "posts/post_detail.html"
        (CtxPostDetail (1, Post.mk "Тестовый пост" 1 1 (Some 1) "") post_count
           ((next_pk (comments fixture_db), Comment.mk (Some 1) (Some 1) "Тестовый комментарий" 5)
              :: queryset (λ _ c, bool_decide (Comment.post c = Some 1)) (comments fixture_db))
           form).
Proof.
  intros r. subst r.
  apply (handle_add_comment_valid fixture_db
           (fixture_request (Some 1) POST "/posts/1/comment/" [("text", "Тестовый комментарий")])
           (fixture_request None GET "/posts/1/" []) 1 1 _ "Тестовый комментарий");
    [reflexivity|vm_compute; reflexivity|reflexivity|vm_compute; reflexivity
    |split; [simpl; lia|intros k Hk; simpl in Hk; set_solver]
    |intros k c Hk; simpl in Hk; by rewrite lookup_empty in Hk|vm_compute; reflexivity].
Defined.

(** [profile_follow] then [profile_unfollow] of an author not followed. *)
Lemma handle_follow_unfollow_eq d r1 r2 u username a usr :
  req_user r1 = Some u → resolve (req_path r1) = Some (RProfileFollow username) →
  req_user r2 = Some u → resolve (req_path r2) = Some (RProfileUnfollow username) →
  objects_get_by (λ _ x, bool_decide (User.username x = username)) (users d) = Found a usr →
  u ≠ a → objects_exists (follow_row u a) (follows d) = false → table_wf (follows d) →
  handle d r1 =
    (set_follows (objects_create (Follow.mk u (Some a)) (follows d)).2 d, redirect (RProfile username)) ∧
  handle (handle d r1).1 r2 =
    (set_follows (Table (rows (follows d)) (S (next_pk (follows d)))) d, redirect (RProfile username)).
Proof.
  intros Hu1 Hres1 Hu2 Hres2 Ha Hne Hnew Hwf.
  assert (Hrow : follow_row u a (next_pk (follows d)) (Follow.mk u (Some a)) = true).
  { unfold follow_row. simpl. by rewrite !bool_decide_eq_true_2. }
  assert (Hd1 : handle d r1 =
    (set_follows (objects_create (Follow.mk u (Some a)) (follows d)).2 d, redirect (RProfile username))).
  { unfold handle, dispatch, run_view, login_required. rewrite Hres1, Hu1.
    rewrite (profile_follow_found r1 u username a usr d Ha), Hnew, bool_decide_eq_true_2 by done.
    done. }
  split; [done|]. rewrite Hd1. cbn [fst set_follows follows].
  unfold handle, dispatch, run_view, login_required. rewrite Hres2, Hu2.
  rewrite (profile_unfollow_found r2 u username a usr) by exact Ha.
  cbn [set_follows follows]. rewrite objects_exists_create by done.
  rewrite objects_delete_create by done. by destruct d.
Qed.

(** C7: Following an author one did not follow and then unfollowing them
    gives the follow table its rows back: in between the edge exists, and
    both views redirect to the author's profile. *)
Theorem handle_follow_unfollow d r1 r2 u username a usr :
  req_user r1 = Some u → resolve (req_path r1) = Some (RProfileFollow username) →
  req_user r2 = Some u → resolve (req_path r2) = Some (RProfileUnfollow username) →
  objects_get_by (λ _ x, bool_decide (User.username x = username)) (users d) = Found a usr →
  u ≠ a → objects_exists (follow_row u a) (follows d) = false → table_wf (follows d) →
  objects_exists (follow_row u a) (follows (handle d r1).1) = true ∧
  (handle (handle d r1).1 r2).1 = set_follows (Table (rows (follows d)) (S (next_pk (follows d)))) d ∧
  (handle d r1).2 = Redirect (reverse (RProfile username)) ∧
  (handle (handle d r1).1 r2).2 = Redirect (reverse (RProfile username)).
Proof.
  intros Hu1 Hres1 Hu2 Hres2 Ha Hne Hnew Hwf.
  destruct (handle_follow_unfollow_eq d r1 r2 u username a usr Hu1 Hres1 Hu2 Hres2 Ha Hne Hnew Hwf)
    as [Hd1 Hd2].
  rewrite Hd2, Hd1. split_and!; [|done|done|done].
  apply objects_exists_create. unfold follow_row. simpl. by rewrite !bool_decide_eq_true_2.
Qed.

Lemma handle_follow_unfollow_witness :
  let r1 := fixture_request (Some 2) POST "/profile/auth/follow/" [] in
  let r2 := fixture_request (Some 2) POST "/profile/auth/unfollow/" [] in
  objects_exists (follow_row 2 1) (follows (handle fixture_db r1).1) = true ∧
  (handle (handle fixture_db r1).1 r2).1 =
    set_follows (Table (rows (follows fixture_db)) (S (next_pk (follows fixture_db)))) fixture_db ∧
  (handle fixture_db r1).2 = Redirect (reverse (RProfile "auth")) ∧
  (handle (handle fixture_db r1).1 r2).2 = Redirect (reverse (RProfile "auth")).
Proof.
  intros r1 r2. subst r1 r2.
  apply (handle_follow_unfollow fixture_db _ _ 2 "auth" 1 (User.mk "auth"));
    [reflexivity|vm_compute; reflexivity|reflexivity|vm_compute; reflexivity
    |vm_compute; reflexivity|lia|vm_compute; reflexivity|apply table_wf_empty].
Defined.


(** The group page of a group with thirteen posts shows ten posts on
    [?page=1] and the remaining three on [?page=2]; together the two pages
    are the group's posts, newest first, and neither request changes the
    database. *)
Theorem handle_group_posts_13 d r1 r2 slug gk g :
  objects_get_by (λ _ g, bool_decide (Group.slug g = slug)) (groups d) = Found gk g →
  objects_count (λ _ p, bool_decide (Post.group p = Some gk)) (posts d) = 13%nat →
  resolve (req_path r1) = Some (RGroupList slug) → req_GET r1 = [("page", "1")] →
  resolve (req_path r2) = Some (RGroupList slug) → req_GET r2 = [("page", "2")] →
  ∃ pg1 pg2,
    handle d r1 = (d, Render "posts/group_list.html" (CtxGroupList (gk, g) pg1)) ∧
    handle d r2 = (d, Render "posts/group_list.html" (CtxGroupList (gk, g) pg2)) ∧
    length (page_object_list pg1) = 10%nat ∧ length (page_object_list pg2) = 3%nat ∧
    (page_object_list pg1 ++ page_object_list pg2)%list =
      queryset (λ _ p, bool_decide (Post.group p = Some gk)) (posts d).
Proof.
  intros Hg Hcount Hres1 Hget1 Hres2 Hget2.
  set (l := queryset (λ _ p, bool_decide (Post.group p = Some gk)) (posts d)).
  set (p := Paginator l POST_COUNT 0 true).
  assert (length l = 13%nat) as Hlen by (unfold l; by rewrite queryset_length).
  pose proof (num_pages_13 l Hlen) as Hn. fold p in Hn.
  assert (∀ r n, resolve (req_path r) = Some (RGroupList slug) →
            req_GET r = [("page", pretty (Z.of_nat n))] → (1 ≤ n ≤ 2)%nat →
            handle d r = (d, Render "posts/group_list.html" (CtxGroupList (gk, g) (Page (page_rows p n) n p))))
    as Hpage.
  { intros r n Hres Hget Hn'. unfold handle, dispatch, run_view. rewrite Hres.
    rewrite (group_posts_render r slug gk g d Hg). cbn zeta. rewrite Hget.
    fold l p. by rewrite clamp_page_number by lia. }
  exists (Page (page_rows p 1%nat) 1%nat p), (Page (page_rows p 2%nat) 2%nat p).
  split_and!; [apply Hpage; [done|by rewrite Hget1|lia]|apply Hpage; [done|by rewrite Hget2|lia]| | |].
  - cbn [page_object_list]. rewrite page_rows_length by (cbn; unfold POST_COUNT; lia).
    unfold count, p, POST_COUNT; cbn [object_list per_page]. unfold post_row in *. rewrite Hlen. lia.
  - cbn [page_object_list]. rewrite page_rows_length by (cbn; unfold POST_COUNT; lia).
    unfold count, p, POST_COUNT; cbn [object_list per_page]. unfold post_row in *. rewrite Hlen. lia.
  - cbn [page_object_list]. pose proof (concat_pages p ltac:(cbn; unfold POST_COUNT; lia) eq_refl 0%nat 2%nat) as Hc.
    cbn [seq fmap list_fmap concat] in Hc. rewrite app_nil_r in Hc. unfold post_row in *. rewrite Hc, drop_0.
    apply take_ge. unfold p, POST_COUNT. cbn [object_list per_page]. lia.
Qed.

Lemma handle_group_posts_13_witness :
  ∃ pg1 pg2,
    handle fixture_13_db (page_request "/group/test-slug/" "1") =
      (fixture_13_db, Render "posts/group_list.html"
        (CtxGroupList (1%nat, Group.mk "Тестовая группа" "test-slug" "Тестовое описание") pg1)) ∧
    handle fixture_13_db (page_request "/group/test-slug/" "2") =
      (fixture_13_db, Render "posts/group_list.html"
        (CtxGroupList (1%nat, Group.mk "Тестовая группа" "test-slug" "Тестовое описание") pg2)) ∧
    length (page_object_list pg1) = 10%nat ∧ length (page_object_list pg2) = 3%nat ∧
    (page_object_list pg1 ++ page_object_list pg2)%list =
      queryset (λ _ p, bool_decide (Post.group p = Some 1%nat)) (posts fixture_13_db).
Proof.
  apply (handle_group_posts_13 fixture_13_db _ _ "test-slug");
    vm_compute; reflexivity.
Defined.

(** C10: A [GET] request changes the database only when it is addressed
    to [profile_follow] or [profile_unfollow]: every other view either
    only reads or, for [post_create], [post_edit] and [add_comment],
    writes only on a bound, valid form, which a [GET] never carries. *)
Theorem handle_get_safe d r rt :
  req_method r = GET → resolve (req_path r) = Some rt →
  (∀ s, rt ≠ RProfileFollow s) → (∀ s, rt ≠ RProfileUnfollow s) →
  (handle d r).1 = d.
Proof.
  intros Hm Hres Hf Hu. unfold handle, run_view.
  assert ((dispatch r d).1 = d) as Hd.
  { unfold dispatch. rewrite Hres.
    destruct rt; rewrite ?index_state, ?group_posts_state, ?profile_state, ?post_detail_state;
      try done; try (by destruct (Hf _ eq_refl)); try (by destruct (Hu _ eq_refl));
      unfold login_required; destruct (req_user r); simpl; try done;
      eauto using post_create_GET, post_edit_GET, add_comment_GET, follow_index_state. }
  by destruct (dispatch r d) as [d' [[]|]].
Qed.

Lemma handle_get_safe_witness :
  (handle fixture_db (fixture_request (Some 1) GET "/posts/1/edit/" [("text", "Новый текст")])).1 = fixture_db.
Proof.
  apply (handle_get_safe _ _ (RPostEdit 1)); [reflexivity|vm_compute; reflexivity|done|done].
Defined.

(** C11: [profile_follow] writes on a plain [GET]: opening the link of
    an author one does not follow adds a follow row, although the
    specification reserves mutations to [POST]. *)
Theorem handle_get_follow_writes d r u username a usr :
  req_method r = GET → req_user r = Some u → resolve (req_path r) = Some (RProfileFollow username) →
  objects_get_by (λ _ x, bool_decide (User.username x = username)) (users d) = Found a usr →
  u ≠ a → objects_exists (follow_row u a) (follows d) = false →
  (handle d r).1 ≠ d ∧ objects_exists (follow_row u a) (follows (handle d r).1) = true.
Proof.
  intros _ Hu Hres Ha Hne Hnew.
  assert ((handle d r).1 = set_follows (objects_create (Follow.mk u (Some a)) (follows d)).2 d) as ->.
  { unfold handle, dispatch, run_view, login_required. rewrite Hres, Hu.
    by rewrite (profile_follow_found r u username a usr d Ha), Hnew, bool_decide_eq_true_2. }
  split.
  - intros Hd. apply (f_equal (λ d, next_pk (follows d))) in Hd. simpl in Hd. lia.
  - apply objects_exists_create. unfold follow_row. simpl. by rewrite !bool_decide_eq_true_2.
Qed.

Lemma handle_get_follow_writes_witness :
  let r := fixture_request (Some 2%nat) GET "/profile/auth/follow/" [] in
  (handle fixture_db r).1 ≠ fixture_db ∧
  objects_exists (follow_row 2 1) (follows (handle fixture_db r).1) = true.
Proof.
  intros r. subst r. apply (handle_get_follow_writes fixture_db _ 2 "auth" 1 (User.mk "auth"));
    [reflexivity|reflexivity|vm_compute; reflexivity|vm_compute; reflexivity|lia|vm_compute; reflexivity].
Defined.

(** The follow table itself does not forbid duplicates, and the
    feed does not remove them: with two follow rows from [u] to [a],
    which no serial run creates but two interleaved follow requests do
    ([Concurrency.follow_race]), the join of [follow_index] lists each
    post of [a] more than once. *)
Theorem follow_join_duplicate_edges d u a k p k1 k2 :
  k1 ≠ k2 → rows (follows d) !! k1 = Some (Follow.mk u (Some a)) →
  rows (follows d) !! k2 = Some (Follow.mk u (Some a)) →
  rows (posts d) !! k = Some p → Post.author p = a →
  (k, p) ∈ follow_join d u ∧ ¬ NoDup (follow_join d u).
Proof.
  intros Hne H1 H2 Hp Ha.
  assert (2 ≤ objects_count (λ _ f, bool_decide (Follow.author f = Some (Post.author p))
                                  && bool_decide (Follow.user f = u)) (follows d))%nat as Hc.
  { apply (objects_count_two _ _ k1 (Follow.mk u (Some a)) k2 (Follow.mk u (Some a)) Hne H1);
      [|exact H2|]; simpl; by rewrite !bool_decide_eq_true_2 by congruence. }
  unfold follow_join. rewrite elem_of_order_by, order_by_Permutation. split.
  - apply list_elem_of_join. eexists. split; [|apply list_elem_of_fmap; exists (k, p);
      split; [reflexivity|by apply elem_of_map_to_list]].
    simpl. destruct (objects_count _ _) as [|n]; [lia|]. left.
  - apply (mjoin_replicate_not_NoDup (λ kp : post_row, objects_count _ (follows d)) _ (k, p));
      [by apply elem_of_map_to_list|exact Hc].
Qed.

Lemma follow_join_duplicate_edges_witness :
  let d := set_follows (Table {[1%nat := Follow.mk 2 (Some 1%nat); 2%nat := Follow.mk 2 (Some 1%nat)]} 3)
             fixture_db in
  (1%nat, Post.mk "Тестовый пост" 1 1 (Some 1%nat) "") ∈ follow_join d 2 ∧ ¬ NoDup (follow_join d 2).
Proof.
  intros d. subst d. apply (follow_join_duplicate_edges _ 2 1 1 _ 1 2); [lia|reflexivity..].
Defined.

(** With at most one follow row per follower and author, the join lists
    each post at most once. *)
Lemma follow_join_NoDup d u :
  unique_by (λ f, (Follow.user f, Follow.author f)) (follows d) → NoDup (follow_join d u).
Proof.
  intros Huniq. unfold follow_join. rewrite order_by_Permutation.
  apply mjoin_replicate_NoDup; [apply NoDup_map_to_list|]. intros kp _.
  rewrite objects_count_unique; [destruct (objects_exists _ _); lia|].
  intros k1 [u1 a1] k2 [u2 a2] H1 E1 H2 E2.
  apply andb_true_iff in E1 as [E1%bool_decide_eq_true E1'%bool_decide_eq_true].
  apply andb_true_iff in E2 as [E2%bool_decide_eq_true E2'%bool_decide_eq_true].
  simpl in *. subst. by apply (Huniq k1 _ k2 _ H1 H2).
Qed.

(** C18: A valid edit by the post's author updates the post in place:
    same key, same number of posts, the author, date and the other posts
    unchanged, the text and group those of the form, and the user is
    redirected to the post's page. *)
Theorem handle_post_edit_author d r u k p c :
  req_user r = Some u → resolve (req_path r) = Some (RPostEdit k) →
  rows (posts d) !! k = Some p → Post.author p = u → post_form_valid d r = Some c →
  (handle d r).2 = Redirect (reverse (RPostDetail k)) ∧
  objects_count (λ _ _, true) (posts (handle d r).1) = objects_count (λ _ _, true) (posts d) ∧
  (∃ p', rows (posts (handle d r).1) !! k = Some p' ∧
     Post.text p' = cleaned_text c ∧ Post.group p' = cleaned_group c ∧
     Post.author p' = u ∧ Post.pub_date p' = Post.pub_date p) ∧
  (∀ k', k' ≠ k → rows (posts (handle d r).1) !! k' = rows (posts d) !! k') ∧
  comments (handle d r).1 = comments d ∧ follows (handle d r).1 = follows d.
Proof.
  intros Hu Hres Hp Ha Hc.
  assert (handle d r =
    (set_posts (instance_save k (edited_post p c) (posts d)) d, redirect (RPostDetail k))) as ->.
  { unfold handle, dispatch, run_view, login_required. rewrite Hres, Hu.
    by rewrite (post_edit_valid r u k p d c Hp Ha Hc). }
  cbn [fst snd set_posts posts comments follows]. split_and!; [done| |eexists|intros k' Hk'|done|done].
  - apply objects_count_save. by eexists.
  - split_and!; [simpl; by rewrite lookup_insert_eq|done|done|done|done].
  - simpl. by rewrite lookup_insert_ne by congruence.
Qed.

Lemma handle_post_edit_author_witness :
  let r := fixture_request (Some 1%nat) POST "/posts/1/edit/" [("text", "Изменённый текст"); ("group", "")] in
  (handle fixture_db r).2 = Redirect (reverse (RPostDetail 1)) ∧
  objects_count (λ _ _, true) (posts (handle fixture_db r).1) = objects_count (λ _ _, true) (posts fixture_db) ∧
  (∃ p', rows (posts (handle fixture_db r).1) !! 1%nat = Some p' ∧
     Post.text p' = "Изменённый текст" ∧ Post.group p' = None ∧
     Post.author p' = 1%nat ∧ Post.pub_date p' = 1%nat) ∧
  (∀ k', k' ≠ 1%nat → rows (posts (handle fixture_db r).1) !! k' = rows (posts fixture_db) !! k') ∧
  comments (handle fixture_db r).1 = comments fixture_db ∧ follows (handle fixture_db r).1 = follows fixture_db.
Proof.
  intros r. subst r.
  apply (handle_post_edit_author fixture_db _ 1 1 (Post.mk "Тестовый пост" 1 1 (Some 1%nat) "")
           (PostCleaned "Изменённый текст" None KeepImage));
    [reflexivity|vm_compute; reflexivity|reflexivity|reflexivity|vm_compute; reflexivity].
Defined.

(** C19: A submitted post form that is not valid creates nothing: the
    database is unchanged and the creation page is rendered again with
    the submitted data and at least one field error. *)
Theorem handle_post_create_invalid d r u :
  req_user r = Some u → resolve (req_path r) = Some RPostCreate → req_method r = POST →
  form_is_bound r = true → post_form_valid d r = None →
  ∃ errs, handle d r =
    (d, Render "posts/create_post.html" (CtxCreatePost (FormBound (request_POST r) errs))) ∧
    errs ≠ [].
Proof.
  intros Hu Hres Hm Hb Hv. destruct (post_form_state_invalid d r Hb Hv) as (errs & Hs & Herrs).
  exists errs. split; [|done].
  unfold handle, dispatch, run_view, login_required. rewrite Hres, Hu.
  unfold post_create, create_page_with_form. rewrite Hm. exc_simpl. by rewrite Hv, Hs.
Qed.

Lemma handle_post_create_invalid_witness :
  ∃ errs, handle fixture_db (fixture_request (Some 1%nat) POST "/create/" [("text", "   ")]) =
    (fixture_db, Render "posts/create_post.html"
       (CtxCreatePost (FormBound (request_POST (fixture_request (Some 1%nat) POST "/create/" [("text", "   ")])) errs))) ∧
    errs ≠ [].
Proof.
  apply (handle_post_create_invalid fixture_db _ 1);
    [reflexivity|vm_compute; reflexivity|reflexivity|vm_compute; reflexivity|vm_compute; reflexivity].
Defined.

(** C20: The profile page of an account shows only that account's posts,
    and tells a logged-in visitor that they follow it exactly when the
    visitor is someone else and has a follow row for it. *)
Theorem handle_profile d r username a usr u :
  resolve (req_path r) = Some (RProfile username) →
  objects_get_by (λ _ x, bool_decide (User.username x = username)) (users d) = Found a usr →
  req_user r = Some u →
  ∃ pg following,
    handle d r = (d, Render "posts/profile.html" (CtxProfile pg (a, usr) following)) ∧
    (following = true ↔ a ≠ u ∧ ∃ kf, rows (follows d) !! kf = Some (Follow.mk u (Some a))) ∧
    ∀ k p, (k, p) ∈ page_object_list pg → rows (posts d) !! k = Some p ∧ Post.author p = a.
Proof.
  intros Hres Ha Hu. unfold handle, dispatch, run_view.
  rewrite Hres, (profile_render r username a usr d Ha). cbn zeta. rewrite Hu.
  eexists _, _. split; [reflexivity|]. split.
  - by rewrite andb_true_iff, bool_decide_eq_true, is_follower_follow_row, follow_row_exists.
  - intros k p Hk%elem_of_page_rows. cbn [object_list] in Hk.
    apply elem_of_queryset in Hk as [Hk Hp]. bdecide. done.
Qed.

Lemma handle_profile_witness :
  ∃ pg following,
    handle scenario_db (fixture_request (Some 2%nat) GET "/profile/auth/" []) =
      (scenario_db, Render "posts/profile.html" (CtxProfile pg (1%nat, User.mk "auth") following)) ∧
    (following = true ↔ 1%nat ≠ 2%nat ∧
       ∃ kf, rows (follows scenario_db) !! kf = Some (Follow.mk 2 (Some 1%nat))) ∧
    ∀ k p, (k, p) ∈ page_object_list pg → rows (posts scenario_db) !! k = Some p ∧ Post.author p = 1%nat.
Proof.
  apply (handle_profile scenario_db _ "auth"); [vm_compute; reflexivity|vm_compute; reflexivity|reflexivity].
Defined.

(** C21: The main page without a [page] parameter shows the ten newest
    posts (all of them when there are fewer), newest first: every post
    it shows is a post of the database, and every post it does not show
    is older than each one it shows, or as old and created before it. *)
Theorem handle_index_first_page d r :
  resolve (req_path r) = Some RIndex → querydict_get "page" (req_GET r) = None →
  ∃ pg, handle d r = (d, Render "posts/index.html" (CtxIndex pg)) ∧
    length (page_object_list pg) = min 10 (objects_count (λ _ _, true) (posts d)) ∧
    StronglySorted row_before (page_object_list pg) ∧
    (∀ k p, (k, p) ∈ page_object_list pg → rows (posts d) !! k = Some p) ∧
    (∀ k p, rows (posts d) !! k = Some p → (k, p) ∉ page_object_list pg →
       ∀ x, x ∈ page_object_list pg → row_before x (k, p)).
Proof.
  intros Hres Hpage. unfold handle, dispatch, run_view. rewrite Hres, index_render. cbn zeta.
  set (l := queryset (λ _ _, true) (posts d)).
  rewrite clamp_page_none by exact Hpage.
  rewrite page_rows_take by (cbn; unfold POST_COUNT; lia). cbn [object_list per_page].
  rewrite drop_0. pose proof (queryset_StronglySorted (λ _ _, true) (posts d)) as Hs. fold l in Hs.
  rewrite <-(take_drop POST_COUNT l) in Hs.
  eexists. split; [reflexivity|]. cbn [page_object_list]. split_and!.
  - rewrite length_take. unfold l, post_row. by rewrite queryset_length.
  - by apply (StronglySorted_app_l _ _ (drop POST_COUNT l)).
  - intros k p Hk. apply (elem_of_sublist _ l) in Hk; [|apply sublist_take].
    by apply elem_of_queryset in Hk as [? _].
  - intros k p Hk Hnot x Hx. eapply StronglySorted_app_rel; [exact Hs|exact Hx|].
    assert ((k, p) ∈ l) as Hl by (by apply elem_of_queryset).
    rewrite <-(take_drop POST_COUNT l) in Hl. apply elem_of_app in Hl as [Hl|Hl]; [done|done].
Qed.

Lemma handle_index_first_page_witness :
  ∃ pg, handle fixture_13_db (fixture_request None GET "/" []) = (fixture_13_db, Render "posts/index.html" (CtxIndex pg)) ∧
    length (page_object_list pg) = min 10 (objects_count (λ _ _, true) (posts fixture_13_db)) ∧
    StronglySorted row_before (page_object_list pg) ∧
    (∀ k p, (k, p) ∈ page_object_list pg → rows (posts fixture_13_db) !! k = Some p) ∧
    (∀ k p, rows (posts fixture_13_db) !! k = Some p → (k, p) ∉ page_object_list pg →
       ∀ x, x ∈ page_object_list pg → row_before x (k, p)).
Proof. apply handle_index_first_page; reflexivity. Defined.

(** C22: A comment form that is not valid creates no comment: the user is
    sent back to the post's page, or gets the 404 page when the post does
    not exist, and the database is unchanged. *)
Theorem handle_add_comment_invalid d r u k :
  req_user r = Some u → resolve (req_path r) = Some (RAddComment k) → comment_form_valid r = None →
  handle d r = (d, match rows (posts d) !! k with
                   | Some _ => Redirect (reverse (RPostDetail k))
                   | None => NotFound
                   end).
Proof.
  intros Hu Hres Ht. unfold handle, dispatch, run_view, login_required. rewrite Hres, Hu.
  destruct (rows (posts d) !! k) as [p|] eqn:Hp.
  - by rewrite (add_comment_invalid r u k p d Hp Ht).
  - unfold add_comment. by rewrite get_object_or_404_missing by (by apply by_pk_missing).
Qed.

Lemma handle_add_comment_invalid_witness :
  handle fixture_db (fixture_request (Some 2%nat) POST "/posts/1/comment/" [("text", "  ")]) =
    (fixture_db, Redirect (reverse (RPostDetail 1))).
Proof.
  rewrite (handle_add_comment_invalid fixture_db _ 2 1); [reflexivity|reflexivity|vm_compute; reflexivity|vm_compute; reflexivity].
Defined.

(** C23: A request naming a group, an account or a post that does not
    exist gets the 404 page and changes nothing, for every view that
    names one (behind [@login_required], once the user is logged in). *)
Theorem handle_target_missing d r rt :
  resolve (req_path r) = Some rt → target_missing d rt = true →
  (req_user r ≠ None ∨ login_route rt = false) →
  handle d r = (d, NotFound).
Proof.
  intros Hres Hm Hu. unfold handle, dispatch, run_view. rewrite Hres.
  destruct rt; simpl in Hm; try discriminate;
    try (destruct Hu as [Hu|Hu]; [destruct (req_user r) eqn:E; [|done]|discriminate]; unfold login_required; rewrite E);
    unfold group_posts, profile, post_detail, post_edit, add_comment, profile_follow, profile_unfollow;
    rewrite get_object_or_404_missing; try done; try (by apply negb_true_iff);
    apply by_pk_missing; by bdecide.
Qed.

Lemma handle_target_missing_witness :
  handle fixture_db (fixture_request None GET "/group/no-such-group/" []) = (fixture_db, NotFound).
Proof.
  apply (handle_target_missing fixture_db _ (RGroupList "no-such-group"));
    [vm_compute; reflexivity|vm_compute; reflexivity|by right].
Defined.

(** C26: A post by an author the user follows heads the user's feed: on
    a reachable database, after a valid new post by [a], the first page
    of [/follow/] for a follower [u] of [a] starts with that post, when
    the clock has not gone back. *)
Theorem handle_feed_new_post d r r' a u c :
  reachable d →
  req_user r = Some a → resolve (req_path r) = Some RPostCreate → req_method r = POST →
  post_form_valid d r = Some c →
  (∀ k p, rows (posts d) !! k = Some p → (Post.pub_date p ≤ req_now r)%nat) →
  objects_exists (follow_row u a) (follows d) = true →
  req_user r' = Some u → resolve (req_path r') = Some RFollowIndex →
  querydict_get "page" (req_GET r') = None →
  ∃ pg rest, (handle (handle d r).1 r').2 = Render "posts/follow.html" (CtxFollow pg true) ∧
    page_object_list pg = (next_pk (posts d), new_post r a c) :: rest.
Proof.
  intros Hd Hu Hres Hm Hc Hclock Hf Hu' Hres' Hpage.
  destruct (reachable_inv d Hd) as [Hwf [_ Huniq] _ _].
  rewrite (handle_post_create_eq d r a c Hu Hres Hm Hc). cbn [fst].
  set (d1 := set_posts (objects_create (new_post r a c) (posts d)).2 d).
  unfold handle, dispatch, run_view, login_required. rewrite Hres', Hu', follow_index_render. cbn zeta.
  assert (follow_join d1 u =
    (next_pk (posts d), new_post r a c) ::
      queryset (λ _ p, objects_exists (follow_row u (Post.author p)) (follows d)) (posts d)) as ->.
  { rewrite follow_join_queryset by exact Huniq. apply queryset_create; [apply Hwf|done|].
    intros k p Hk _. by apply Hclock in Hk. }
  rewrite clamp_page_none by exact Hpage.
  rewrite page_rows_take by (cbn; unfold POST_COUNT; lia).
  do 2 eexists. split; [reflexivity|]. reflexivity.
Qed.

Lemma handle_feed_new_post_witness :
  let r := fixture_request (Some 1%nat) POST "/create/" [("text", "Новый пост")] in
  let r' := fixture_request (Some 2%nat) GET "/follow/" [] in
  ∃ pg rest, (handle (handle scenario_db r).1 r').2 = Render "posts/follow.html" (CtxFollow pg true) ∧
    page_object_list pg =
      (next_pk (posts scenario_db), new_post r 1 (PostCleaned "Новый пост" None KeepImage)) :: rest.
Proof.
  intros r r'. subst r r'.
  assert (map_Forall (λ _ p, (Post.pub_date p ≤ 5)%nat) (rows (posts scenario_db))) as Hclock
    by (apply (bool_decide_eq_true _); vm_compute; reflexivity).
  apply (handle_feed_new_post scenario_db _ _ 1 2 _ reachable_scenario);
    [reflexivity|vm_compute; reflexivity|reflexivity|vm_compute; reflexivity
    |intros k p Hk; exact (Hclock k p Hk)|vm_compute; reflexivity|reflexivity
    |vm_compute; reflexivity|reflexivity].
Defined.

(** C29: The page of an existing post shows the post, the number of posts
    of its author, and all the comments on it and only those, each once,
    newest first; the database is unchanged. *)
Theorem handle_post_detail d r k p :
  resolve (req_path r) = Some (RPostDetail k) → rows (posts d) !! k = Some p →
  ∃ post_count cs form,
    handle d r = (d, Render "posts/post_detail.html" (CtxPostDetail (k, p) post_count cs form)) ∧
    post_count = objects_count (λ _ q, bool_decide (Post.author q = Post.author p)) (posts d) ∧
    (∀ kc c, (kc, c) ∈ cs ↔ rows (comments d) !! kc = Some c ∧ Comment.post c = Some k) ∧
    NoDup cs.*1 ∧ StronglySorted row_before cs.
Proof.
  intros Hres Hp. unfold handle, dispatch, run_view. rewrite Hres, (post_detail_render r k p d Hp).
  do 3 eexists. split_and!; [reflexivity|reflexivity| |apply queryset_NoDup|apply queryset_StronglySorted].
  intros kc c. rewrite elem_of_queryset. by rewrite bool_decide_eq_true.
Qed.

Lemma handle_post_detail_witness :
  ∃ post_count cs form,
    handle scenario_db (fixture_request None GET "/posts/1/" []) =
      (scenario_db, Render "posts/post_detail.html"
        (CtxPostDetail (1%nat, Post.mk "Тестовый пост" 5 1 None "") post_count cs form)) ∧
    post_count = objects_count (λ _ q, bool_decide (Post.author q = 1%nat)) (posts scenario_db) ∧
    (∀ kc c, (kc, c) ∈ cs ↔ rows (comments scenario_db) !! kc = Some c ∧ Comment.post c = Some 1%nat) ∧
    NoDup cs.*1 ∧ StronglySorted row_before cs.
Proof. apply (handle_post_detail scenario_db _ 1); vm_compute; reflexivity. Defined.

(** C30: Following an author and unfollowing them again is invisible:
    every page of the views that only read (the main page, group and
    profile pages, post pages, the feed) is then exactly what it was
    before, although the key sequence of the follow table has moved on. *)
Theorem handle_follow_unfollow_invisible d r1 r2 r u username a usr rt :
  req_user r1 = Some u → resolve (req_path r1) = Some (RProfileFollow username) →
  req_user r2 = Some u → resolve (req_path r2) = Some (RProfileUnfollow username) →
  objects_get_by (λ _ x, bool_decide (User.username x = username)) (users d) = Found a usr →
  u ≠ a → objects_exists (follow_row u a) (follows d) = false → table_wf (follows d) →
  resolve (req_path r) = Some rt → read_route rt = true →
  (handle (handle (handle d r1).1 r2).1 r).2 = (handle d r).2.
Proof.
  intros Hu1 Hres1 Hu2 Hres2 Ha Hne Hnew Hwf Hres Hrt.
  destruct (handle_follow_unfollow_eq d r1 r2 u username a usr Hu1 Hres1 Hu2 Hres2 Ha Hne Hnew Hwf)
    as [_ ->].
  apply (handle_read_equiv _ _ _ rt); [|done|done]. by split_and!.
Qed.

Lemma handle_follow_unfollow_invisible_witness :
  (handle (handle (handle fixture_db (fixture_request (Some 2%nat) POST "/profile/auth/follow/" [])).1
      (fixture_request (Some 2%nat) POST "/profile/auth/unfollow/" [])).1
    (fixture_request (Some 2%nat) GET "/profile/auth/" [])).2 =
  (handle fixture_db (fixture_request (Some 2%nat) GET "/profile/auth/" [])).2.
Proof.
  apply (handle_follow_unfollow_invisible fixture_db _ _ _ 2 "auth" 1 (User.mk "auth") (RProfile "auth"));
    [reflexivity|vm_compute; reflexivity|reflexivity|vm_compute; reflexivity
    |vm_compute; reflexivity|lia|vm_compute; reflexivity|apply table_wf_empty
    |vm_compute; reflexivity|reflexivity].
Defined.

(** Every response of [handle] is well typed: a rendered response
    names the template that reads its context ([posts/index.html] for the
    index page, [posts/create_post.html] for both the create and edit
    forms, ...), whatever the request and the database. *)
Theorem handle_response_typed d r : response_typed (handle d r).2.
Proof.
  pose proof (dispatch_typed r d) as Hd. unfold handle, run_view.
  destruct (dispatch r d) as [d' [[]|resp]]; simpl in *; done.
Qed.

(** C31: From every reachable database, any account can come to follow
    any other account whose username the [<str:username>] converter
    accepts: one step, the [POST] of the author's follow URL, reaches a
    database, reachable in turn, with the follow row. *)
Theorem reachable_follow_possible d u a usr :
  reachable d → is_Some (rows (users d) !! u) → rows (users d) !! a = Some usr → u ≠ a →
  str_ok (User.username usr) = true →
  ∃ d', step d d' ∧ reachable d' ∧ ∃ kf, rows (follows d') !! kf = Some (Follow.mk u (Some a)).
Proof.
  intros Hr Hu Ha Hne Hok. pose proof (reachable_inv d Hr) as Hinv.
  set (r := Request (Some u) POST (route_path (RProfileFollow (User.username usr))) "" [] [] [] 0).
  assert (step d (handle d r).1) as Hstep by (constructor; by intros ? [= <-]).
  exists (handle d r).1. split_and!; [done|by eapply reachable_step|].
  unfold handle, run_view, dispatch, login_required.
  change (req_path r) with (route_path (RProfileFollow (User.username usr))). change (req_user r) with (Some u).
  rewrite resolve_route_path by done.
  rewrite (profile_follow_found r u _ a usr d (objects_get_by_key _ _ _ _ (inv_usernames _ Hinv) Ha)).
  rewrite bool_decide_eq_true_2 by done.
  destruct (objects_exists (follow_row u a) (follows d)) eqn:E; cbn.
  - by apply follow_row_exists.
  - exists (next_pk (follows d)). apply objects_create_Some; [apply (inv_wf _ Hinv)|by left].
Qed.

Lemma reachable_follow_possible_witness :
  ∃ d', step scenario_db d' ∧ reachable d' ∧
        ∃ kf, rows (follows d') !! kf = Some (Follow.mk 1 (Some 2)).
Proof.
  apply (reachable_follow_possible scenario_db 1 2 (User.mk "NotAuthor"));
    [apply reachable_scenario|vm_compute; by eexists|vm_compute; reflexivity|lia|vm_compute; reflexivity].
Defined.
