(* ===== verification/FollowGraph.v ===== *)
(** * FollowGraph: the follow table against its abstract specification

    The specification describes the follow graph as a set of directed
    edges from a follower to an author, with two operations: follow adds
    the edge unless it is a self-edge, unfollow removes it.  [edges]
    abstracts the [Follow] table to that set ([gset (nat * nat)]); the
    refinement theorem says that [profile_follow] and
    [profile_unfollow] of [posts/views.py] act on the abstraction as the
    two operations of the specification. *)

From stdpp Require Import base list strings gmap sets.
From S2P Require Import Prelude Orm Models Views Site.

(** ** The specification *)

Definition follow_graph := gset (nat * nat).

Definition follow_spec (u a : nat) (E : follow_graph) : follow_graph :=
  if decide (u = a) then E else E ∪ {[(u, a)]}.

Definition unfollow_spec (u a : nat) (E : follow_graph) : follow_graph := E ∖ {[(u, a)]}.

(** ** The abstraction of the table *)

Definition edge_of (kf : nat * Follow.t) : option (nat * nat) :=
  (λ a, (Follow.user kf.2, a)) <$> Follow.author kf.2.

Definition edges (t : table Follow.t) : follow_graph :=
  list_to_set (omap edge_of (map_to_list (rows t))).

Lemma elem_of_edges u a t :
  (u, a) ∈ edges t ↔ ∃ kf, rows t !! kf = Some (Follow.mk u (Some a)).
Proof.
  unfold edges. rewrite elem_of_list_to_set, list_elem_of_omap. split.
  - intros ([kf [fu [fa|]]] & Hkf%elem_of_map_to_list & Hx); unfold edge_of in Hx; simplify_eq/=. eauto.
  - intros [kf Hkf]. exists (kf, Follow.mk u (Some a)). by rewrite elem_of_map_to_list.
Qed.

(** An edge is in the abstraction exactly when [profile_follow]'s test
    finds a row. *)
Lemma edges_follow_row u a t : (u, a) ∈ edges t ↔ objects_exists (follow_row u a) t = true.
Proof. by rewrite elem_of_edges, follow_row_exists. Qed.

Lemma edges_create u a t :
  table_wf t → edges (objects_create (Follow.mk u (Some a)) t).2 = edges t ∪ {[(u, a)]}.
Proof.
  intros Hwf. apply set_eq. intros [x y].
  rewrite elem_of_union, elem_of_singleton, !elem_of_edges. split.
  - intros [kf [[-> [= -> ->]]|Hkf]%(objects_create_Some _ _ _ _ Hwf)]; eauto.
  - intros [[kf Hkf]|[= -> ->]].
    + exists kf. apply objects_create_Some; [done|]. by right.
    + exists (next_pk t). apply objects_create_Some; [done|]. by left.
Qed.

Lemma edges_delete u a t : edges (objects_delete (follow_row u a) t) = edges t ∖ {[(u, a)]}.
Proof.
  apply set_eq. intros [x y].
  rewrite elem_of_difference, elem_of_singleton, !elem_of_edges. split.
  - intros [kf [Hkf Hrow]%objects_delete_Some]. split; [eauto|].
    intros [= -> ->]. unfold follow_row in Hrow. simpl in Hrow.
    by rewrite !bool_decide_eq_true_2 in Hrow.
  - intros [[kf Hkf] Hne]. exists kf. apply objects_delete_Some. split; [done|].
    unfold follow_row. simpl. destruct (decide (x = u)) as [->|]; [|by rewrite bool_decide_eq_false_2].
    rewrite bool_decide_eq_true_2, bool_decide_eq_false_2 by congruence; done.
Qed.

(** C25: [profile_follow] and [profile_unfollow] refine the follow graph
    of the specification: once the author is found, the edges of the
    follow table after the view are those of [follow_spec], resp.
    [unfollow_spec], applied to the edges before. *)
Theorem profile_follow_unfollow_refine r u username a usr d :
  objects_get_by (λ _ x, bool_decide (User.username x = username)) (users d) = Found a usr →
  table_wf (follows d) →
  edges (follows (profile_follow r u username d).1) = follow_spec u a (edges (follows d)) ∧
  edges (follows (profile_unfollow r u username d).1) = unfollow_spec u a (edges (follows d)).
Proof.
  intros Ha Hwf. rewrite (profile_follow_found r u username a usr d Ha),
    (profile_unfollow_found r u username a usr d Ha). unfold follow_spec, unfollow_spec. split.
  - destruct (decide (u = a)) as [->|Hne].
    + by rewrite bool_decide_eq_false_2 by auto.
    + rewrite bool_decide_eq_true_2 by done.
      destruct (objects_exists (follow_row u a) (follows d)) eqn:E; cbn [negb andb fst set_follows follows].
      * apply edges_follow_row in E. set_solver.
      * by rewrite edges_create.
  - destruct (objects_exists (follow_row u a) (follows d)) eqn:E; cbn [fst set_follows follows]; [apply edges_delete|].
    assert ((u, a) ∉ edges (follows d)) by (rewrite edges_follow_row; congruence). set_solver.
Qed.

Lemma profile_follow_unfollow_refine_witness :
  let r := fixture_request (Some 2) GET "/profile/auth/follow/" [] in
  edges (follows (profile_follow r 2 "auth" fixture_db).1) = follow_spec 2 1 (edges (follows fixture_db)) ∧
  edges (follows (profile_unfollow r 2 "auth" fixture_db).1) = unfollow_spec 2 1 (edges (follows fixture_db)).
Proof.
  intros r. apply (profile_follow_unfollow_refine r 2 "auth" 1 (User.mk "auth") fixture_db);
    [vm_compute; reflexivity|apply table_wf_empty].
Defined.
