(* ===== verification/Concurrency.v ===== *)
(** * Concurrency: requests served side by side

    The specification (section 5) serves each request on a worker of
    its own, with blocking database calls, no transaction around a view
    and no locking.  [step] of [Site.v] runs a request in one go; here
    two requests may interleave their database statements.  Two views
    write on the strength of what they read before:

    - [profile_follow] keeps one row per follower and author by a check
      it makes before it writes: it looks the author up and asks
      [Follow.objects.filter(user=..., author=...).exists()] (the
      [SELECT]s, [follow_read]), then maybe [Follow.objects.create]s
      (the [INSERT], [follow_write]);
    - [post_edit] reads the post, tests the author and validates the
      form ([edit_read]), then calls [form.save()] ([edit_write]),
      which [UPDATE]s the row or, when the row is gone, [INSERT]s it
      again under its key.

    The foreign keys of the store refuse a write whose follower, author
    or group has been deleted in between.  A thread of the pool is a
    request not yet started or one of these requests between its reads
    and its write; [cstep] runs any operation of the site in one go, or
    one half of such a request.  The statements of the other views are
    not interleaved.

    [profile_follow_split] and [post_edit_split] show the two halves
    run back to back are the view.  [interleaving_accounts_inv]: every
    interleaving keeps referential integrity and the unique usernames
    and slugs.  [follow_race]: two follow requests whose [SELECT]s both
    run before either [INSERT] leave two identical follow rows, and the
    feed lists the author's posts twice.  [edit_delete_race]: a post
    deleted between an edit's reads and its save comes back. *)

From stdpp Require Import base list strings gmap relations.
From S2P Require Import Prelude Orm Models Urls Forms Views Site Handlers.

(** ** The two halves of [profile_follow] *)

(** The [SELECT]s: the author by username ([get_object_or_404]), and
    whether the view will [INSERT] ([user != author and not follow]). *)
Definition follow_read (u : nat) (username : string) (d : db) : option (nat * bool) :=
  match objects_get_by (λ _ usr, bool_decide (User.username usr = username)) (users d) with
  | Found a _ => Some (a, bool_decide (u ≠ a) && negb (objects_exists (follow_row u a) (follows d)))
  | _ => None
  end.

(** The [INSERT], on the database as it is when it runs.  The store's
    foreign keys refuse a row whose follower or author has been deleted
    since the [SELECT]s: an [IntegrityError], a server error, and
    nothing written. *)
Definition follow_write (u a : nat) (insert : bool) (d : db) : db :=
  if insert && bool_decide (is_Some (rows (users d) !! u)) && bool_decide (is_Some (rows (users d) !! a))
  then set_follows (objects_create (Follow.mk u (Some a)) (follows d)).2 d else d.

(** The user and the username of a request [dispatch] sends to
    [profile_follow]. *)
Definition follow_target (r : request) : option (nat * string) :=
  match req_user r, resolve (req_path r) with
  | Some u, Some (RProfileFollow s) => Some (u, s)
  | _, _ => None
  end.

(** ** The two halves of [post_edit] *)

(** The reads: the post by key, the author test and the form, whose
    group choice reads the groups; the key and the row [form.save()]
    will write, when the view will write. *)
Definition edit_read (r : request) (u post_id : nat) (d : db) : option (nat * Post.t) :=
  match objects_get_by (by_pk post_id) (posts d) with
  | Found k p =>
      if bool_decide (Post.author p ≠ u) then None
      else match post_form_valid d r with
           | Some c => Some (k, edited_post p c)
           | None => None
           end
  | _ => None
  end.

(** [form.save()] at time [now]: Django saves an instance that has a
    primary key by an [UPDATE] of its row and, when the [UPDATE] finds
    no row (the post was deleted since it was read), by an [INSERT]
    under the same key, for which [pub_date] ([auto_now_add]) takes the
    time of the save ([save_instance] with [Post.on_insert]).  The
    foreign keys refuse a row whose author or group is gone. *)
Definition edit_write (k : nat) (p : Post.t) (now : nat) (d : db) : db :=
  if bool_decide (is_Some (rows (users d) !! Post.author p)) && bool_decide (fk_ok (groups d) (Post.group p))
  then set_posts (save_instance (Post.on_insert now) k p (posts d)) d else d.

(** The user and the post of a request [dispatch] sends to [post_edit]. *)
Definition edit_target (r : request) : option (nat * nat) :=
  match req_user r, resolve (req_path r) with
  | Some u, Some (RPostEdit k) => Some (u, k)
  | _, _ => None
  end.

(** ** The pool of requests *)

Inductive thread :=
  | Pending (r : request)
  | FollowChecked (u a : nat) (insert : bool)
  | EditChecked (k : nat) (p : Post.t) (now : nat).

(** One step of the pool: any operation of the site in one go (another
    worker's request, a sign-up, an admin edit, a deletion), a pending
    request run in one go, or one half of a follow or an edit request. *)
Inductive cstep : db * list thread → db * list thread → Prop :=
  | cstep_site d d' ts : step d d' → cstep (d, ts) (d', ts)
  | cstep_run d r ts1 ts2 :
      request_ok d r → cstep (d, ts1 ++ Pending r :: ts2) ((handle d r).1, ts1 ++ ts2)
  | cstep_follow_read d r u s a ins ts1 ts2 :
      request_ok d r → follow_target r = Some (u, s) → follow_read u s d = Some (a, ins) →
      cstep (d, ts1 ++ Pending r :: ts2) (d, ts1 ++ FollowChecked u a ins :: ts2)
  | cstep_follow_write d u a ins ts1 ts2 :
      cstep (d, ts1 ++ FollowChecked u a ins :: ts2) (follow_write u a ins d, ts1 ++ ts2)
  | cstep_edit_read d r u k k' p ts1 ts2 :
      request_ok d r → edit_target r = Some (u, k) → edit_read r u k d = Some (k', p) →
      cstep (d, ts1 ++ Pending r :: ts2) (d, ts1 ++ EditChecked k' p (req_now r) :: ts2)
  | cstep_edit_write d k p now ts1 ts2 :
      cstep (d, ts1 ++ EditChecked k p now :: ts2) (edit_write k p now d, ts1 ++ ts2).

(** The rows an edit in flight will save have keys the post sequence has
    handed out. *)
Definition edits_ok (s : db * list thread) : Prop :=
  ∀ k p now, EditChecked k p now ∈ s.2 → 0 < k < next_pk (posts s.1).

(** ** The two halves make the view *)

Lemma follow_target_Some r u s :
  follow_target r = Some (u, s) → req_user r = Some u ∧ resolve (req_path r) = Some (RProfileFollow s).
Proof.
  unfold follow_target. destruct (req_user r), (resolve (req_path r)) as [[]|]; by intros [= -> ->].
Qed.

Lemma follow_read_Some u s d a ins :
  follow_read u s d = Some (a, ins) →
  is_Some (rows (users d) !! a) ∧ ins = bool_decide (u ≠ a) && negb (objects_exists (follow_row u a) (follows d)).
Proof.
  unfold follow_read. destruct (objects_get_by _ _) as [k v| |] eqn:E; [|done..]. intros [= <- <-].
  apply objects_get_by_Found in E as [E _]. by eexists.
Qed.

(** A write whose rows are still there: the [INSERT] of the view. *)
Lemma follow_write_users u a ins d :
  is_Some (rows (users d) !! u) → is_Some (rows (users d) !! a) →
  follow_write u a ins d = if ins then set_follows (objects_create (Follow.mk u (Some a)) (follows d)).2 d else d.
Proof. intros Hu Ha. unfold follow_write. rewrite !(bool_decide_eq_true_2 (is_Some _)), !andb_true_r by done. done. Qed.

(** The [SELECT]s followed at once by the [INSERT] are the view: a
    follow request run in one go ([step_request]) is [follow_read] then
    [follow_write] on the same database. *)
Theorem profile_follow_split d r u s :
  request_ok d r → follow_target r = Some (u, s) →
  (handle d r).1 = match follow_read u s d with Some (a, ins) => follow_write u a ins d | None => d end.
Proof.
  intros Hr (Hu & Hres)%follow_target_Some.
  unfold handle, run_view, dispatch, login_required. rewrite Hres, Hu.
  destruct (follow_read u s d) as [[a ins]|] eqn:E.
  - destruct (follow_read_Some _ _ _ _ _ E) as [Ha ->]. rewrite follow_write_users by auto.
    unfold follow_read in E. destruct (objects_get_by _ _) as [k v| |] eqn:Eg; [|done..].
    injection E as <-. by rewrite (profile_follow_found r u s k v d Eg).
  - unfold follow_read in E. unfold profile_follow. rewrite get_object_or_404_bind.
    by destruct (objects_get_by _ _).
Qed.

Lemma edit_target_Some r u k :
  edit_target r = Some (u, k) → req_user r = Some u ∧ resolve (req_path r) = Some (RPostEdit k).
Proof.
  unfold edit_target. destruct (req_user r), (resolve (req_path r)) as [[]|]; by intros [= -> ->].
Qed.

(** A save whose author and group are still there. *)
Lemma edit_write_fk k p now d :
  is_Some (rows (users d) !! Post.author p) → fk_ok (groups d) (Post.group p) →
  edit_write k p now d = set_posts (save_instance (Post.on_insert now) k p (posts d)) d.
Proof. intros Hu Hg. unfold edit_write. by rewrite !bool_decide_eq_true_2. Qed.

(** The reads followed at once by the save are the view: an edit request
    run in one go is [edit_read] then [edit_write] on the same database. *)
Theorem post_edit_split d r u k :
  request_ok d r → edit_target r = Some (u, k) →
  (handle d r).1 = match edit_read r u k d with Some (k', p) => edit_write k' p (req_now r) d | None => d end.
Proof.
  intros Hr (Hu & Hres)%edit_target_Some.
  unfold handle, run_view, dispatch, login_required. rewrite Hres, Hu.
  unfold post_edit. rewrite get_object_or_404_pk. unfold edit_read, by_pk. rewrite objects_get_by_pk.
  destruct (rows (posts d) !! k) as [p|] eqn:Hp; [|done]. simpl.
  case_bool_decide as Ha; exc_simpl; [done|].
  destruct (post_form_valid d r) as [c|] eqn:Hc; exc_simpl; [|done].
  rewrite edit_write_fk, save_instance_stored by
    (done || (simpl; rewrite Ha; by apply Hr) || by eapply post_form_valid_group). done.
Qed.

(** ** What every interleaving keeps *)

Lemma follow_write_accounts u a ins d : accounts_inv d → accounts_inv (follow_write u a ins d).
Proof.
  intros Ha. unfold follow_write. destruct ins; [|done]. simpl.
  case_bool_decide as Hu; [|done]. case_bool_decide as Hau; [|done]. cbn.
  apply accounts_inv_of with d; [done| |done].
  apply set_follows_create_wf; [apply Ha|done|by intros ? [= <-]].
Qed.

Lemma edit_write_accounts k p now d :
  accounts_inv d → 0 < k < next_pk (posts d) → accounts_inv (edit_write k p now d).
Proof.
  intros Ha Hk. unfold edit_write. case_bool_decide as Hu; [|done]. case_bool_decide as Hg; [|done]. cbn.
  apply accounts_inv_of with d; [done| |done].
  unfold save_instance. case_match; (apply set_posts_save_key_wf; [apply Ha|done..]).
Qed.

(** No operation moves the post sequence back. *)
Lemma handle_posts_next_pk d r : next_pk (posts d) ≤ next_pk (posts (handle d r).1).
Proof.
  apply (dispatch_keeps (λ d', next_pk (posts d) ≤ next_pk (posts d'))); [done|]. intros u _.
  refine (conj _ (conj _ (conj _ (conj _ _)))); intros; cbv beta.
  - unfold post_create, create_page_with_form. destruct (req_method r); exc_simpl; [lia|].
    destruct (post_form_valid d r); exc_simpl; lia.
  - unfold post_edit, get_object_or_404. exc_simpl. destruct (objects_get_by _ _); simpl; [|lia..].
    case_bool_decide; exc_simpl; [lia|]. destruct (post_form_valid d r); exc_simpl; [|lia].
    unfold instance_save. simpl. lia.
  - unfold add_comment, get_object_or_404. exc_simpl. destruct (objects_get_by _ _); simpl; [|lia..].
    destruct (comment_form_valid r); exc_simpl; lia.
  - unfold profile_follow, get_object_or_404. exc_simpl. destruct (objects_get_by _ _); simpl; [|lia..].
    destruct (_ && _); exc_simpl; lia.
  - unfold profile_unfollow, get_object_or_404. exc_simpl. destruct (objects_get_by _ _); simpl; [|lia..].
    destruct (objects_exists _ _); exc_simpl; lia.
Qed.

Lemma step_posts_next_pk d d' : step d d' → next_pk (posts d) ≤ next_pk (posts d').
Proof.
  destruct 1 as [d r _|d name d' E|d g d' E|d k|d g|d u]; [apply handle_posts_next_pk|..].
  - apply signup_Some in E as (_ & _ & ->). done.
  - unfold create_group in E. case_match; simplify_eq. done.
  - done.
  - done.
  - done.
Qed.

Lemma elem_of_pool (x t : thread) ts1 ts2 : x ∈ ts1 ++ t :: ts2 ↔ x = t ∨ x ∈ ts1 ++ ts2.
Proof. rewrite !elem_of_app, elem_of_cons. tauto. Qed.

Lemma edit_read_Some r u k d k' p : edit_read r u k d = Some (k', p) → is_Some (rows (posts d) !! k').
Proof.
  unfold edit_read. destruct (objects_get_by _ _) as [k0 p0| |] eqn:E; [|done..].
  apply objects_get_by_Found in E as [E _]. repeat case_match; intros; simplify_eq. by eexists.
Qed.

Lemma edit_write_next_pk k p now d : next_pk (posts (edit_write k p now d)) = next_pk (posts d).
Proof. unfold edit_write, save_instance. by repeat case_match. Qed.

Lemma follow_write_posts u a ins d : posts (follow_write u a ins d) = posts d.
Proof. unfold follow_write. by case_match. Qed.

Lemma cstep_accounts s s' : accounts_inv s.1 → edits_ok s → cstep s s' → accounts_inv s'.1 ∧ edits_ok s'.
Proof.
  intros Ha He Hs. destruct Hs as [d d' ts Hst|d r ts1 ts2 Hr|d r u s0 a ins ts1 ts2 Hr _ _|d u a ins ts1 ts2
    |d r u k k' p ts1 ts2 Hr _ Hread|d k p now ts1 ts2]; unfold edits_ok in *; simpl in *.
  - split; [by eapply step_accounts|]. intros k p now Hk. pose proof (step_posts_next_pk d d' Hst).
    specialize (He k p now Hk). lia.
  - split; [by eapply handle_accounts|]. intros k p now Hk. pose proof (handle_posts_next_pk d r).
    enough (0 < k < next_pk (posts d)) by lia. apply (He k p now), elem_of_pool. by right.
  - split; [done|]. intros k p now [[=]|Hk]%elem_of_pool. apply (He k p now), elem_of_pool. by right.
  - split; [by apply follow_write_accounts|]. rewrite follow_write_posts.
    intros k p now Hk. apply (He k p now), elem_of_pool. by right.
  - split; [done|]. intros k0 p0 now0 [[= -> -> _]|Hk]%elem_of_pool.
    + by apply table_wf_key; [apply (wf_posts _ (ainv_wf _ Ha))|apply (edit_read_Some r u k d k' p)].
    + apply (He k0 p0 now0), elem_of_pool. by right.
  - assert (0 < k < next_pk (posts d)) as Hk by (apply (He k p now), elem_of_pool; by left).
    split; [by apply edit_write_accounts|]. rewrite edit_write_next_pk.
    intros k0 p0 now0 Hk0. apply (He k0 p0 now0), elem_of_pool. by right.
Qed.

Lemma rtc_cstep_accounts s s' : accounts_inv s.1 → edits_ok s → rtc cstep s s' → accounts_inv s'.1.
Proof.
  intros Ha He Hs. induction Hs as [|s1 s2 s3 H12 _ IH]; [done|].
  destruct (cstep_accounts s1 s2 Ha He H12). by apply IH.
Qed.

(** The accounts, the groups and referential integrity survive every
    interleaving of requests (for the interleaved writes, because the
    database's foreign-key constraints refuse a row naming a deleted
    one, which [follow_write] and [edit_write] write out): from a reachable database and a pool of
    requests, whatever order their statements run in and whatever other
    operations run between them, every database is well formed (no row
    refers to a missing one, the [INSERT] of a stale follow and the
    [save()] of a stale edit included), with unique usernames, each
    accepted by the validator, and unique group slugs. *)
Theorem interleaving_accounts_inv d rs s' :
  reachable d → rtc cstep (d, Pending <$> rs) s' → accounts_inv s'.1.
Proof.
  intros Hr%reachable_inv%site_inv_accounts Hs. destruct Hr as [Ha _].
  apply (rtc_cstep_accounts (d, Pending <$> rs) s' Ha); [|done]. by intros k p now (? & ? & _)%list_elem_of_fmap.
Qed.

(** ** Two follow requests at once *)

(** The [SELECT]s of a follow request find the author by username. *)
Lemma follow_read_author d u a usr :
  unique_by User.username (users d) → rows (users d) !! a = Some usr →
  follow_read u (User.username usr) d =
    Some (a, bool_decide (u ≠ a) && negb (objects_exists (follow_row u a) (follows d))).
Proof. intros Hu Ha. unfold follow_read. by rewrite (objects_get_by_key User.username _ _ _ Hu Ha). Qed.

(** The [INSERT] of a new follow row: the row under the next key. *)
Lemma follow_write_new u a d :
  is_Some (rows (users d) !! u) → is_Some (rows (users d) !! a) →
  users (follow_write u a true d) = users d ∧ posts (follow_write u a true d) = posts d ∧
  follows (follow_write u a true d) = (objects_create (Follow.mk u (Some a)) (follows d)).2.
Proof. intros Hu Ha. by rewrite follow_write_users. Qed.

(** The two runs of two copies of a follow request, on a database where
    the follower does not follow the author yet. *)
Section race.
Context (d : db) (r : request) (u a : nat) (usr : User.t).
Hypothesis Hr : reachable d.
Hypothesis Hok : request_ok d r.
Hypothesis Ht : follow_target r = Some (u, User.username usr).
Hypothesis Ha : rows (users d) !! a = Some usr.
Hypothesis Hne : u ≠ a.
Hypothesis Hno : objects_exists (follow_row u a) (follows d) = false.

Let f := Follow.mk u (Some a).
Let d1 := follow_write u a true d.

Lemma race_users : is_Some (rows (users d) !! u) ∧ is_Some (rows (users d) !! a).
Proof. destruct (follow_target_Some _ _ _ Ht) as [Hu _]. split; [by apply Hok|by eexists]. Qed.

Lemma race_read : follow_read u (User.username usr) d = Some (a, true).
Proof.
  rewrite (follow_read_author d u a usr (inv_usernames _ (reachable_inv d Hr)) Ha).
  by rewrite bool_decide_eq_true_2, Hno.
Qed.

Lemma race_d1 :
  users d1 = users d ∧ posts d1 = posts d ∧ follows d1 = (objects_create f (follows d)).2.
Proof. destruct race_users. by apply follow_write_new. Qed.

(** The first request, whole: the row is there, the database reachable. *)
Lemma race_first : (handle d r).1 = d1 ∧ reachable d1 ∧ objects_exists (follow_row u a) (follows d1) = true.
Proof.
  assert ((handle d r).1 = d1) as Eh by (by rewrite (profile_follow_split d r u _ Hok Ht), race_read).
  split_and!; [done|rewrite <-Eh; apply (reachable_step d); [done|by constructor]|].
  destruct race_d1 as (_ & _ & ->). apply objects_exists_create. unfold follow_row. simpl.
  by rewrite !bool_decide_eq_true_2.
Qed.

(** The second request, run after the first, sees the row and writes nothing. *)
Lemma race_second : request_ok d1 r ∧ (handle d1 r).1 = d1.
Proof.
  destruct race_d1 as (Eu1 & _ & _). destruct race_first as (_ & _ & Hex1).
  assert (request_ok d1 r) as Hok1 by (intros v Hv; rewrite Eu1; by apply Hok). split; [done|].
  rewrite (profile_follow_split d1 r u _ Hok1 Ht), (follow_read_author d1 u a usr);
    [|rewrite Eu1; apply (reachable_inv d Hr)|by rewrite Eu1].
  by rewrite Hex1, andb_false_r.
Qed.

Lemma race_serial_run : rtc cstep (d, [Pending r; Pending r]) (d1, []).
Proof.
  destruct race_first as (Eh & _ & _). destruct race_second as [Hok1 Eh1].
  eapply rtc_l; [apply (cstep_run d r [] [Pending r]), Hok|]. rewrite Eh.
  eapply rtc_l; [apply (cstep_run d1 r [] []), Hok1|]. rewrite Eh1. apply rtc_refl.
Qed.

Let d2 := follow_write u a true d1.

(** Both [SELECT]s, then both [INSERT]s. *)
Lemma race_interleaved_run : rtc cstep (d, [Pending r; Pending r]) (d2, []).
Proof.
  eapply rtc_l; [apply (cstep_follow_read d r u (User.username usr) a true [] [Pending r]);
                 [done|done|apply race_read]|].
  eapply rtc_l; [apply (cstep_follow_read d r u (User.username usr) a true [FollowChecked u a true] []);
                 [done|done|apply race_read]|].
  eapply rtc_l; [apply (cstep_follow_write d u a true [] [FollowChecked u a true])|].
  eapply rtc_l; [apply (cstep_follow_write d1 u a true [] [])|]. apply rtc_refl.
Qed.

(** The two [INSERT]s leave the row under two keys. *)
Lemma race_rows :
  next_pk (follows d) ≠ next_pk (follows d1) ∧ posts d2 = posts d ∧
  ∀ kf, kf = next_pk (follows d) ∨ kf = next_pk (follows d1) → rows (follows d2) !! kf = Some f.
Proof.
  destruct race_d1 as (Eu1 & Ep1 & Ef1). destruct race_users as [Hus Has].
  destruct (follow_write_new u a d1) as (_ & Ep2 & Ef2); [by rewrite Eu1..|].
  fold d2 in Ep2, Ef2. rewrite Ef1 in Ef2 |- *. split_and!; [simpl; lia|congruence|].
  intros kf Hkf. rewrite Ef2, objects_create_lookup. case_decide as Hk2; [done|].
  rewrite objects_create_lookup, decide_True; [done|]. simpl in *. lia.
Qed.

End race.

(** C16: [profile_follow] checks, then acts, with no transaction and no
    unique constraint.  Take a reachable database, a user [u] who does not
    follow the author [a] of a post [k], and two copies of [u]'s request
    to follow [a] on two workers.  Run one after the other, they leave a
    reachable database with one follow row, and the feed lists the post
    once.  Interleaved, both [SELECT]s before either [INSERT], they leave
    two rows for the same follower and author: a database no serial run
    reaches, in which the feed lists the post twice. *)
Theorem follow_race d r u a usr k p :
  reachable d → request_ok d r → follow_target r = Some (u, User.username usr) →
  rows (users d) !! a = Some usr → u ≠ a → objects_exists (follow_row u a) (follows d) = false →
  rows (posts d) !! k = Some p → Post.author p = a →
  (∃ d1, rtc cstep (d, [Pending r; Pending r]) (d1, []) ∧ reachable d1 ∧
     (k, p) ∈ follow_join d1 u ∧ NoDup (follow_join d1 u)) ∧
  (∃ d2, rtc cstep (d, [Pending r; Pending r]) (d2, []) ∧ ¬ reachable d2 ∧
     (∃ k1 k2, k1 ≠ k2 ∧ rows (follows d2) !! k1 = Some (Follow.mk u (Some a)) ∧
               rows (follows d2) !! k2 = Some (Follow.mk u (Some a))) ∧
     (k, p) ∈ follow_join d2 u ∧ ¬ NoDup (follow_join d2 u)).
Proof.
  intros Hr Hok Ht Ha Hne Hno Hp Hpa. split.
  - destruct (race_first d r u a usr Hr Hok Ht Ha Hne Hno) as (_ & Hr1 & Hex1).
    destruct (race_d1 d r u a usr Hok Ht Ha) as (_ & Ep1 & _).
    pose proof (inv_follows _ (reachable_inv _ Hr1)) as [_ Hu1].
    eexists. split_and!; [by eapply (race_serial_run d r u a usr)|done| |by apply follow_join_NoDup].
    rewrite (follow_join_queryset _ u Hu1), elem_of_queryset, Ep1, Hpa. by split.
  - destruct (race_rows d r u a usr Hok Ht Ha Hne) as (Hne12 & Ep2 & Hrows).
    eexists. split; [by eapply (race_interleaved_run d r u a usr)|]. split_and!.
    + intros [_ Huniq]%reachable_inv%inv_follows.
      by apply Hne12, (Huniq _ (Follow.mk u (Some a)) _ (Follow.mk u (Some a))); [apply Hrows; left|apply Hrows; right|].
    + eexists _, _. split_and!; [exact Hne12|apply Hrows; auto..].
    + apply (follow_join_duplicate_edges _ u a k p _ _ Hne12); [apply Hrows; auto..|by rewrite Ep2|done].
    + apply (follow_join_duplicate_edges _ u a k p _ _ Hne12); [apply Hrows; auto..|by rewrite Ep2|done].
Qed.

Lemma follow_race_witness :
  let r := fixture_request (Some 2) POST "/profile/auth/follow/" [] in
  let p := Post.mk "Тестовый пост" 5 1 None "" in
  reachable scenario_d3 ∧ request_ok scenario_d3 r ∧ follow_target r = Some (2%nat, "auth") ∧
  (∃ d1, rtc cstep (scenario_d3, [Pending r; Pending r]) (d1, []) ∧ reachable d1 ∧
     (1%nat, p) ∈ follow_join d1 2 ∧ NoDup (follow_join d1 2)) ∧
  (∃ d2, rtc cstep (scenario_d3, [Pending r; Pending r]) (d2, []) ∧ ¬ reachable d2 ∧
     (∃ k1 k2, k1 ≠ k2 ∧ rows (follows d2) !! k1 = Some (Follow.mk 2 (Some 1%nat)) ∧
               rows (follows d2) !! k2 = Some (Follow.mk 2 (Some 1%nat))) ∧
     (1%nat, p) ∈ follow_join d2 2 ∧ ¬ NoDup (follow_join d2 2)).
Proof.
  intros r p. split_and!; [apply reachable_scenario_d3|intros v [= <-]; vm_compute; by eexists|reflexivity|..];
  apply (follow_race scenario_d3 r 2 1 (User.mk "auth") 1 p);
    solve [apply reachable_scenario_d3|intros v [= <-]; vm_compute; by eexists|vm_compute; reflexivity|lia].
Defined.

Lemma interleaving_accounts_inv_witness :
  let r := fixture_request (Some 2) POST "/profile/auth/follow/" [] in
  reachable scenario_d3 ∧
  rtc cstep (scenario_d3, [Pending r; Pending r]) (follow_write 2 1 true (follow_write 2 1 true scenario_d3), []) ∧
  accounts_inv (follow_write 2 1 true (follow_write 2 1 true scenario_d3)).
Proof.
  intros r.
  assert (rtc cstep (scenario_d3, [Pending r; Pending r])
            (follow_write 2 1 true (follow_write 2 1 true scenario_d3), [])) as Hrun.
  { apply (race_interleaved_run scenario_d3 r 2 1 (User.mk "auth"));
      solve [apply reachable_scenario_d3|vm_compute; reflexivity|lia|intros v [= <-]; vm_compute; by eexists]. }
  split_and!; [apply reachable_scenario_d3|exact Hrun|].
  apply (interleaving_accounts_inv scenario_d3 [r; r] _ reachable_scenario_d3 Hrun).
Defined.

(** ** An edit and a deletion at once *)

Lemma edit_read_found r u k d p c :
  rows (posts d) !! k = Some p → Post.author p = u → post_form_valid d r = Some c →
  edit_read r u k d = Some (k, edited_post p c).
Proof.
  intros Hp Ha Hc. unfold edit_read, by_pk. rewrite objects_get_by_pk, Hp. cbn.
  rewrite bool_decide_eq_false_2 by (intros []; done). by rewrite Hc.
Qed.

Lemma delete_post_gone k d : rows (posts (delete_post k d)) !! k = None.
Proof. cbn. rewrite objects_delete_lookup. case_match; [|done]. by rewrite bool_decide_eq_true_2. Qed.

Lemma delete_post_comments k d kc cm :
  rows (comments (delete_post k d)) !! kc = Some cm → Comment.post cm ≠ Some k.
Proof. cbn. intros [_ Hc]%objects_delete_Some. by apply bool_decide_eq_false in Hc. Qed.

(** C27: [post_edit] reads the post, then [form.save()]s it, and Django's
    [save()] inserts the row again when it no longer exists.  When an
    author's valid edit and the deletion of the post (admin site) run
    one after the other, in either order, the post is gone.  When the
    deletion runs between the edit's reads and its save, the post comes
    back under its key with the edited text and group, its author, and,
    [pub_date] being [auto_now_add], the time of the edit as its date,
    while its comments, deleted with it by CASCADE, stay deleted: the
    deletion is lost. *)
Theorem edit_delete_race d r u k p c :
  request_ok d r → edit_target r = Some (u, k) →
  rows (posts d) !! k = Some p → Post.author p = u → post_form_valid d r = Some c →
  rows (posts (delete_post k (handle d r).1)) !! k = None ∧
  rows (posts (handle (delete_post k d) r).1) !! k = None ∧
  rtc cstep (d, [Pending r]) (edit_write k (edited_post p c) (req_now r) (delete_post k d), []) ∧
  rows (posts (edit_write k (edited_post p c) (req_now r) (delete_post k d))) !! k =
    Some (Post.mk (cleaned_text c) (req_now r) u (cleaned_group c) (apply_image (cleaned_image c) (Post.image p))) ∧
  (∀ kc cm, rows (comments (edit_write k (edited_post p c) (req_now r) (delete_post k d))) !! kc = Some cm →
            Comment.post cm ≠ Some k).
Proof.
  intros Hr Ht Hp Ha Hc. pose proof (edit_target_Some _ _ _ Ht) as [Hu _].
  assert (edit_write k (edited_post p c) (req_now r) (delete_post k d) =
            set_posts (instance_save k (Post.on_insert (req_now r) (edited_post p c)) (posts (delete_post k d)))
              (delete_post k d)) as Ew.
  { rewrite edit_write_fk, save_instance_missing; [done|apply delete_post_gone|..];
      cbn; [rewrite Ha; by apply Hr|by eapply post_form_valid_group]. }
  split_and!.
  - apply delete_post_gone.
  - rewrite (post_edit_split _ r u k); [|intros v Hv; by apply Hr|done].
    unfold edit_read, by_pk. rewrite objects_get_by_pk, delete_post_gone. apply delete_post_gone.
  - eapply rtc_l; [apply (cstep_edit_read d r u k k (edited_post p c) [] []); [done|done|]|].
    { by apply edit_read_found. }
    eapply rtc_l; [apply cstep_site, step_delete_post|].
    eapply rtc_l; [apply (cstep_edit_write _ k (edited_post p c) (req_now r) [] [])|]. apply rtc_refl.
  - rewrite Ew. cbn. unfold instance_save. cbn. rewrite lookup_insert_eq. by subst u.
  - rewrite Ew. apply delete_post_comments.
Qed.

Lemma edit_delete_race_witness :
  let r := Request (Some 1) POST "/posts/1/edit/" "" [] [("text", "Изменённый пост")] [] 9 in
  let p := Post.mk "Тестовый пост" 5 1 None "" in
  let c := PostCleaned "Изменённый пост" None KeepImage in
  request_ok scenario_d3 r ∧ edit_target r = Some (1%nat, 1%nat) ∧
  rows (posts scenario_d3) !! 1%nat = Some p ∧ post_form_valid scenario_d3 r = Some c ∧
  rows (posts (delete_post 1 (handle scenario_d3 r).1)) !! 1%nat = None ∧
  rows (posts (handle (delete_post 1 scenario_d3) r).1) !! 1%nat = None ∧
  rtc cstep (scenario_d3, [Pending r]) (edit_write 1 (edited_post p c) 9 (delete_post 1 scenario_d3), []) ∧
  rows (posts (edit_write 1 (edited_post p c) 9 (delete_post 1 scenario_d3))) !! 1%nat =
    Some (Post.mk "Изменённый пост" 9 1 None "") ∧
  (∀ kc cm, rows (comments (edit_write 1 (edited_post p c) 9 (delete_post 1 scenario_d3))) !! kc = Some cm →
            Comment.post cm ≠ Some 1%nat).
Proof.
  intros r p c.
  assert (request_ok scenario_d3 r) as Hr by (intros v [= <-]; vm_compute; by eexists).
  split_and!; [exact Hr|vm_compute; reflexivity|vm_compute; reflexivity|vm_compute; reflexivity|..];
    apply (edit_delete_race scenario_d3 r 1 1 p c); solve [exact Hr|vm_compute; reflexivity].
Defined.
